(** * BLE gateway: AT protocol engine and mode controller

    Shallow embedding of [App/BLE_Gateway/Src/at_command.c] and
    [App/BLE_Gateway/Src/module_mode.c], and of the parts of
    [module_config.c], [module_power.c] and [ble_event_handler.c] that
    the commands and the discovery reports go through; of
    [module_system.c], that its two resets do not return.

    Conventions.
    - Fixed-width unsigned integers are [Z] values with the wrap-around of
      the C type written out ([wrap8], [wrap16], [wrap32]).
    - A [char] is an [ascii]; [code] is its value as an unsigned byte.  Every
      comparison the sources make on characters has both bounds inside
      0..127, so the signedness of plain [char] does not matter.
    - A C string is a [string]: the characters before the terminating NUL.
      A [const char *] that the source tests against [NULL] is an
      [option string].
    - Arrays are lists, read with [!!] and written with [<[i:=x]>]. *)

From Stdlib Require Import ZArith String Ascii Bool Lia.
From stdpp Require Import base tactics list.

Local Open Scope string_scope.
Local Open Scope Z_scope.

(** ** Machine integers *)

Definition wrap8 (z : Z) : Z := z mod 256.
Definition wrap16 (z : Z) : Z := z mod 65536.
Definition wrap32 (z : Z) : Z := z mod 4294967296.

Definition code (c : ascii) : Z := Z.of_N (N_of_ascii c).

Definition NUL : ascii := ascii_of_N 0.
Definition CR : ascii := ascii_of_N 13.
Definition LF : ascii := ascii_of_N 10.

(** The two characters the sources write as ["\r\n"]. *)
Definition CRLF : string := String CR (String LF EmptyString).

(** ** C strings *)

(** [s[k]]: the character at index [k], the terminator at [k = strlen s]. *)
Definition char_at (s : string) (k : nat) : ascii :=
  match String.get k s with
  | Some c => c
  | None => NUL
  end.

(** [s + n] for [n <= strlen s]. *)
Fixpoint str_drop (n : nat) (s : string) : string :=
  match n, s with
  | O, _ => s
  | S n', String _ rest => str_drop n' rest
  | S _, EmptyString => EmptyString
  end.

(** The first [n] characters of [s] (a terminator written at [s[n]]). *)
Fixpoint str_take (n : nat) (s : string) : string :=
  match n, s with
  | O, _ => EmptyString
  | S n', String c rest => String c (str_take n' rest)
  | S _, EmptyString => EmptyString
  end.

(** [strcmp(s, lit) == 0]. *)
Definition strcmp_eq (s lit : string) : bool := String.eqb s lit.

(** [strncmp(s, lit, n) == 0] for a literal [lit] of exactly [n]
    characters: [lit] is a prefix of [s]. *)
Definition strncmp_eq (s lit : string) : bool := String.prefix lit s.

(** ** Static helper functions of at_command.c *)

Module Parse.

Definition is_digit (c : ascii) : bool := (48 <=? code c) && (code c <=? 57).

(** [ParseUInt16]: the [while] loop, [val] is a [uint32_t]. *)
Fixpoint ParseUInt16_loop (str : string) (val : Z) : Z :=
  match str with
  | String c rest =>
      if is_digit c then
        let val' := wrap32 (val * 10 + wrap32 (code c - 48)) in
        if 65535 <? val' then 0 (* Overflow *)
        else ParseUInt16_loop rest val'
      else wrap16 val
  | EmptyString => wrap16 val
  end.

Definition ParseUInt16 (str : option string) : Z :=
  match str with
  | None => 0
  | Some EmptyString => 0
  | Some s => ParseUInt16_loop s 0
  end.

(** [ParseUInt8]: the [while] loop, [val] is a [uint16_t]. *)
Fixpoint ParseUInt8_loop (str : string) (val : Z) : Z :=
  match str with
  | String c rest =>
      if is_digit c then
        let val' := wrap16 (val * 10 + wrap16 (code c - 48)) in
        if 255 <? val' then 255 (* Overflow *)
        else ParseUInt8_loop rest val'
      else wrap8 val
  | EmptyString => wrap8 val
  end.

Definition ParseUInt8 (str : option string) : Z :=
  match str with
  | None => 255
  | Some EmptyString => 255
  | Some s => ParseUInt8_loop s 0
  end.

(** [SkipToComma]: pointer to the character after the next comma, or
    [NULL]. *)
Fixpoint SkipToComma_loop (str : string) : option string :=
  match str with
  | String c rest =>
      if Ascii.eqb c ","%char then Some rest else SkipToComma_loop rest
  | EmptyString => None
  end.

Definition SkipToComma (str : option string) : option string :=
  match str with
  | None => None
  | Some s => SkipToComma_loop s
  end.

(** [ParseHexNibble]: 0-15 if valid, 0xFF if invalid. *)
Definition ParseHexNibble (c : ascii) : Z :=
  if (48 <=? code c) && (code c <=? 57) then wrap8 (code c - 48)
  else if (65 <=? code c) && (code c <=? 70) then wrap8 (code c - 65 + 10)
  else if (97 <=? code c) && (code c <=? 102) then wrap8 (code c - 97 + 10)
  else 255.

(** The loop of [ParseHexString] together with the check that follows it.
    [i] is the [uint16_t] index; the result is the return value and the
    output buffer. *)
Fixpoint ParseHexString_loop (hex_str : string) (out_bytes : list Z)
    (max_len : Z) (i : Z) : Z * list Z :=
  match hex_str with
  | String c0 (String c1 rest) =>
      if i <? max_len then
        let hi := ParseHexNibble c0 in
        let lo := ParseHexNibble c1 in
        if (hi =? 255) || (lo =? 255) then (-1, out_bytes)
        else
          ParseHexString_loop rest
            (<[Z.to_nat i := wrap8 (Z.lor (Z.shiftl hi 4) lo)]> out_bytes)
            max_len (wrap16 (i + 1))
      else
        (* loop left on [i >= max_len]; two characters remain *)
        (i, out_bytes)
  | String _ EmptyString =>
      (* a remaining unpaired nibble *)
      (-1, out_bytes)
  | EmptyString => (i, out_bytes)
  end.

(** [ParseHexString]: number of bytes parsed, or -1.  [max_len] is a
    [uint16_t]. *)
Definition ParseHexString (hex_str : option string)
    (out_bytes : option (list Z)) (max_len : Z) : Z * option (list Z) :=
  match hex_str, out_bytes with
  | Some s, Some out =>
      if max_len =? 0 then (-1, out_bytes)
      else
        let hex_len := Z.of_nat (String.length s) in
        if negb (hex_len mod 2 =? 0) then (-1, out_bytes)
        else if max_len <? hex_len / 2 then (-1, out_bytes)
        else
          let '(r, out') := ParseHexString_loop s out max_len 0 in
          (r, Some out')
  | _, _ => (-1, out_bytes)
  end.

(** One hex digit of [ParseMACString]: [Some] nibble, or [None] for the
    [else return -1] branch. *)
Definition mac_nibble (c : ascii) : option Z :=
  if (48 <=? code c) && (code c <=? 57) then Some (wrap8 (code c - 48))
  else if (65 <=? code c) && (code c <=? 70) then Some (wrap8 (code c - 65 + 10))
  else if (97 <=? code c) && (code c <=? 102) then Some (wrap8 (code c - 97 + 10))
  else None.

(** The [for] loop of [ParseMACString]; [n] iterations remain and [i] is
    the loop variable. *)
Fixpoint ParseMACString_loop (n : nat) (i : nat) (mac_str : string)
    (mac_bytes : list Z) : Z * list Z :=
  match n with
  | O => (0, mac_bytes)
  | S n' =>
      match mac_nibble (char_at mac_str (i * 3)) with
      | None => (-1, mac_bytes)
      | Some hi =>
          match mac_nibble (char_at mac_str (i * 3 + 1)) with
          | None => (-1, mac_bytes)
          | Some lo =>
              let mac_bytes' :=
                <[i := wrap8 (Z.lor (Z.shiftl hi 4) lo)]> mac_bytes in
              if (i <? 5)%nat
                 && negb (Ascii.eqb (char_at mac_str (i * 3 + 2)) ":"%char)
              then (-1, mac_bytes')
              else ParseMACString_loop n' (S i) mac_str mac_bytes'
          end
      end
  end.

(** [ParseMACString]: 0 on success, -1 on error; the second component is
    the caller's 6-byte array after the call. *)
Definition ParseMACString (mac_str : option string)
    (mac_bytes : option (list Z)) : Z * option (list Z) :=
  match mac_str, mac_bytes with
  | Some s, Some out =>
      let '(r, out') := ParseMACString_loop 6 0 s out in (r, Some out')
  | _, _ => (-1, mac_bytes)
  end.

End Parse.

(** ** Collaborators, events and machine state *)

(** A device record of the device manager (ble_device_manager.h), as the
    sources read it. *)
Record BLE_Device_t := {
  mac_addr : list Z;       (* uint8_t[6] *)
  rssi : Z;                (* int8_t *)
  conn_handle : Z;         (* uint16_t *)
  is_connected : bool;
  name : string
}.

(** What the collaborators answer during one call from the serial side:
    the tick counter, the device table, and the status each BLE request
    would return. *)
Record Env := {
  HAL_GetTick : Z;                                          (* uint32_t *)
  BLE_DeviceManager_GetCount : Z;                           (* uint8_t *)
  BLE_DeviceManager_GetDevice : Z -> option BLE_Device_t;   (* NULL = None *)
  BLE_DeviceManager_FindDevice : list Z -> Z;
  BLE_GATT_WriteCharacteristic : Z -> Z -> list Z -> Z;
  BLE_GATT_ReadCharacteristic : Z -> Z -> Z;
  BLE_Connection_CreateConnection : list Z -> Z;
  BLE_Connection_StopScan : Z
}.

Inductive Operation_Mode_t := MODE_COMMAND | MODE_DATA.

Definition mode_eqb (a b : Operation_Mode_t) : bool :=
  match a, b with
  | MODE_COMMAND, MODE_COMMAND | MODE_DATA, MODE_DATA => true
  | _, _ => false
  end.

(** Handlers of at_command.c that no property below looks into: the
    dispatcher's call is recorded with its arguments.  The event stands
    for what the handler does up to its last statement; whether the
    handler comes back is the dispatcher's business
    ([AT_RESET_Handler] and [AT_FACTORY_Handler] do not). *)
Inductive Handler :=
| AT_SCAN_Handler (duration_ms : Z)
| AT_DISCONNECT_Handler (dev_idx : Z)
| AT_NOTIFY_Handler (dev_idx desc_handle enable : Z)
| AT_DISC_Handler (dev_idx : Z)
| AT_INFO_Handler (dev_idx : Z)
| AT_RESET_Handler
| AT_HWRESET_Handler
| AT_FACTORY_Handler
| AT_GETINFO_Handler
| AT_NAME_Handler (name : string)
| AT_COMM_Handler (baud parity stop : Z)
| AT_RF_Handler (tx_power scan_interval scan_window : Z)
| AT_SAVE_Handler
| AT_STATUS_Handler (dev_idx : Z)
| AT_SLEEP_Handler (mode wake_mask timeout_ms : Z)
| AT_WAKE_Handler
| AT_DIAG_Handler (dev_idx : Z).

(** Observable effects, in program order. *)
Inductive Event :=
| UART_Tx (text : string)                      (* AT_Response_Send *)
| UART_Raw (data : list Z)                     (* HAL_UART_Transmit of raw bytes *)
| GATT_Write (conn handle : Z) (data : list Z) (* BLE_GATT_WriteCharacteristic *)
| GATT_Read (conn handle : Z)                  (* BLE_GATT_ReadCharacteristic *)
| Connect (mac : list Z)                       (* BLE_Connection_CreateConnection *)
| StopScan                                     (* BLE_Connection_StopScan *)
| ClearDevices                                 (* BLE_DeviceManager_Clear *)
| Call (h : Handler).

Definition DATA_TX_BUFFER_SIZE : Z := 512.
Definition ESCAPE_SEQ_CHAR : Z := 43.          (* '+' *)
Definition ESCAPE_SEQ_LENGTH : Z := 3.
Definition ESCAPE_GUARD_TIME_MS : Z := 1000.
Definition AT_CMD_MAX_LEN : Z := 128.

(** The static variables of module_mode.c and the event trace. *)
Record Machine := {
  current_mode : Operation_Mode_t;
  target_dev_idx : Z;        (* uint8_t *)
  target_char_handle : Z;    (* uint16_t *)
  data_tx_buffer : list Z;   (* uint8_t[DATA_TX_BUFFER_SIZE] *)
  data_tx_len : Z;           (* uint16_t *)
  escape_count : Z;          (* uint8_t *)
  last_char_time : Z;        (* uint32_t *)
  escape_start_time : Z;     (* uint32_t *)
  escape_detected : Z;       (* uint8_t *)
  trace : list Event
}.

Definition set_current_mode v m :=
  {| current_mode := v; target_dev_idx := target_dev_idx m;
     target_char_handle := target_char_handle m;
     data_tx_buffer := data_tx_buffer m; data_tx_len := data_tx_len m;
     escape_count := escape_count m; last_char_time := last_char_time m;
     escape_start_time := escape_start_time m;
     escape_detected := escape_detected m; trace := trace m |}.
Definition set_target_dev_idx v m :=
  {| current_mode := current_mode m; target_dev_idx := v;
     target_char_handle := target_char_handle m;
     data_tx_buffer := data_tx_buffer m; data_tx_len := data_tx_len m;
     escape_count := escape_count m; last_char_time := last_char_time m;
     escape_start_time := escape_start_time m;
     escape_detected := escape_detected m; trace := trace m |}.
Definition set_target_char_handle v m :=
  {| current_mode := current_mode m; target_dev_idx := target_dev_idx m;
     target_char_handle := v;
     data_tx_buffer := data_tx_buffer m; data_tx_len := data_tx_len m;
     escape_count := escape_count m; last_char_time := last_char_time m;
     escape_start_time := escape_start_time m;
     escape_detected := escape_detected m; trace := trace m |}.
Definition set_data_tx_buffer v m :=
  {| current_mode := current_mode m; target_dev_idx := target_dev_idx m;
     target_char_handle := target_char_handle m;
     data_tx_buffer := v; data_tx_len := data_tx_len m;
     escape_count := escape_count m; last_char_time := last_char_time m;
     escape_start_time := escape_start_time m;
     escape_detected := escape_detected m; trace := trace m |}.
Definition set_data_tx_len v m :=
  {| current_mode := current_mode m; target_dev_idx := target_dev_idx m;
     target_char_handle := target_char_handle m;
     data_tx_buffer := data_tx_buffer m; data_tx_len := v;
     escape_count := escape_count m; last_char_time := last_char_time m;
     escape_start_time := escape_start_time m;
     escape_detected := escape_detected m; trace := trace m |}.
Definition set_escape_count v m :=
  {| current_mode := current_mode m; target_dev_idx := target_dev_idx m;
     target_char_handle := target_char_handle m;
     data_tx_buffer := data_tx_buffer m; data_tx_len := data_tx_len m;
     escape_count := v; last_char_time := last_char_time m;
     escape_start_time := escape_start_time m;
     escape_detected := escape_detected m; trace := trace m |}.
Definition set_last_char_time v m :=
  {| current_mode := current_mode m; target_dev_idx := target_dev_idx m;
     target_char_handle := target_char_handle m;
     data_tx_buffer := data_tx_buffer m; data_tx_len := data_tx_len m;
     escape_count := escape_count m; last_char_time := v;
     escape_start_time := escape_start_time m;
     escape_detected := escape_detected m; trace := trace m |}.
Definition set_escape_start_time v m :=
  {| current_mode := current_mode m; target_dev_idx := target_dev_idx m;
     target_char_handle := target_char_handle m;
     data_tx_buffer := data_tx_buffer m; data_tx_len := data_tx_len m;
     escape_count := escape_count m; last_char_time := last_char_time m;
     escape_start_time := v;
     escape_detected := escape_detected m; trace := trace m |}.
Definition set_escape_detected v m :=
  {| current_mode := current_mode m; target_dev_idx := target_dev_idx m;
     target_char_handle := target_char_handle m;
     data_tx_buffer := data_tx_buffer m; data_tx_len := data_tx_len m;
     escape_count := escape_count m; last_char_time := last_char_time m;
     escape_start_time := escape_start_time m;
     escape_detected := v; trace := trace m |}.
Definition set_trace v m :=
  {| current_mode := current_mode m; target_dev_idx := target_dev_idx m;
     target_char_handle := target_char_handle m;
     data_tx_buffer := data_tx_buffer m; data_tx_len := data_tx_len m;
     escape_count := escape_count m; last_char_time := last_char_time m;
     escape_start_time := escape_start_time m;
     escape_detected := escape_detected m; trace := v |}.

(** ** A state and error monad for the task-context code

    A computation reads the collaborators' answers, threads the machine
    state, and either returns or stops: [OutOfFuel] when the call depth
    given to the mutually recursive pair [Module_Mode_FlushTxBuffer] /
    [Module_Mode_EnterCommand] is used up, [OutOfBounds] when a store falls
    outside its array, [NoReturn] when the call ends in
    [NVIC_SystemReset(); while (1);]: the firmware restarts and control
    never comes back to the caller; [m] is the state at that point. *)

Inductive Res (A : Type) :=
| Ok (a : A) (m : Machine)
| OutOfFuel
| OutOfBounds
| NoReturn (m : Machine).
Arguments Ok {A} a m.
Arguments OutOfFuel {A}.
Arguments OutOfBounds {A}.
Arguments NoReturn {A} m.

Definition M (A : Type) : Type := Env -> Machine -> Res A.

Definition ret {A} (a : A) : M A := fun _ m => Ok a m.
Definition bind {A B} (c : M A) (k : A -> M B) : M B :=
  fun e m =>
    match c e m with
    | Ok a m' => k a e m'
    | OutOfFuel => OutOfFuel
    | OutOfBounds => OutOfBounds
    | NoReturn m' => NoReturn m'
    end.
Definition get : M Machine := fun _ m => Ok m m.
Definition ask : M Env := fun e m => Ok e m.
Definition modify (f : Machine -> Machine) : M unit := fun _ m => Ok tt (f m).
Definition emit (ev : Event) : M unit :=
  modify (fun m => set_trace (trace m ++ [ev]) m).
Definition out_of_fuel {A} : M A := fun _ _ => OutOfFuel.
Definition out_of_bounds {A} : M A := fun _ _ => OutOfBounds.
Definition no_return {A} : M A := fun _ m => NoReturn m.

Declare Scope m_scope.
Delimit Scope m_scope with M.
Notation "'let*' x := c 'in' k" := (bind c (fun x => k))
  (at level 10, x name, c at level 100, k at level 200) : m_scope.
Notation "c ;; k" := (bind c (fun _ => k))
  (at level 100, k at level 200, right associativity) : m_scope.
Local Open Scope m_scope.

(** [AT_Response_Send]: [text] is what the format expands to.
    [vsnprintf] keeps at most [AT_CMD_MAX_LEN - 1] characters and a NUL in
    [response_buf] and returns the full length, which is cast to
    [uint16_t] and clamped to [AT_CMD_MAX_LEN]. *)
Definition response_bytes (text : string) : string :=
  let response_buf := str_take 127 text ++ String NUL EmptyString in
  let len := wrap16 (Z.of_nat (String.length text)) in
  let len := if AT_CMD_MAX_LEN <? len then AT_CMD_MAX_LEN else len in
  str_take (Z.to_nat len) response_buf.

Definition AT_Response_Send (text : string) : M unit :=
  emit (UART_Tx (response_bytes text)).

(** The device behind [dev] unless [dev == NULL || !dev->is_connected]. *)
Definition connected (dev : option BLE_Device_t) : option BLE_Device_t :=
  match dev with
  | None => None
  | Some d => if is_connected d then Some d else None
  end.

(** ** module_mode.c *)

Module Mode.

(** [Module_Mode_Init]. *)
Definition Module_Mode_Init : M unit :=
  modify (set_current_mode MODE_COMMAND);;
  modify (set_target_dev_idx 255);;
  modify (set_target_char_handle 0);;
  modify (set_data_tx_len 0);;
  modify (set_escape_count 0);;
  modify (set_escape_detected 0).

(** [Module_Mode_FlushTxBuffer], the call to [Module_Mode_EnterCommand]
    left open. *)
Definition FlushTxBuffer_body (EnterCommand : M Z) : M Z :=
  let* m := get in
  if data_tx_len m =? 0 then ret 0
  else if negb (mode_eqb (current_mode m) MODE_DATA) then
    modify (set_data_tx_len 0);;
    ret 0
  else
    let* e := ask in
    (* Get target device *)
    let dev := BLE_DeviceManager_GetDevice e (target_dev_idx m) in
    match connected dev with
    | None =>
        modify (set_data_tx_len 0);;
        (* Auto-exit data mode on disconnect *)
        EnterCommand;;
        ret (-1)
    | Some d =>
        (* Write to GATT characteristic *)
        let data := take (Z.to_nat (data_tx_len m)) (data_tx_buffer m) in
        emit (GATT_Write (conn_handle d) (target_char_handle m) data);;
        let r :=
          BLE_GATT_WriteCharacteristic e (conn_handle d)
            (target_char_handle m) data in
        if r =? 0 then
          modify (set_data_tx_len 0);;
          let* m' := get in
          ret (data_tx_len m')
        else
          modify (set_data_tx_len 0);;
          ret (-1)
    end.

(** [Module_Mode_EnterCommand], the call to [Module_Mode_FlushTxBuffer]
    left open. *)
Definition EnterCommand_body (FlushTxBuffer : M Z) : M Z :=
  let* m := get in
  if mode_eqb (current_mode m) MODE_COMMAND then
    ret 0 (* Already in command mode *)
  else
    (* Flush any pending data *)
    FlushTxBuffer;;
    (* Switch to command mode *)
    modify (set_current_mode MODE_COMMAND);;
    modify (set_target_dev_idx 255);;
    modify (set_target_char_handle 0);;
    modify (set_escape_count 0);;
    modify (set_escape_detected 0);;
    (* Send confirmation *)
    AT_Response_Send ("+CMDMODE" ++ CRLF);;
    ret 0.

(** The two functions call each other; [depth] bounds the nesting of
    calls. *)
Fixpoint FlushTxBuffer_depth (depth : nat) : M Z :=
  match depth with
  | O => out_of_fuel
  | S d => FlushTxBuffer_body (EnterCommand_body (FlushTxBuffer_depth d))
  end.

Definition EnterCommand_depth (depth : nat) : M Z :=
  EnterCommand_body (FlushTxBuffer_depth depth).

(** Two nested calls of each function are the most the code makes
    ([FlushTxBuffer_depth_enough] and [EnterCommand_depth_enough] below). *)
Definition Module_Mode_FlushTxBuffer : M Z := FlushTxBuffer_depth 2.
Definition Module_Mode_EnterCommand : M Z := EnterCommand_depth 2.

(** [Module_Mode_EnterData]. *)
Definition Module_Mode_EnterData (dev_idx char_handle : Z) : M Z :=
  let* e := ask in
  (* Validate device *)
  let dev := BLE_DeviceManager_GetDevice e dev_idx in
  match connected dev with
  | None => ret (-1)
  | Some _ =>
      (* Switch to data mode *)
      modify (set_current_mode MODE_DATA);;
      modify (set_target_dev_idx dev_idx);;
      modify (set_target_char_handle char_handle);;
      modify (set_data_tx_len 0);;
      modify (set_escape_count 0);;
      modify (set_escape_detected 0);;
      modify (set_last_char_time (HAL_GetTick e));;
      (* Send confirmation *)
      AT_Response_Send ("+DATAMODE" ++ CRLF);;
      ret 0
  end.

Definition Module_Mode_GetCurrent : M Operation_Mode_t :=
  let* m := get in ret (current_mode m).

(** [data_tx_buffer[data_tx_len++] = byte]: the store is checked against
    the array bounds. *)
Definition tx_append (byte : Z) : M unit :=
  let* m := get in
  if (0 <=? data_tx_len m) && (data_tx_len m <? DATA_TX_BUFFER_SIZE) then
    modify (set_data_tx_buffer
              (<[Z.to_nat (data_tx_len m) := byte]> (data_tx_buffer m)));;
    modify (set_data_tx_len (wrap16 (data_tx_len m + 1)))
  else out_of_bounds.

(** The [for] loop that adds the buffered escape characters; [n] bounds
    the iterations left and [i] is the [uint8_t] loop variable. *)
Fixpoint add_escape_chars (n : nat) (i : Z) : M unit :=
  match n with
  | O => ret tt
  | S n' =>
      let* m := get in
      if (i <? escape_count m) && (data_tx_len m <? DATA_TX_BUFFER_SIZE) then
        tx_append ESCAPE_SEQ_CHAR;;
        add_escape_chars n' (wrap8 (i + 1))
      else ret tt
  end.

(** The escape-sequence part of [Module_Mode_ProcessDataByte]; the result
    is [true] when the function returns from inside it. *)
Definition escape_check (byte current_time time_since_last : Z) : M bool :=
  let* m := get in
  if byte =? ESCAPE_SEQ_CHAR then
    if escape_count m =? 0 then
      (* First + *)
      if ESCAPE_GUARD_TIME_MS <=? time_since_last then
        modify (set_escape_start_time current_time);;
        modify (set_escape_count 1);;
        ret false
      else ret false
    else if escape_count m <? ESCAPE_SEQ_LENGTH then
      (* Subsequent + *)
      modify (set_escape_count (wrap8 (escape_count m + 1)));;
      let* m' := get in
      if escape_count m' =? ESCAPE_SEQ_LENGTH then
        (* Complete escape sequence - check trailing guard time later *)
        modify (set_escape_detected 1);;
        (* Don't add to buffer *)
        modify (set_last_char_time current_time);;
        ret true
      else ret false
    else ret false
  else
    (* Non-+ character resets escape detection if incomplete *)
    (if (0 <? escape_count m) && (escape_count m <? ESCAPE_SEQ_LENGTH) then
       (* Add the buffered + characters *)
       add_escape_chars (Z.to_nat (escape_count m)) 0
     else ret tt);;
    modify (set_escape_count 0);;
    ret false.

(** [Module_Mode_ProcessDataByte]. *)
Definition Module_Mode_ProcessDataByte (byte : Z) : M unit :=
  let* e := ask in
  let* m0 := get in
  let current_time := HAL_GetTick e in
  let time_since_last := wrap32 (current_time - last_char_time m0) in
  (* Check for escape sequence: +++ with guard time *)
  let* returned := escape_check byte current_time time_since_last in
  if returned : bool then ret tt
  else
    (* Add byte to TX buffer *)
    let* m := get in
    (if data_tx_len m <? DATA_TX_BUFFER_SIZE then tx_append byte
     else
       (* Buffer full - flush it *)
       Module_Mode_FlushTxBuffer;;
       tx_append byte);;
    modify (set_last_char_time current_time);;
    (* Auto-flush if buffer reaches threshold or timeout *)
    let* m := get in
    if (DATA_TX_BUFFER_SIZE - 20 <=? data_tx_len m) || (10 <? time_since_last)
    then Module_Mode_FlushTxBuffer;; ret tt
    else ret tt.

(** [Module_Mode_ProcessGATTData]. *)
Definition Module_Mode_ProcessGATTData (conn handle : Z) (data : list Z)
    (len : Z) : M unit :=
  let* m := get in
  let* e := ask in
  (* Only forward if in data mode and target matches *)
  if negb (mode_eqb (current_mode m) MODE_DATA) then ret tt
  else
    match BLE_DeviceManager_GetDevice e (target_dev_idx m) with
    | None => ret tt
    | Some d =>
        if negb (conn_handle d =? conn) then ret tt
        else if negb (handle =? target_char_handle m) then ret tt
        else emit (UART_Raw (take (Z.to_nat len) data))
    end.

(** [Module_Mode_IsEscapeDetected]. *)
Definition Module_Mode_IsEscapeDetected : M Z :=
  let* e := ask in
  let* m := get in
  let current_time := HAL_GetTick e in
  if negb (escape_detected m =? 0) then
    (* Check trailing guard time *)
    if ESCAPE_GUARD_TIME_MS <=? wrap32 (current_time - last_char_time m) then
      (* Valid escape sequence with trailing guard time *)
      modify (set_escape_detected 0);;
      modify (set_escape_count 0);;
      ret 1
    else ret 0
  else ret 0.

Definition Module_Mode_GetTargetDevice : M Z :=
  let* m := get in ret (target_dev_idx m).

Definition Module_Mode_GetTargetHandle : M Z :=
  let* m := get in ret (target_char_handle m).

End Mode.

(** ** at_command.c: the line receiver *)

Definition AT_RX_TIMEOUT_MS : Z := 500.
Definition AT_MAX_GARBAGE : Z := 20.
Definition ASCII_SPACE : Z := 32.
Definition ASCII_TILDE : Z := 126.
Definition ASCII_CR : Z := 13.
Definition ASCII_LF : Z := 10.

(** [(char)byte]. *)
Definition char_of_byte (byte : Z) : ascii := ascii_of_N (Z.to_N (wrap8 byte)).

(** The C string held in a character array: the characters before the
    first NUL. *)
Fixpoint cstring_of (buf : list ascii) : string :=
  match buf with
  | [] => EmptyString
  | c :: rest =>
      if Ascii.eqb c NUL then EmptyString else String c (cstring_of rest)
  end.

(** The static variables shared by the interrupt handler and the task. *)
Record ATState := {
  at_line_buf : list ascii;   (* volatile char[AT_CMD_MAX_LEN] *)
  at_line_idx : Z;            (* volatile uint16_t *)
  at_cmd_ready : Z;           (* volatile uint8_t *)
  at_garbage_count : Z;       (* volatile uint16_t *)
  at_cmd_buf : list ascii;    (* char[AT_CMD_MAX_LEN] *)
  at_rx_tick : Z              (* volatile uint32_t *)
}.

Definition set_at_line_buf v s :=
  {| at_line_buf := v; at_line_idx := at_line_idx s;
     at_cmd_ready := at_cmd_ready s; at_garbage_count := at_garbage_count s;
     at_cmd_buf := at_cmd_buf s; at_rx_tick := at_rx_tick s |}.
Definition set_at_line_idx v s :=
  {| at_line_buf := at_line_buf s; at_line_idx := v;
     at_cmd_ready := at_cmd_ready s; at_garbage_count := at_garbage_count s;
     at_cmd_buf := at_cmd_buf s; at_rx_tick := at_rx_tick s |}.
Definition set_at_cmd_ready v s :=
  {| at_line_buf := at_line_buf s; at_line_idx := at_line_idx s;
     at_cmd_ready := v; at_garbage_count := at_garbage_count s;
     at_cmd_buf := at_cmd_buf s; at_rx_tick := at_rx_tick s |}.
Definition set_at_garbage_count v s :=
  {| at_line_buf := at_line_buf s; at_line_idx := at_line_idx s;
     at_cmd_ready := at_cmd_ready s; at_garbage_count := v;
     at_cmd_buf := at_cmd_buf s; at_rx_tick := at_rx_tick s |}.
Definition set_at_cmd_buf v s :=
  {| at_line_buf := at_line_buf s; at_line_idx := at_line_idx s;
     at_cmd_ready := at_cmd_ready s; at_garbage_count := at_garbage_count s;
     at_cmd_buf := v; at_rx_tick := at_rx_tick s |}.
Definition set_at_rx_tick v s :=
  {| at_line_buf := at_line_buf s; at_line_idx := at_line_idx s;
     at_cmd_ready := at_cmd_ready s; at_garbage_count := at_garbage_count s;
     at_cmd_buf := at_cmd_buf s; at_rx_tick := v |}.

Module Receiver.

(** [AT_Command_Init]: every static is reset, both arrays zeroed. *)
Definition AT_Command_Init : ATState :=
  {| at_line_buf := replicate (Z.to_nat AT_CMD_MAX_LEN) NUL;
     at_line_idx := 0;
     at_cmd_ready := 0;
     at_garbage_count := 0;
     at_cmd_buf := replicate (Z.to_nat AT_CMD_MAX_LEN) NUL;
     at_rx_tick := 0 |}.

(** The timeout check of [AT_Command_ReceiveByte]. *)
Definition timeout_check (s : ATState) : ATState :=
  (* Timeout check: reset if tick wrapped or too many ticks passed *)
  if (0 <? at_line_idx s) && (AT_RX_TIMEOUT_MS <? at_rx_tick s) then
    set_at_rx_tick 0 (set_at_garbage_count 0 (set_at_line_idx 0 s))
  else s.

(** What [AT_Command_ReceiveByte] does with a byte once the timeout check
    is done.  The second component tells whether the ready flag was raised
    and the processing task signalled
    ([at_cmd_ready = 1; ... UTIL_SEQ_SetTask(...)]). *)
Definition line_step (byte : Z) (s : ATState) : ATState * bool :=
  (* Line terminator - command complete *)
  if (byte =? ASCII_CR) || (byte =? ASCII_LF) then
    if 2 <=? at_line_idx s then
      let s :=
        set_at_line_buf
          (<[Z.to_nat (at_line_idx s) := NUL]> (at_line_buf s)) s in
      let s := set_at_cmd_ready 1 s in
      let s := set_at_garbage_count 0 s in
      let s := set_at_rx_tick 0 s in
      (s, true)
    else (set_at_line_idx 0 s, false)
  else
    (* Filter: only printable ASCII *)
    if (ASCII_SPACE <=? byte) && (byte <=? ASCII_TILDE) then
      if at_line_idx s <? AT_CMD_MAX_LEN - 1 then
        let s :=
          set_at_line_buf
            (<[Z.to_nat (at_line_idx s) := char_of_byte byte]>
               (at_line_buf s)) s in
        let s := set_at_line_idx (wrap16 (at_line_idx s + 1)) s in
        let s := set_at_rx_tick 0 s in
        let s := set_at_garbage_count 0 s in
        (s, false)
      else (s, false)
    else
      let s := set_at_garbage_count (wrap16 (at_garbage_count s + 1)) s in
      if AT_MAX_GARBAGE <? at_garbage_count s then
        (set_at_garbage_count 0 (set_at_line_idx 0 s), false)
      else (s, false).

(** [AT_Command_ReceiveByte]. *)
Definition AT_Command_ReceiveByte (byte : Z) (s : ATState) : ATState * bool :=
  (* Increment simple tick counter *)
  let s := set_at_rx_tick (wrap32 (at_rx_tick s + 1)) s in
  (* If previous command not processed yet, drop new bytes *)
  if negb (at_cmd_ready s =? 0) then (s, false)
  else line_step byte (timeout_check s).

(** The critical section of [AT_Command_ProcessReady]:
    [memcpy(at_cmd_buf, at_line_buf, at_line_idx + 1)], then the reset of
    the index and of the ready flag. *)
Definition drain (s : ATState) : ATState :=
  let n := Z.to_nat (at_line_idx s + 1) in
  let s :=
    set_at_cmd_buf (take n (at_line_buf s) ++ drop n (at_cmd_buf s)) s in
  let s := set_at_line_idx 0 s in
  set_at_cmd_ready 0 s.

End Receiver.

(** ** Formatting of response lines *)

Module Fmt.

Fixpoint dec_digits (fuel : nat) (n : Z) (acc : string) : string :=
  match fuel with
  | O => acc
  | S fuel' =>
      let acc' := String (ascii_of_N (Z.to_N (48 + n mod 10))) acc in
      if n / 10 =? 0 then acc' else dec_digits fuel' (n / 10) acc'
  end.

(** [%d] and [%lu] for a value that fits the C type. *)
Definition d (n : Z) : string :=
  if n <? 0 then String "-"%char (dec_digits 11 (- n) EmptyString)
  else dec_digits 11 n EmptyString.

Definition hex_digit (n : Z) : ascii :=
  char_at "0123456789ABCDEF" (Z.to_nat (n mod 16)).

(** [%02X] of a [uint8_t]. *)
Definition X02 (n : Z) : string :=
  String (hex_digit (n / 16)) (String (hex_digit n) EmptyString).

(** [%04X] of a [uint16_t]. *)
Definition X04 (n : Z) : string :=
  String (hex_digit (n / 4096)) (String (hex_digit (n / 256))
    (String (hex_digit (n / 16)) (String (hex_digit n) EmptyString))).

End Fmt.

(** ** at_command.c: handlers and dispatcher *)

Module Dispatch.

Import Parse.

Definition OK_line : string := "OK" ++ CRLF.
Definition ERROR_line : string := "ERROR" ++ CRLF.

(** [dev->mac_addr[k]]. *)
Definition mac_byte (dev : BLE_Device_t) (k : nat) : Z :=
  default 0 (mac_addr dev !! k).

(** The fields [%d,%02X:%02X:%02X:%02X:%02X:%02X,%d,0x%04X,%s] of a device
    line, and the line ["+DEV:...\r\n"] that [AT_LIST_Handler] sends. *)
Definition DEV_fields (i : Z) (dev : BLE_Device_t) : string :=
  Fmt.d i ++ ","
  ++ Fmt.X02 (mac_byte dev 5) ++ ":" ++ Fmt.X02 (mac_byte dev 4) ++ ":"
  ++ Fmt.X02 (mac_byte dev 3) ++ ":" ++ Fmt.X02 (mac_byte dev 2) ++ ":"
  ++ Fmt.X02 (mac_byte dev 1) ++ ":" ++ Fmt.X02 (mac_byte dev 0) ++ ","
  ++ Fmt.d (rssi dev) ++ ","
  ++ "0x" ++ Fmt.X04 (conn_handle dev) ++ ","
  ++ (if negb (Ascii.eqb (char_at (name dev) 0) NUL) then name dev
      else "Unknown").

Definition DEV_line (i : Z) (dev : BLE_Device_t) : string :=
  "+DEV:" ++ DEV_fields i dev ++ CRLF.

(** The [for] loop of [AT_LIST_Handler]; [i] and [count] are [uint8_t]. *)
Fixpoint AT_LIST_loop (n : nat) (i count : Z) : M unit :=
  match n with
  | O => ret tt
  | S n' =>
      if i <? count then
        let* e := ask in
        match BLE_DeviceManager_GetDevice e i with
        | Some dev => AT_Response_Send (DEV_line i dev)
        | None => ret tt
        end;;
        AT_LIST_loop n' (wrap8 (i + 1)) count
      else ret tt
  end.

Definition AT_LIST_Handler : M Z :=
  let* e := ask in
  let count := BLE_DeviceManager_GetCount e in
  AT_Response_Send ("+LIST:" ++ Fmt.d count ++ CRLF);;
  AT_LIST_loop (Z.to_nat count) 0 count;;
  AT_Response_Send OK_line;;
  ret 0.

Definition AT_CONNECT_Handler (mac_str : option string) : M Z :=
  let* e := ask in
  let mac := replicate 6 0 in
  match ParseMACString mac_str (Some mac) with
  | (r, mac') =>
      if negb (r =? 0) then AT_Response_Send ERROR_line;; ret (-1)
      else
        let mac := default mac mac' in
        (* Device must be discovered first via scan *)
        let dev_idx := BLE_DeviceManager_FindDevice e mac in
        if dev_idx <? 0 then
          AT_Response_Send ("+ERROR:NOT_FOUND" ++ CRLF);; ret (-1)
        else
          emit (Connect mac);;
          if negb (BLE_Connection_CreateConnection e mac =? 0) then
            AT_Response_Send ERROR_line;; ret (-1)
          else
            (* OK sent immediately, +CONNECTED will follow after HCI event *)
            AT_Response_Send OK_line;; ret 0
  end.

Definition AT_READ_Handler (dev_idx char_handle : Z) : M Z :=
  let* e := ask in
  match connected (BLE_DeviceManager_GetDevice e dev_idx) with
  | None => AT_Response_Send ("+ERROR:NOT_CONNECTED" ++ CRLF);; ret (-1)
  | Some dev =>
      (* Initiate read - response will come async via GATT event *)
      emit (GATT_Read (conn_handle dev) char_handle);;
      if negb (BLE_GATT_ReadCharacteristic e (conn_handle dev) char_handle =? 0)
      then AT_Response_Send ERROR_line;; ret (-1)
      else AT_Response_Send OK_line;; ret 0
  end.

Definition AT_WRITE_MAX_DATA_LEN : Z := 64.

Definition AT_WRITE_Handler (dev_idx char_handle : Z) (data : option string)
    : M Z :=
  let* e := ask in
  let write_buf := replicate (Z.to_nat AT_WRITE_MAX_DATA_LEN) 0 in
  match connected (BLE_DeviceManager_GetDevice e dev_idx) with
  | None => AT_Response_Send ("+ERROR:NOT_CONNECTED" ++ CRLF);; ret (-1)
  | Some dev =>
      match data with
      | None | Some EmptyString =>
          AT_Response_Send ("+ERROR:NO_DATA" ++ CRLF);; ret (-1)
      | Some _ =>
          (* Parse hex string to bytes *)
          match ParseHexString data (Some write_buf) AT_WRITE_MAX_DATA_LEN with
          | (data_len, write_buf') =>
              if data_len <=? 0 then
                AT_Response_Send ("+ERROR:INVALID_HEX" ++ CRLF);; ret (-1)
              else
                let bytes :=
                  take (Z.to_nat (wrap16 data_len))
                    (default write_buf write_buf') in
                emit (GATT_Write (conn_handle dev) char_handle bytes);;
                if negb (BLE_GATT_WriteCharacteristic e (conn_handle dev)
                           char_handle bytes =? 0)
                then AT_Response_Send ERROR_line;; ret (-1)
                else AT_Response_Send OK_line;; ret 0
          end
      end
  end.

Definition AT_CMDMODE_Handler : M Z :=
  let* r := Mode.Module_Mode_EnterCommand in
  if r =? 0 then AT_Response_Send OK_line;; ret 0
  else AT_Response_Send ERROR_line;; ret (-1).

Definition AT_DATAMODE_Handler (dev_idx char_handle : Z) : M Z :=
  let* r := Mode.Module_Mode_EnterData dev_idx char_handle in
  if r =? 0 then AT_Response_Send OK_line;; ret 0
  else AT_Response_Send ("+ERROR:NOT_CONNECTED" ++ CRLF);; ret (-1).

(** A handler whose result the dispatcher ignores. *)
Definition call {A} (c : M A) : M unit := c;; ret tt.

(** The trim loop of [AT_Command_Process]: the new [len]. *)
Fixpoint trim_loop (len : nat) (cmd : string) : nat :=
  match len with
  | O => O
  | S l =>
      let c := char_at cmd l in
      if Ascii.eqb c CR || Ascii.eqb c LF || Ascii.eqb c " "%char
      then trim_loop l cmd
      else len
  end.

(** [(int8_t)v] for a [uint8_t] [v]. *)
Definition int8_of (v : Z) : Z := if 128 <=? v then v - 256 else v.

(** [p != NULL]. *)
Definition not_null (p : option string) : bool :=
  match p with Some _ => true | None => false end.

(** [*p != '\0'] for [p != NULL]. *)
Definition not_at_end (p : option string) : bool :=
  match p with Some (String _ _) => true | _ => false end.

(** The if/else chain of [AT_Command_Process] on the trimmed command. *)
Definition dispatch (cmd : string) : M unit :=
  let* e := ask in
  if strcmp_eq cmd "AT" then AT_Response_Send OK_line
  else if strncmp_eq cmd "AT+SCAN" then
    let duration :=
      if Ascii.eqb (char_at cmd 7) "="%char
         && negb (Ascii.eqb (char_at cmd 8) NUL)
      then
        let parsed := ParseUInt16 (Some (str_drop 8 cmd)) in
        if 0 <? parsed then parsed else 5000
      else 5000 in
    emit (Call (AT_SCAN_Handler duration))
  else if strcmp_eq cmd "AT+STOP" then
    emit StopScan;;
    if BLE_Connection_StopScan e =? 0 then AT_Response_Send OK_line
    else AT_Response_Send ERROR_line
  else if strcmp_eq cmd "AT+CLEAR" then
    emit ClearDevices;;
    AT_Response_Send OK_line
  else if strncmp_eq cmd "AT+LIST" then call AT_LIST_Handler
  else if strncmp_eq cmd "AT+CONNECT=" then
    call (AT_CONNECT_Handler (Some (str_drop 11 cmd)))
  else if strncmp_eq cmd "AT+DISCONNECT=" then
    let idx := ParseUInt8 (Some (str_drop 14 cmd)) in
    if negb (idx =? 255) then emit (Call (AT_DISCONNECT_Handler idx))
    else AT_Response_Send ERROR_line
  else if strncmp_eq cmd "AT+READ=" then
    let p := Some (str_drop 8 cmd) in
    let idx := ParseUInt8 p in
    let p := SkipToComma p in
    if not_null p && negb (idx =? 255) then
      let handle := ParseUInt16 p in
      if 0 <? handle then call (AT_READ_Handler idx handle)
      else AT_Response_Send ERROR_line
    else AT_Response_Send ERROR_line
  else if strncmp_eq cmd "AT+WRITE=" then
    let p := Some (str_drop 9 cmd) in
    let idx := ParseUInt8 p in
    let p := SkipToComma p in
    if not_null p && negb (idx =? 255) then
      let handle := ParseUInt16 p in
      let p := SkipToComma p in
      if not_null p && (0 <? handle) && not_at_end p then
        call (AT_WRITE_Handler idx handle p)
      else AT_Response_Send ERROR_line
    else AT_Response_Send ERROR_line
  else if strncmp_eq cmd "AT+NOTIFY=" then
    let p := Some (str_drop 10 cmd) in
    let idx := ParseUInt8 p in
    let p := SkipToComma p in
    if not_null p && negb (idx =? 255) then
      let handle := ParseUInt16 p in
      let p := SkipToComma p in
      if not_null p && (0 <? handle) then
        let enable := ParseUInt8 p in
        if negb (enable =? 255) then
          emit (Call (AT_NOTIFY_Handler idx handle enable))
        else AT_Response_Send ERROR_line
      else AT_Response_Send ERROR_line
    else AT_Response_Send ERROR_line
  else if strncmp_eq cmd "AT+DISC=" then
    let idx := ParseUInt8 (Some (str_drop 8 cmd)) in
    if negb (idx =? 255) then emit (Call (AT_DISC_Handler idx))
    else AT_Response_Send ERROR_line
  else if strncmp_eq cmd "AT+INFO=" then
    let idx := ParseUInt8 (Some (str_drop 8 cmd)) in
    if negb (idx =? 255) then emit (Call (AT_INFO_Handler idx))
    else AT_Response_Send ERROR_line
  (* System/Lifecycle Commands *)
  else if strcmp_eq cmd "AT+RESET" then
    (* Module_System_SoftwareReset: NVIC_SystemReset(); while (1); *)
    emit (Call AT_RESET_Handler);; no_return
  else if strcmp_eq cmd "AT+HWRESET" then emit (Call AT_HWRESET_Handler)
  else if strcmp_eq cmd "AT+FACTORY" then
    (* Module_System_FactoryReset: NVIC_SystemReset(); while (1); *)
    emit (Call AT_FACTORY_Handler);; no_return
  (* Info/Config Commands *)
  else if strcmp_eq cmd "AT+GETINFO" then emit (Call AT_GETINFO_Handler)
  else if strncmp_eq cmd "AT+NAME=" then
    emit (Call (AT_NAME_Handler (str_drop 8 cmd)))
  else if strncmp_eq cmd "AT+COMM=" then
    let p := Some (str_drop 8 cmd) in
    let baud := ParseUInt16 p in
    let p := SkipToComma p in
    if not_null p then
      let parity := ParseUInt8 p in
      let p := SkipToComma p in
      if not_null p then
        let stop := ParseUInt8 p in
        emit (Call (AT_COMM_Handler baud parity stop))
      else AT_Response_Send ERROR_line
    else AT_Response_Send ERROR_line
  else if strncmp_eq cmd "AT+RF=" then
    let p := Some (str_drop 6 cmd) in
    let tx_power := int8_of (ParseUInt8 p) in
    let p := SkipToComma p in
    if not_null p then
      let scan_int := ParseUInt16 p in
      let p := SkipToComma p in
      if not_null p then
        let scan_win := ParseUInt16 p in
        emit (Call (AT_RF_Handler tx_power scan_int scan_win))
      else AT_Response_Send ERROR_line
    else AT_Response_Send ERROR_line
  else if strcmp_eq cmd "AT+SAVE" then emit (Call AT_SAVE_Handler)
  (* Mode Commands *)
  else if strcmp_eq cmd "AT+CMDMODE" then call AT_CMDMODE_Handler
  else if strncmp_eq cmd "AT+DATAMODE=" then
    let p := Some (str_drop 12 cmd) in
    let idx := ParseUInt8 p in
    let p := SkipToComma p in
    if not_null p && negb (idx =? 255) then
      let handle := ParseUInt16 p in
      if 0 <? handle then call (AT_DATAMODE_Handler idx handle)
      else AT_Response_Send ERROR_line
    else AT_Response_Send ERROR_line
  (* Status Commands *)
  else if strncmp_eq cmd "AT+STATUS" then
    let idx :=
      if Ascii.eqb (char_at cmd 9) "="%char
         && negb (Ascii.eqb (char_at cmd 10) NUL)
      then ParseUInt8 (Some (str_drop 10 cmd))
      else 255 in
    emit (Call (AT_STATUS_Handler idx))
  (* Power Management Commands *)
  else if strncmp_eq cmd "AT+SLEEP" then
    let '(mode, wake_mask, timeout_ms) :=
      if Ascii.eqb (char_at cmd 8) "="%char
         && negb (Ascii.eqb (char_at cmd 9) NUL)
      then
        let p := Some (str_drop 9 cmd) in
        let mode := ParseUInt8 p in
        let p := SkipToComma p in
        if not_null p then
          let wake_mask := ParseUInt8 p in
          let p := SkipToComma p in
          if not_null p then (mode, wake_mask, ParseUInt16 p)
          else (mode, wake_mask, 0)
        else (mode, 1, 0)
      else (1, 1, 0) in
    emit (Call (AT_SLEEP_Handler mode wake_mask timeout_ms))
  else if strcmp_eq cmd "AT+WAKE" then emit (Call AT_WAKE_Handler)
  (* Diagnostics Commands *)
  else if strncmp_eq cmd "AT+DIAG=" then
    let idx := ParseUInt8 (Some (str_drop 8 cmd)) in
    if negb (idx =? 255) then emit (Call (AT_DIAG_Handler idx))
    else AT_Response_Send ERROR_line
  else
    (* Unknown AT command - log but don't spam ERROR *)
    ret tt.

(** [cmd[0]] is 'A' or 'a' and [cmd[1]] is 'T' or 't'. *)
Definition has_AT_prefix (cmd : string) : bool :=
  (Ascii.eqb (char_at cmd 0) "A"%char || Ascii.eqb (char_at cmd 0) "a"%char)
  && (Ascii.eqb (char_at cmd 1) "T"%char || Ascii.eqb (char_at cmd 1) "t"%char).

(** The local copy of [AT_Command_Process] after the trim loop. *)
Definition trimmed (cmd_line : string) : string :=
  (* Copy to local buffer *)
  let cmd := str_take (Z.to_nat (AT_CMD_MAX_LEN - 1)) cmd_line in
  (* Remove trailing whitespace/newlines *)
  let len := trim_loop (String.length cmd) cmd in
  str_take len cmd.

(** [AT_Command_Process]. *)
Definition AT_Command_Process (cmd_line : option string) : M unit :=
  match cmd_line with
  | None | Some EmptyString => ret tt
  | Some line =>
      let cmd := trimmed line in
      (* Empty command after trim *)
      if (String.length cmd <? 2)%nat then ret tt
      (* CRITICAL: Command MUST start with "AT" (case insensitive) *)
      else if negb (has_AT_prefix cmd) then ret tt
      (* Parse commands *)
      else dispatch cmd
  end.

(** [AT_Command_ProcessReady]: the critical section, then the command is
    processed from the private copy. *)
Definition AT_Command_ProcessReady (s : ATState) : M ATState :=
  if at_cmd_ready s =? 0 then ret s
  else
    let s' := Receiver.drain s in
    AT_Command_Process (Some (cstring_of (at_cmd_buf s')));;
    ret s'.

End Dispatch.

(** * Configuration and power modules

    [module_config.c], [module_power.c] and the handlers of
    [at_command.c] that call them.  These functions work on
    their own static variables and on the HAL; they are embedded as
    functions from state to result and state, the calls they make to the
    outside recorded in order. *)

(** What these functions do to the outside, in program order. *)
Inductive Effect :=
| Send (text : string)                  (* AT_Response_Send *)
| Delay (ms : Z)                        (* HAL_Delay *)
| UART_DeInit                           (* HAL_UART_DeInit(&hlpuart1) *)
| UART_Init                             (* HAL_UART_Init(&hlpuart1) *)
| Set_TX_Power (en_high_power level : Z) (* aci_hal_set_tx_power_level *)
| LPM_Init                              (* UTIL_LPM_Init *)
| LPM_SetOffMode (enable : bool)        (* UTIL_LPM_SetOffMode(1 << CFG_LPM_APP, _) *)
| LPM_SetStopMode (enable : bool)       (* UTIL_LPM_SetStopMode(1 << CFG_LPM_APP, _) *)
| LPM_EnterLowPower                     (* UTIL_LPM_EnterLowPower *)
| PWR_EnterSTANDBYMode                  (* HAL_PWR_EnterSTANDBYMode *)
| UART_Enable_RXNE_IT                   (* __HAL_UART_ENABLE_IT(&hlpuart1, UART_IT_RXNE) *)
| UART_MspDeInit                        (* HAL_UART_MspDeInit(&hlpuart1) *)
| UART_MspInit                          (* HAL_UART_MspInit(&hlpuart1) *)
| Scan_Stop.                            (* BLE_Connection_StopScan *)

(** What the HAL and the BLE stack answer. *)
Record HAL := {
  HAL_UART_Init_status : Z;               (* HAL_StatusTypeDef, HAL_OK = 0 *)
  aci_hal_set_tx_power_level_status : Z;  (* tBleStatus, BLE_STATUS_SUCCESS = 0 *)
  UART_FLAG_RXNE_set : bool;
  RTC_FLAG_ALRAF_set : bool
}.

(** ** module_config.c *)

Module Config.

Definition CONFIG_MAX_DEVICE_NAME_LEN : Z := 32.
Definition CONFIG_FLASH_MAGIC : Z := 3188837118.   (* 0xBE11CAFE *)

Record UART_Config_t := {
  baud_rate : Z;     (* uint32_t *)
  parity : Z;        (* uint8_t: 0=None, 1=Even, 2=Odd *)
  stop_bits : Z;     (* uint8_t *)
  data_bits : Z      (* uint8_t *)
}.

Record RF_Config_t := {
  tx_power_dbm : Z;        (* int8_t *)
  scan_interval : Z;       (* uint16_t *)
  scan_window : Z;         (* uint16_t *)
  conn_interval_min : Z;   (* uint16_t *)
  conn_interval_max : Z    (* uint16_t *)
}.

(** [device_name] is the C string held in the [char[32]] member. *)
Record Module_Config_t := {
  magic : Z;
  version : Z;
  device_name : string;
  uart : UART_Config_t;
  rf : RF_Config_t;
  crc : Z
}.

Definition set_device_name v c :=
  {| magic := magic c; version := version c; device_name := v;
     uart := uart c; rf := rf c; crc := crc c |}.
Definition set_uart v c :=
  {| magic := magic c; version := version c; device_name := device_name c;
     uart := v; rf := rf c; crc := crc c |}.
Definition set_rf v c :=
  {| magic := magic c; version := version c; device_name := device_name c;
     uart := uart c; rf := v; crc := crc c |}.

Definition default_config : Module_Config_t :=
  {| magic := CONFIG_FLASH_MAGIC;
     version := 1;
     device_name := "STM32WB_BLE_GW";
     uart := {| baud_rate := 921600; parity := 0; stop_bits := 1;
                data_bits := 8 |};
     rf := {| tx_power_dbm := 0; scan_interval := 16; scan_window := 16;
              conn_interval_min := 24; conn_interval_max := 40 |};
     crc := 0 |}.

(** The members of [hlpuart1.Init] that [Module_Config_ApplyUART] writes. *)
Inductive UART_Parity := UART_PARITY_NONE | UART_PARITY_EVEN | UART_PARITY_ODD.
Inductive UART_StopBits := UART_STOPBITS_1 | UART_STOPBITS_2.
Inductive UART_WordLength :=
  UART_WORDLENGTH_7B | UART_WORDLENGTH_8B | UART_WORDLENGTH_9B.

Record UART_InitTypeDef := {
  BaudRate : Z;
  Parity : UART_Parity;
  StopBits : UART_StopBits;
  WordLength : UART_WordLength
}.

(** The statics of module_config.c, the UART handle and the effects so
    far. *)
Record State := {
  current_config : Module_Config_t;
  config_loaded : Z;
  hlpuart1_Init : UART_InitTypeDef;
  effects : list Effect
}.

Definition set_current_config v s :=
  {| current_config := v; config_loaded := config_loaded s;
     hlpuart1_Init := hlpuart1_Init s; effects := effects s |}.
Definition set_config_loaded v s :=
  {| current_config := current_config s; config_loaded := v;
     hlpuart1_Init := hlpuart1_Init s; effects := effects s |}.
Definition set_hlpuart1_Init v s :=
  {| current_config := current_config s; config_loaded := config_loaded s;
     hlpuart1_Init := v; effects := effects s |}.
Definition effect (ev : Effect) s :=
  {| current_config := current_config s; config_loaded := config_loaded s;
     hlpuart1_Init := hlpuart1_Init s; effects := effects s ++ [ev] |}.

(** [Module_Config_Init]: the load from flash is commented out in the
    source; the defaults are copied. *)
Definition Module_Config_Init (s : State) : State :=
  let s := set_current_config default_config s in
  set_config_loaded 1 s.

Definition Module_Config_Get (s : State) : Module_Config_t := current_config s.

(** [Module_Config_SetDeviceName]: [strncpy] of at most 31 characters,
    then the terminator at index 31. *)
Definition Module_Config_SetDeviceName (name : option string) (s : State)
    : Z * State :=
  match name with
  | None | Some EmptyString => (-1, s)
  | Some name =>
      let copied :=
        str_take (Z.to_nat (CONFIG_MAX_DEVICE_NAME_LEN - 1)) name in
      (0, set_current_config (set_device_name copied (current_config s)) s)
  end.

(** [Module_Config_GetDeviceName]: the result and the caller's buffer
    ([None] for [NULL]) as a C string after the call. *)
Definition Module_Config_GetDeviceName (buffer : option string) (max_len : Z)
    (s : State) : Z * option string :=
  match buffer with
  | None => (-1, None)
  | Some old =>
      if max_len =? 0 then (-1, Some old)
      else
        let copied :=
          str_take (Z.to_nat (max_len - 1)) (device_name (current_config s)) in
        (Z.of_nat (String.length copied), Some copied)
  end.

Definition Module_Config_SetUART (uart_config : option UART_Config_t)
    (s : State) : Z * State :=
  match uart_config with
  | None => (-1, s)
  | Some u =>
      (* Validate parameters *)
      if (baud_rate u <? 9600) || (921600 <? baud_rate u) then (-1, s)
      else if (2 <? parity u) || (stop_bits u <? 1) || (2 <? stop_bits u)
              || (data_bits u <? 7) || (8 <? data_bits u) then (-1, s)
      else (0, set_current_config (set_uart u (current_config s)) s)
  end.

Definition Module_Config_GetUART (present : bool) (s : State)
    : Z * option UART_Config_t :=
  if present then (0, Some (uart (current_config s))) else (-1, None).

Definition Module_Config_SetRF (rf_config : option RF_Config_t) (s : State)
    : Z * State :=
  match rf_config with
  | None => (-1, s)
  | Some r =>
      (* Validate TX power (-40 to +6 dBm for STM32WB) *)
      if (tx_power_dbm r <? -40) || (6 <? tx_power_dbm r) then (-1, s)
      else (0, set_current_config (set_rf r (current_config s)) s)
  end.

Definition Module_Config_GetRF (present : bool) (s : State)
    : Z * option RF_Config_t :=
  if present then (0, Some (rf (current_config s))) else (-1, None).

(** [Module_Config_ApplyUART]. *)
Definition Module_Config_ApplyUART (hal : HAL) (s : State) : Z * State :=
  let c := current_config s in
  (* De-init UART *)
  let s := effect UART_DeInit s in
  let init :=
    {| BaudRate := baud_rate (uart c);
       Parity :=
         if parity (uart c) =? 0 then UART_PARITY_NONE
         else if parity (uart c) =? 1 then UART_PARITY_EVEN
         else if parity (uart c) =? 2 then UART_PARITY_ODD
         else UART_PARITY_NONE;
       StopBits :=
         if stop_bits (uart c) =? 2 then UART_STOPBITS_2 else UART_STOPBITS_1;
       WordLength :=
         if parity (uart c) =? 0 then
           if data_bits (uart c) =? 8 then UART_WORDLENGTH_8B
           else UART_WORDLENGTH_7B
         else
           (* With parity, need 9-bit word for 8-bit data *)
           if data_bits (uart c) =? 8 then UART_WORDLENGTH_9B
           else UART_WORDLENGTH_8B |} in
  let s := set_hlpuart1_Init init s in
  (* Re-init UART *)
  let s := effect UART_Init s in
  if negb (HAL_UART_Init_status hal =? 0) then (-1, s) else (0, s).

(** [Module_Config_ApplyRF].  The [int8_t] power is passed for the
    [uint8_t PA_Level] of [aci_hal_set_tx_power_level] and converted on the
    way: the stack receives it modulo 256. *)
Definition Module_Config_ApplyRF (hal : HAL) (s : State) : Z * State :=
  let s :=
    effect (Set_TX_Power 1 (wrap8 (tx_power_dbm (rf (current_config s))))) s in
  if negb (aci_hal_set_tx_power_level_status hal =? 0) then (-1, s) else (0, s).

(** [AT_Response_Send] as these handlers use it. *)
Definition AT_Response_Send (text : string) (s : State) : State :=
  effect (Send (response_bytes text)) s.

(** [AT_NAME_Handler]. *)
Definition AT_NAME_Handler (name : option string) (s : State) : Z * State :=
  match name with
  | None | Some EmptyString => (-1, AT_Response_Send ("ERROR" ++ CRLF) s)
  | Some _ =>
      let '(r, s) := Module_Config_SetDeviceName name s in
      if r =? 0 then (0, AT_Response_Send ("OK" ++ CRLF) s)
      else (-1, AT_Response_Send ("ERROR" ++ CRLF) s)
  end.

(** [AT_COMM_Handler]. *)
Definition AT_COMM_Handler (baud parity stop : Z) (hal : HAL) (s : State)
    : Z * State :=
  let uart_config :=
    {| baud_rate := baud; parity := parity; stop_bits := stop;
       data_bits := 8 |} in
  let '(r, s) := Module_Config_SetUART (Some uart_config) s in
  if r =? 0 then
    let s := AT_Response_Send ("OK" ++ CRLF) s in
    (* Apply UART changes after response *)
    let s := effect (Delay 50) s in
    let '(_, s) := Module_Config_ApplyUART hal s in
    (0, s)
  else (-1, AT_Response_Send ("ERROR" ++ CRLF) s).

(** [AT_RF_Handler]. *)
Definition AT_RF_Handler (tx_power scan_interval scan_window : Z) (hal : HAL)
    (s : State) : Z * State :=
  let rf_config :=
    {| tx_power_dbm := tx_power; scan_interval := scan_interval;
       scan_window := scan_window;
       conn_interval_min := 24;  (* Keep defaults *)
       conn_interval_max := 40 |} in
  let '(r, s) := Module_Config_SetRF (Some rf_config) s in
  if r =? 0 then
    (* Apply RF config immediately *)
    let '(_, s) := Module_Config_ApplyRF hal s in
    (0, AT_Response_Send ("OK" ++ CRLF) s)
  else (-1, AT_Response_Send ("ERROR" ++ CRLF) s).

End Config.

(** ** module_power.c *)

Module Power.

(** [Power_Mode_t]. *)
Definition POWER_MODE_RUN : Z := 0.
Definition POWER_MODE_SLEEP : Z := 1.
Definition POWER_MODE_STOP0 : Z := 2.
Definition POWER_MODE_STOP1 : Z := 3.
Definition POWER_MODE_STOP2 : Z := 4.
Definition POWER_MODE_STANDBY : Z := 5.

(** [Wake_Source_t]. *)
Definition WAKE_SOURCE_NONE : Z := 0.
Definition WAKE_SOURCE_UART : Z := 1.
Definition WAKE_SOURCE_GPIO : Z := 2.
Definition WAKE_SOURCE_TIMER : Z := 4.
Definition WAKE_SOURCE_BLE : Z := 8.

(** The statics of module_power.c and the effects so far. *)
Record State := {
  current_mode : Z;        (* Power_Mode_t *)
  is_sleeping : Z;         (* uint8_t *)
  wake_sources : Z;        (* uint8_t *)
  last_wake_source : Z;    (* Wake_Source_t *)
  effects : list Effect
}.

Definition set_current_mode v s :=
  {| current_mode := v; is_sleeping := is_sleeping s;
     wake_sources := wake_sources s; last_wake_source := last_wake_source s;
     effects := effects s |}.
Definition set_is_sleeping v s :=
  {| current_mode := current_mode s; is_sleeping := v;
     wake_sources := wake_sources s; last_wake_source := last_wake_source s;
     effects := effects s |}.
Definition set_wake_sources v s :=
  {| current_mode := current_mode s; is_sleeping := is_sleeping s;
     wake_sources := v; last_wake_source := last_wake_source s;
     effects := effects s |}.
Definition set_last_wake_source v s :=
  {| current_mode := current_mode s; is_sleeping := is_sleeping s;
     wake_sources := wake_sources s; last_wake_source := v;
     effects := effects s |}.
Definition effect (ev : Effect) s :=
  {| current_mode := current_mode s; is_sleeping := is_sleeping s;
     wake_sources := wake_sources s; last_wake_source := last_wake_source s;
     effects := effects s ++ [ev] |}.

(** [Module_Power_Init]. *)
Definition Module_Power_Init (s : State) : State :=
  let s := set_current_mode POWER_MODE_RUN s in
  let s := set_is_sleeping 0 s in
  (* Default wake sources *)
  let s := set_wake_sources (Z.lor WAKE_SOURCE_UART WAKE_SOURCE_BLE) s in
  (* Initialize Low Power Manager *)
  effect LPM_Init s.

(** [Module_Power_ConfigureWake]. *)
Definition Module_Power_ConfigureWake (wake_mask : Z) (s : State) : Z * State :=
  let s := set_wake_sources wake_mask s in
  (* Configure UART wake *)
  let s :=
    if negb (Z.land wake_mask WAKE_SOURCE_UART =? 0)
    then effect UART_Enable_RXNE_IT s else s in
  (0, s).

(** [Module_Power_DisablePeripherals]. *)
Definition Module_Power_DisablePeripherals (s : State) : Z * State :=
  let s :=
    if Z.land (wake_sources s) WAKE_SOURCE_UART =? 0
    then (* Disable UART if not needed for wake *) effect UART_MspDeInit s
    else s in
  (* Stop any active BLE scanning/advertising if going to deep sleep *)
  let s :=
    if POWER_MODE_STOP2 <=? current_mode s then effect Scan_Stop s else s in
  (0, s).

(** [Module_Power_EnablePeripherals]. *)
Definition Module_Power_EnablePeripherals (s : State) : Z * State :=
  let s :=
    if Z.land (wake_sources s) WAKE_SOURCE_UART =? 0
    then (* Re-enable UART if it was disabled *) effect UART_MspInit s
    else s in
  (0, s).

(** [Module_Power_EnterSleep].  The calls that put the processor to sleep
    are recorded as effects; the function goes on when they return. *)
Definition Module_Power_EnterSleep (mode wake_mask timeout_ms : Z) (s : State)
    : Z * State :=
  if mode =? POWER_MODE_RUN then (0, s) (* Already in run mode *)
  else
    (* Configure wake sources *)
    let s := set_wake_sources wake_mask s in
    let '(_, s) := Module_Power_ConfigureWake wake_mask s in
    (* Disable non-essential peripherals *)
    let '(_, s) := Module_Power_DisablePeripherals s in
    (* Set sleep flag *)
    let s := set_is_sleeping 1 s in
    let s := set_current_mode mode s in
    (* Enter low power mode based on type *)
    let after_wake (s : State) : Z * State :=
      (* After wake - re-enable peripherals *)
      let s := set_is_sleeping 0 s in
      let s := set_current_mode POWER_MODE_RUN s in
      let '(_, s) := Module_Power_EnablePeripherals s in
      (0, s) in
    if mode =? POWER_MODE_SLEEP then
      (* Sleep mode - WFI *)
      let s := effect (LPM_SetOffMode false) s in
      let s := effect (LPM_SetStopMode false) s in
      let s := effect LPM_EnterLowPower s in
      after_wake s
    else if (mode =? POWER_MODE_STOP0) || (mode =? POWER_MODE_STOP1)
            || (mode =? POWER_MODE_STOP2) then
      (* Stop modes with RAM retention *)
      let s := effect (LPM_SetOffMode false) s in
      let s := effect (LPM_SetStopMode true) s in
      let s := effect LPM_EnterLowPower s in
      after_wake s
    else if mode =? POWER_MODE_STANDBY then
      (* Standby - full shutdown *)
      let s := effect PWR_EnterSTANDBYMode s in
      after_wake s
    else
      let s := set_is_sleeping 0 s in
      let s := set_current_mode POWER_MODE_RUN s in
      (-1, s).

(** [Module_Power_Wake]. *)
Definition Module_Power_Wake (hal : HAL) (s : State) : Z * State :=
  let s :=
    if UART_FLAG_RXNE_set hal then set_last_wake_source WAKE_SOURCE_UART s
    else if RTC_FLAG_ALRAF_set hal then
      set_last_wake_source WAKE_SOURCE_TIMER s
    else set_last_wake_source WAKE_SOURCE_GPIO s in
  (last_wake_source s, s).

Definition Module_Power_GetMode (s : State) : Z := current_mode s.
Definition Module_Power_IsSleeping (s : State) : Z := is_sleeping s.

(** [AT_Response_Send] as the power handlers use it. *)
Definition AT_Response_Send (text : string) (s : State) : State :=
  effect (Send (response_bytes text)) s.

(** [AT_SLEEP_Handler]. *)
Definition AT_SLEEP_Handler (mode wake_mask timeout_ms : Z) (s : State)
    : Z * State :=
  (* Validate mode *)
  if (mode <? 1) || (4 <? mode) then
    (-1, AT_Response_Send ("+ERROR:INVALID_MODE" ++ CRLF) s)
  else
    let power_mode := mode in
    let s := AT_Response_Send ("OK" ++ CRLF) s in
    (* Allow UART transmission to complete *)
    let s := effect (Delay 50) s in
    (* Enter sleep *)
    let '(_, s) := Module_Power_EnterSleep power_mode wake_mask timeout_ms s in
    (* After wake - send wake event *)
    let s := AT_Response_Send ("+WAKE" ++ CRLF) s in
    (0, s).

(** [AT_WAKE_Handler]. *)
Definition AT_WAKE_Handler (s : State) : Z * State :=
  (0, AT_Response_Send ("OK" ++ CRLF) s).

End Power.

(** * ble_event_handler.c: discovery results

    The two functions that decode the attribute data of a discovery event
    and report it on the serial line.  The result is the list of lines
    sent, or [None] when the C code has no defined behaviour: a division
    by zero, or a read outside the [data] array. *)

Module EventHandler.

(** [data[k]]. *)
Definition byte_at (data : list Z) (k : Z) : option Z :=
  if k <? 0 then None else data !! Z.to_nat k.

(** [(uint16_t)(data[k] | (data[k + 1] << 8))]. *)
Definition u16_at (data : list Z) (k : Z) : option Z :=
  match byte_at data k, byte_at data (k + 1) with
  | Some lo, Some hi => Some (wrap16 (Z.lor lo (Z.shiftl hi 8)))
  | _, _ => None
  end.

(** ["+SERVICE:0x%04X,0x%04X,0x%04X\r\n"]. *)
Definition SERVICE_line (start_handle end_handle uuid16 : Z) : string :=
  "+SERVICE:0x" ++ Fmt.X04 start_handle ++ ",0x" ++ Fmt.X04 end_handle
  ++ ",0x" ++ Fmt.X04 uuid16 ++ CRLF.

(** ["+CHAR:0x%04X,0x%02X,0x%04X,0x%04X\r\n"]. *)
Definition CHAR_line (attr_handle properties value_handle uuid16 : Z)
    : string :=
  "+CHAR:0x" ++ Fmt.X04 attr_handle ++ ",0x" ++ Fmt.X02 properties
  ++ ",0x" ++ Fmt.X04 value_handle ++ ",0x" ++ Fmt.X04 uuid16 ++ CRLF.

(** The [for] loop of [BLE_EventHandler_OnServiceDiscovered]; [n] bounds
    the iterations left, [i] and [num_services] are [uint8_t]. *)
Fixpoint services_loop (n : nat) (i num_services : Z) (data : list Z)
    (attr_data_len : Z) : option (list Effect) :=
  match n with
  | O => Some []
  | S n' =>
      if i <? num_services then
        let offset := wrap8 (i * attr_data_len) in
        (* Extract handles *)
        match u16_at data offset, u16_at data (offset + 2) with
        | Some start_handle, Some end_handle =>
            let rest :=
              services_loop n' (wrap8 (i + 1)) num_services data
                attr_data_len in
            (* Parse UUID - check if 16-bit or 128-bit *)
            if attr_data_len =? 6 then
              match u16_at data (offset + 4), rest with
              | Some uuid16, Some sent =>
                  Some (Send (response_bytes
                                (SERVICE_line start_handle end_handle uuid16))
                        :: sent)
              | _, _ => None
              end
            else if attr_data_len =? 20 then
              match u16_at data (offset + 16), rest with
              | Some uuid16, Some sent =>
                  Some (Send (response_bytes
                                (SERVICE_line start_handle end_handle uuid16))
                        :: sent)
              | _, _ => None
              end
            else rest
        | _, _ => None
        end
      else Some []
  end.

(** [BLE_EventHandler_OnServiceDiscovered]. *)
Definition BLE_EventHandler_OnServiceDiscovered (conn_handle : Z)
    (data : list Z) (data_len attr_data_len : Z) : option (list Effect) :=
  if attr_data_len =? 0 then None
  else
    let num_services := wrap8 (data_len / attr_data_len) in
    services_loop (Z.to_nat num_services) 0 num_services data attr_data_len.

(** The [for] loop of [BLE_EventHandler_OnCharacteristicDiscovered]. *)
Fixpoint chars_loop (n : nat) (i num_chars : Z) (data : list Z)
    (pair_len : Z) : option (list Effect) :=
  match n with
  | O => Some []
  | S n' =>
      if i <? num_chars then
        let offset := wrap8 (i * pair_len) in
        (* Extract fields *)
        match u16_at data offset, byte_at data (offset + 2),
              u16_at data (offset + 3) with
        | Some attr_handle, Some properties, Some value_handle =>
            let rest :=
              chars_loop n' (wrap8 (i + 1)) num_chars data pair_len in
            (* Parse UUID *)
            if pair_len =? 7 then
              match u16_at data (offset + 5), rest with
              | Some uuid16, Some sent =>
                  Some (Send (response_bytes
                                (CHAR_line attr_handle properties value_handle
                                   uuid16))
                        :: sent)
              | _, _ => None
              end
            else if pair_len =? 21 then
              match u16_at data (offset + 17), rest with
              | Some uuid16, Some sent =>
                  Some (Send (response_bytes
                                (CHAR_line attr_handle properties value_handle
                                   uuid16))
                        :: sent)
              | _, _ => None
              end
            else rest
        | _, _, _ => None
        end
      else Some []
  end.

(** [BLE_EventHandler_OnCharacteristicDiscovered]. *)
Definition BLE_EventHandler_OnCharacteristicDiscovered (conn_handle : Z)
    (data : list Z) (data_len pair_len : Z) : option (list Effect) :=
  (* Need at least 1 byte for length + actual data *)
  if (data_len <? 2) || (pair_len <? 5) then Some []
  else
    (* Adjust data_len (first byte is length, ignore it) *)
    let actual_len := wrap16 (data_len - 1) in
    let num_chars := wrap8 (actual_len / pair_len) in
    chars_loop (Z.to_nat num_chars) 0 num_chars data pair_len.

End EventHandler.

(** * Vocabulary of the properties

    Definitions the statements below use: the invariants, the runs of
    calls, the reference encoding of hex strings, and the concrete states
    and collaborators at which the statements are tried. *)

Import Parse Mode Receiver Dispatch.

(** ** Mode controller *)

(** [hoare P c Q]: from every state that satisfies [P], and whatever the
    collaborators answer, [c] returns (it neither runs out of call depth
    nor stores out of bounds) and the result satisfies [Q]. *)
Definition hoare {A} (P : Machine -> Prop) (c : M A)
    (Q : A -> Machine -> Prop) : Prop :=
  forall e m, P m -> exists a m', c e m = Ok a m' /\ Q a m'.

(** The length stays inside the array, and the array keeps its size. *)
Definition tx_inv (m : Machine) : Prop :=
  0 <= data_tx_len m <= DATA_TX_BUFFER_SIZE
  /\ length (data_tx_buffer m) = Z.to_nat DATA_TX_BUFFER_SIZE.

(** The entry points of module_mode.h, for sequences of calls. *)
Inductive ModeCall :=
| Call_Init
| Call_EnterCommand
| Call_EnterData (dev_idx char_handle : Z)
| Call_ProcessDataByte (byte : Z)
| Call_ProcessGATTData (conn handle : Z) (data : list Z) (len : Z)
| Call_IsEscapeDetected
| Call_FlushTxBuffer.

Definition do_call (c : ModeCall) : M unit :=
  match c with
  | Call_Init => Mode.Module_Mode_Init
  | Call_EnterCommand => Mode.Module_Mode_EnterCommand;; ret tt
  | Call_EnterData i h => Mode.Module_Mode_EnterData i h;; ret tt
  | Call_ProcessDataByte b => Mode.Module_Mode_ProcessDataByte b
  | Call_ProcessGATTData c h d l => Mode.Module_Mode_ProcessGATTData c h d l
  | Call_IsEscapeDetected => Mode.Module_Mode_IsEscapeDetected;; ret tt
  | Call_FlushTxBuffer => Mode.Module_Mode_FlushTxBuffer;; ret tt
  end.

(** Each call is made under its own answers of the collaborators: time
    passes and devices connect and disconnect between calls. *)
Fixpoint run_calls (cs : list (Env * ModeCall)) (m : Machine) : Res unit :=
  match cs with
  | [] => Ok tt m
  | (e, c) :: rest =>
      match do_call c e m with
      | Ok _ m' => run_calls rest m'
      | OutOfFuel => OutOfFuel
      | OutOfBounds => OutOfBounds
      | NoReturn m' => NoReturn m'
      end
  end.

(** The statics of module_mode.c as their initialisers leave them. *)
Definition power_on : Machine :=
  {| current_mode := MODE_COMMAND;
     target_dev_idx := 255;
     target_char_handle := 0;
     data_tx_buffer := replicate (Z.to_nat DATA_TX_BUFFER_SIZE) 0;
     data_tx_len := 0;
     escape_count := 0;
     last_char_time := 0;
     escape_start_time := 0;
     escape_detected := 0;
     trace := [] |}.

(** No device is known; every BLE request would succeed. *)
Definition quiet_env (tick : Z) : Env :=
  {| HAL_GetTick := tick;
     BLE_DeviceManager_GetCount := 0;
     BLE_DeviceManager_GetDevice := fun _ => None;
     BLE_DeviceManager_FindDevice := fun _ => -1;
     BLE_GATT_WriteCharacteristic := fun _ _ _ => 0;
     BLE_GATT_ReadCharacteristic := fun _ _ => 0;
     BLE_Connection_CreateConnection := fun _ => 0;
     BLE_Connection_StopScan := 0 |}.

(** Data mode towards device 0, one byte waiting in the buffer. *)
Definition data_mode_one_byte : Machine :=
  {| current_mode := MODE_DATA;
     target_dev_idx := 0;
     target_char_handle := 18;
     data_tx_buffer := <[0%nat := 65]> (replicate (Z.to_nat DATA_TX_BUFFER_SIZE) 0);
     data_tx_len := 1;
     escape_count := 0;
     last_char_time := 0;
     escape_start_time := 0;
     escape_detected := 0;
     trace := [] |}.

(** A connected device. *)
Definition some_device : BLE_Device_t :=
  {| mac_addr := [1; 2; 3; 4; 5; 6]; rssi := -60; conn_handle := 7;
     is_connected := true; name := "sensor" |}.

(** Device 0 is connected; the characteristic write answers [status]. *)
Definition one_device_env (tick status : Z) : Env :=
  {| HAL_GetTick := tick;
     BLE_DeviceManager_GetCount := 1;
     BLE_DeviceManager_GetDevice := fun i => if i =? 0 then Some some_device else None;
     BLE_DeviceManager_FindDevice := fun _ => 0;
     BLE_GATT_WriteCharacteristic := fun _ _ _ => status;
     BLE_GATT_ReadCharacteristic := fun _ _ => 0;
     BLE_Connection_CreateConnection := fun _ => 0;
     BLE_Connection_StopScan := 0 |}.

(** Data mode towards device 0, nothing buffered, last byte seen at
    tick 0. *)
Definition data_mode_idle : Machine :=
  {| current_mode := MODE_DATA;
     target_dev_idx := 0;
     target_char_handle := 18;
     data_tx_buffer := replicate (Z.to_nat DATA_TX_BUFFER_SIZE) 0;
     data_tx_len := 0;
     escape_count := 0;
     last_char_time := 0;
     escape_start_time := 0;
     escape_detected := 0;
     trace := [] |}.

(** One second of silence, then ['+'] ['+'] ['+'] and [byte] one
    millisecond apart. *)
Definition plus_plus_plus_then (byte : Z) : list (Env * ModeCall) :=
  [ (one_device_env 1000 0, Call_ProcessDataByte 43);
    (one_device_env 1001 0, Call_ProcessDataByte 43);
    (one_device_env 1002 0, Call_ProcessDataByte 43);
    (one_device_env 1003 0, Call_ProcessDataByte byte) ].

(** The payload bytes handed to the characteristic so far. *)
Fixpoint written (tr : list Event) : list Z :=
  match tr with
  | [] => []
  | GATT_Write _ _ data :: rest => data ++ written rest
  | _ :: rest => written rest
  end.

(** Every byte that was stored as payload, in order: what the flushes
    handed over, then what is waiting. *)
Definition payload (m : Machine) : list Z :=
  written (trace m) ++ take (Z.to_nat (data_tx_len m)) (data_tx_buffer m).

(** ** Line receiver *)

(** A character the receiver stores: 0x20..0x7E. *)
Definition printable (c : ascii) : Prop := ASCII_SPACE <= code c <= ASCII_TILDE.

(** The first [idx] cells of the line buffer hold printable characters. *)
Definition line_ok (buf : list ascii) (idx : Z) : Prop :=
  length buf = Z.to_nat AT_CMD_MAX_LEN
  /\ 0 <= idx <= AT_CMD_MAX_LEN - 1
  /\ forall j : nat, (j < Z.to_nat idx)%nat ->
       exists c, buf !! j = Some c /\ printable c.

(** The invariant of the receiver: while the ready flag is set, the line
    has at least two characters and its terminator is in place. *)
Definition rx_inv (s : ATState) : Prop :=
  line_ok (at_line_buf s) (at_line_idx s)
  /\ (at_cmd_ready s <> 0 ->
      2 <= at_line_idx s
      /\ at_line_buf s !! Z.to_nat (at_line_idx s) = Some NUL).

(** What one run of the processing task does to the receiver's statics
    ([AT_Command_ProcessReady]). *)
Definition task_drain (s : ATState) : ATState :=
  if at_cmd_ready s =? 0 then s else drain s.

(** What happens to the receiver: a byte arrives in the interrupt handler,
    or the processing task runs. *)
Inductive RxInput :=
| Rx (byte : Z)
| Task.

(** The receiver's statics after one input. *)
Definition rx_step (s : ATState) (i : RxInput) : ATState :=
  match i with
  | Rx byte => (AT_Command_ReceiveByte byte s).1
  | Task => task_drain s
  end.

(** The receiver after a sequence of such inputs. *)
Definition rx_run (ins : list RxInput) (s : ATState) : ATState :=
  foldl rx_step s ins.

(** Bytes fed back to back, the task not running in between: the final
    state, and how many of the calls raised the ready flag. *)
Fixpoint feed (bytes : list Z) (s : ATState) : ATState * nat :=
  match bytes with
  | [] => (s, O)
  | byte :: rest =>
      let '(s1, raised) := AT_Command_ReceiveByte byte s in
      let '(s2, n) := feed rest s1 in
      (s2, ((if raised : bool then 1 else 0) + n)%nat)
  end.

(** The receiver with the line ["AT"] completed and not yet drained. *)
Definition line_AT_ready : ATState :=
  rx_run [Rx 65; Rx 84; Rx 13] AT_Command_Init.

(** ** Hex digits, MAC addresses and hex payloads *)

(** The alphabet [0-9A-Fa-f]. *)
Definition is_hex (c : ascii) : bool :=
  ((48 <=? code c) && (code c <=? 57))
  || ((65 <=? code c) && (code c <=? 70))
  || ((97 <=? code c) && (code c <=? 102)).

(** The value of a hex digit, 0 for any other character. *)
Definition hex_value (c : ascii) : Z :=
  if (48 <=? code c) && (code c <=? 57) then code c - 48
  else if (65 <=? code c) && (code c <=? 70) then code c - 55
  else if (97 <=? code c) && (code c <=? 102) then code c - 87
  else 0.

(** The values 0..15, for facts checked value by value. *)
Definition nibbles : list Z := map Z.of_nat (seq 0 16).

(** What [ParseMACString] wants at position [k] of the string: a colon at
    2, 5, 8, 11 and 14, a hex digit elsewhere. *)
Definition mac_pos_ok (k : nat) (c : ascii) : bool :=
  if (k mod 3 =? 2)%nat then Ascii.eqb c ":"%char else is_hex c.

(** The first 17 characters are six 2-digit hex octets separated by
    colons.  Nothing is said about what follows them. *)
Definition mac_formb (s : string) : bool :=
  forallb (fun k => mac_pos_ok k (char_at s k)) (seq 0 17).

(** The value of the [i]-th octet. *)
Definition octet (s : string) (i : nat) : Z :=
  16 * hex_value (char_at s (i * 3)) + hex_value (char_at s (i * 3 + 1)).

(** Every character is one of [0-9A-Fa-f]. *)
Fixpoint all_hex (s : string) : bool :=
  match s with
  | EmptyString => true
  | String c rest => is_hex c && all_hex rest
  end.


(** The bytes that the digit pairs of [s] denote. *)
Fixpoint hex_decode (s : string) : list Z :=
  match s with
  | String c0 (String c1 rest) =>
      (16 * hex_value c0 + hex_value c1) :: hex_decode rest
  | _ => []
  end.



(** Induction over a string two characters at a time. *)
Fixpoint string_pair_ind (P : string -> Prop) (H0 : P EmptyString)
    (H1 : forall c, P (String c EmptyString))
    (H2 : forall c0 c1 s, P s -> P (String c0 (String c1 s)))
    (s : string) : P s :=
  match s with
  | EmptyString => H0
  | String c EmptyString => H1 c
  | String c0 (String c1 rest) =>
      H2 c0 c1 rest (string_pair_ind P H0 H1 H2 rest)
  end.

(** The values 0..255, for facts checked value by value. *)
Definition byte_values : list Z := map Z.of_nat (seq 0 256).


(** ** Decimal fields *)

(** The decimal value of a digit string, continuing from [acc]. *)
Fixpoint dec_value (digits : string) (acc : Z) : Z :=
  match digits with
  | EmptyString => acc
  | String c rest => dec_value rest (acc * 10 + (code c - 48))
  end.

(** Every character is a decimal digit. *)
Fixpoint all_digits (s : string) : bool :=
  match s with
  | EmptyString => true
  | String c rest => is_digit c && all_digits rest
  end.

(** ** Device list *)

(** A second device, not connected and without a name. *)
Definition other_device : BLE_Device_t :=
  {| mac_addr := [17; 34; 51; 68; 85; 102]; rssi := -71; conn_handle := 65535;
     is_connected := false; name := "" |}.

(** Two devices known to the device manager. *)
Definition two_device_env : Env :=
  {| HAL_GetTick := 0;
     BLE_DeviceManager_GetCount := 2;
     BLE_DeviceManager_GetDevice := fun i =>
       if i =? 0 then Some some_device
       else if i =? 1 then Some other_device else None;
     BLE_DeviceManager_FindDevice := fun _ => 0;
     BLE_GATT_WriteCharacteristic := fun _ _ _ => 0;
     BLE_GATT_ReadCharacteristic := fun _ _ => 0;
     BLE_Connection_CreateConnection := fun _ => 0;
     BLE_Connection_StopScan := 0 |}.

(** ** Fields of a command line *)

(** The string is empty or starts with something else than a decimal
    digit: where a decimal field ends. *)
Definition no_leading_digit (s : string) : bool :=
  match s with
  | EmptyString => true
  | String c _ => negb (is_digit c)
  end.

(** No comma anywhere in the string. *)
Fixpoint no_comma (s : string) : bool :=
  match s with
  | EmptyString => true
  | String c rest => negb (Ascii.eqb c ","%char) && no_comma rest
  end.

(** ** Mode controller at rest *)

(** In Command mode no target is set: the device index is 0xFF and the
    characteristic handle 0. *)
Definition target_cleared (m : Machine) : Prop :=
  current_mode m = MODE_COMMAND ->
  target_dev_idx m = 255 /\ target_char_handle m = 0.

(** The transmit buffer has its size and holds at most [limit] bytes, and
    no target is set in Command mode. *)
Definition at_most (limit : Z) (m : Machine) : Prop :=
  length (data_tx_buffer m) = Z.to_nat DATA_TX_BUFFER_SIZE
  /\ 0 <= data_tx_len m <= limit
  /\ target_cleared m.

(** The auto-flush threshold of [Module_Mode_ProcessDataByte]. *)
Definition FLUSH_THRESHOLD : Z := DATA_TX_BUFFER_SIZE - 20.

(** ** The data tunnel *)


(** The target of the data mode is a connected device. *)
Definition target_connected (e : Env) (m : Machine) : Prop :=
  exists d,
    connected (BLE_DeviceManager_GetDevice e (target_dev_idx m)) = Some d.



(** The part of the state that decides mode and escape detection. *)
Definition control (m : Machine) : Operation_Mode_t * Z * Z * Z * Z :=
  (current_mode m, target_dev_idx m, target_char_handle m,
   escape_count m, escape_detected m).

(** ** Lines typed at the serial port *)

(** A byte the receiver stores: 0x20..0x7E. *)
Definition printable_byte (b : Z) : Prop := ASCII_SPACE <= b <= ASCII_TILDE.

(** The characters of a byte sequence. *)
Definition chars_of (bytes : list Z) : string :=
  string_of_list_ascii (map char_of_byte bytes).

(** The receiver is idle: no line is waiting and none has been started. *)
Definition rx_idle (s : ATState) : Prop :=
  at_cmd_ready s = 0 /\ at_line_idx s = 0
  /\ length (at_line_buf s) = Z.to_nat AT_CMD_MAX_LEN.

(** A byte the receiver counts as garbage: neither printable nor a line
    terminator. *)
Definition garbage_byte (b : Z) : Prop :=
  ~ printable_byte b /\ b <> ASCII_CR /\ b <> ASCII_LF.

(** ** Commands and the data tunnel *)

(** [c] returns from every state and changes nothing of it but the trace,
    to which it adds events. *)
Definition only_talks {A} (c : M A) : Prop :=
  forall e m, exists a evs, c e m = Ok a (set_trace (trace m ++ evs) m).

(** ** Command lines with decimal fields *)

(** A decimal field: a non-empty run of digits. *)
Definition is_field (s : string) : Prop :=
  s <> EmptyString /\ all_digits s = true.

(** The number a decimal field denotes. *)
Definition field_value (s : string) : Z := dec_value s 0.

(** The state [m] after the events [evs] and nothing else. *)
Definition says (m : Machine) (evs : list Event) : Machine :=
  set_trace (trace m ++ evs) m.

(** The mode controller right after data mode has been entered towards
    device [idx] and characteristic [hdl] at tick [tick]: the buffer
    counts as empty and no escape run is under way. *)
Definition data_mode_towards (idx hdl tick : Z) (m : Machine) : Machine :=
  {| current_mode := MODE_DATA;
     target_dev_idx := idx;
     target_char_handle := hdl;
     data_tx_buffer := data_tx_buffer m;
     data_tx_len := 0;
     escape_count := 0;
     last_char_time := tick;
     escape_start_time := escape_start_time m;
     escape_detected := 0;
     trace := trace m |}.

(** ** Addresses *)

(** The address as a device line shows it: [mac_addr[5]] first,
    [mac_addr[0]] last. *)
Definition MAC_text (dev : BLE_Device_t) : string :=
  Fmt.X02 (mac_byte dev 5) ++ ":" ++ Fmt.X02 (mac_byte dev 4) ++ ":"
  ++ Fmt.X02 (mac_byte dev 3) ++ ":" ++ Fmt.X02 (mac_byte dev 2) ++ ":"
  ++ Fmt.X02 (mac_byte dev 1) ++ ":" ++ Fmt.X02 (mac_byte dev 0).

(** ** Configuration commands *)

(** What [ParseUInt16] makes of a decimal field: its value, or 0 when the
    value does not fit 16 bits. *)
Definition as_uint16 (field : string) : Z :=
  if field_value field <=? 65535 then field_value field else 0.

(** What [ParseUInt8] makes of a decimal field: its value, or 255 when the
    value does not fit 8 bits. *)
Definition as_uint8 (field : string) : Z :=
  if field_value field <=? 255 then field_value field else 255.

(** The configuration module after [Module_Config_Init], nothing done
    yet. *)
Definition config_at_start : Config.State :=
  Config.Module_Config_Init
    {| Config.current_config := Config.default_config;
       Config.config_loaded := 0;
       Config.hlpuart1_Init :=
         {| Config.BaudRate := 921600;
            Config.Parity := Config.UART_PARITY_NONE;
            Config.StopBits := Config.UART_STOPBITS_1;
            Config.WordLength := Config.UART_WORDLENGTH_8B |};
       Config.effects := [] |}.

(** Every request to the HAL and to the BLE stack succeeds. *)
Definition hal_ok : HAL :=
  {| HAL_UART_Init_status := 0;
     aci_hal_set_tx_power_level_status := 0;
     UART_FLAG_RXNE_set := true;
     RTC_FLAG_ALRAF_set := false |}.

(** ** Power management *)

(** The power module after [Module_Power_Init], nothing done yet. *)
Definition power_at_start : Power.State :=
  {| Power.current_mode := Power.POWER_MODE_RUN;
     Power.is_sleeping := 0;
     Power.wake_sources := 9;
     Power.last_wake_source := Power.WAKE_SOURCE_NONE;
     Power.effects := [] |}.

(** The low-power entry that [Module_Power_EnterSleep] makes for a mode in
    1..5. *)
Definition low_power_entry (mode : Z) : list Effect :=
  if mode =? Power.POWER_MODE_STANDBY then [PWR_EnterSTANDBYMode]
  else [LPM_SetOffMode false;
        LPM_SetStopMode (negb (mode =? Power.POWER_MODE_SLEEP));
        LPM_EnterLowPower].

(** The UART is among the wake sources of [wake_mask]. *)
Definition wakes_on_UART (wake_mask : Z) : bool :=
  negb (Z.land wake_mask Power.WAKE_SOURCE_UART =? 0).

(** What one sleep and wake does to the outside. *)
Definition sleep_effects (mode wake_mask : Z) : list Effect :=
  (if wakes_on_UART wake_mask then [UART_Enable_RXNE_IT] else [UART_MspDeInit])
  ++ low_power_entry mode
  ++ (if wakes_on_UART wake_mask then [] else [UART_MspInit]).

(** Calls of [Module_Power_EnterSleep], one after the other; each call is
    given by its mode, wake mask and timeout. *)
Fixpoint sleeps (calls : list (Z * Z * Z)) (s : Power.State) : Power.State :=
  match calls with
  | [] => s
  | (mode, wake_mask, timeout_ms) :: rest =>
      sleeps rest (Power.Module_Power_EnterSleep mode wake_mask timeout_ms s).2
  end.

(** ** Discovery results *)

(** A 16-bit value as two bytes, low byte first. *)
Definition le16 (v : Z) : list Z := [v mod 256; v / 256].

(** A service with a 16-bit UUID: start handle, end handle, UUID. *)
Definition Service : Type := Z * Z * Z.

(** Its six bytes in an attribute list. *)
Definition service_bytes (r : Service) : list Z :=
  let '(start_handle, end_handle, uuid16) := r in
  le16 start_handle ++ le16 end_handle ++ le16 uuid16.

(** The line that reports it. *)
Definition service_line (r : Service) : string :=
  let '(start_handle, end_handle, uuid16) := r in
  EventHandler.SERVICE_line start_handle end_handle uuid16.

Definition service_ok (r : Service) : Prop :=
  let '(start_handle, end_handle, uuid16) := r in
  0 <= start_handle < 65536 /\ 0 <= end_handle < 65536
  /\ 0 <= uuid16 < 65536.

(** A characteristic with a 16-bit UUID: declaration handle, properties,
    value handle, UUID. *)
Definition Characteristic : Type := Z * Z * Z * Z.

(** Its seven bytes in an attribute list. *)
Definition characteristic_bytes (r : Characteristic) : list Z :=
  let '(attr_handle, properties, value_handle, uuid16) := r in
  le16 attr_handle ++ [properties] ++ le16 value_handle ++ le16 uuid16.

(** The line that reports it. *)
Definition characteristic_line (r : Characteristic) : string :=
  let '(attr_handle, properties, value_handle, uuid16) := r in
  EventHandler.CHAR_line attr_handle properties value_handle uuid16.

Definition characteristic_ok (r : Characteristic) : Prop :=
  let '(attr_handle, properties, value_handle, uuid16) := r in
  0 <= attr_handle < 65536 /\ 0 <= properties < 256
  /\ 0 <= value_handle < 65536 /\ 0 <= uuid16 < 65536.

(** The test [byte >= 0x20 && byte <= 0x7E]. *)
Definition is_printable_byte (b : Z) : bool :=
  (ASCII_SPACE <=? b) && (b <=? ASCII_TILDE).

(** The bytes of a sequence that the receiver stores. *)
Definition printable_part (bytes : list Z) : list Z :=
  List.filter is_printable_byte bytes.

(** No line terminator among the bytes, and no more than [AT_MAX_GARBAGE]
    bytes in a row that are not printable, counting from [run]. *)
Fixpoint noise_ok (run : Z) (bytes : list Z) : bool :=
  match bytes with
  | [] => true
  | b :: rest =>
      if is_printable_byte b then noise_ok 0 rest
      else negb ((b =? ASCII_CR) || (b =? ASCII_LF))
           && (run + 1 <=? AT_MAX_GARBAGE)
           && noise_ok (run + 1) rest
  end.

(** ** Blanks at the end of a line *)

(** The characters the trim loop of [AT_Command_Process] removes. *)
Definition is_blank (c : ascii) : bool :=
  Ascii.eqb c CR || Ascii.eqb c LF || Ascii.eqb c " "%char.

Fixpoint all_blank (s : string) : bool :=
  match s with
  | EmptyString => true
  | String c rest => is_blank c && all_blank rest
  end.


(** The two commands after which the firmware restarts: their handlers
    end in [NVIC_SystemReset(); while (1);] and never come back. *)
Definition restarts (cmd : string) : bool :=
  strcmp_eq cmd "AT+RESET" || strcmp_eq cmd "AT+FACTORY".

(** The longest payload that fits an [AT+WRITE] line: 114 hex digits after
    the thirteen characters of ["AT+WRITE=0,1,"]. *)
Definition hex_114 : string := string_of_list_ascii (replicate 114 "7"%char).

(** Data mode towards device 0 with the transmit buffer full: 512 bytes
    are waiting and no escape run is under way. *)
Definition full_buffer : Machine :=
  {| current_mode := MODE_DATA;
     target_dev_idx := 0;
     target_char_handle := 18;
     data_tx_buffer := replicate (Z.to_nat DATA_TX_BUFFER_SIZE) 65;
     data_tx_len := DATA_TX_BUFFER_SIZE;
     escape_count := 0;
     last_char_time := 0;
     escape_start_time := 0;
     escape_detected := 0;
     trace := [] |}.

(** * Properties *)

(** ** First facts and examples *)

Lemma code_range c : 0 <= code c < 256.
Proof.
  unfold code. pose proof (N_ascii_bounded c) as H.
  split; [apply N2Z.is_nonneg | ]. change 256 with (Z.of_N 256). lia.
Qed.

Example ParseUInt16_ex1 : Parse.ParseUInt16 (Some "65535") = 65535.
Proof. reflexivity. Qed.
Example ParseUInt16_ex2 : Parse.ParseUInt16 (Some "65536") = 0.
Proof. reflexivity. Qed.
Example ParseUInt16_ex3 : Parse.ParseUInt16 (Some "18,0A1B") = 18.
Proof. reflexivity. Qed.
Example ParseHexString_ex1 :
  Parse.ParseHexString (Some "0A1b") (Some (replicate 4 0)) 4
  = (2, Some [10; 27; 0; 0]).
Proof. reflexivity. Qed.
Example ParseMACString_ex1 :
  Parse.ParseMACString (Some "AA:bb:0C:1d:EE:F9") (Some (replicate 6 0))
  = (0, Some [170; 187; 12; 29; 238; 249]).
Proof. reflexivity. Qed.

Example Fmt_d_ex : (Fmt.d 0, Fmt.d 255, Fmt.d (-60)) = ("0", "255", "-60").
Proof. reflexivity. Qed.
Example Fmt_X_ex : (Fmt.X02 10, Fmt.X04 4660, Fmt.X04 7) = ("0A", "1234", "0007").
Proof. reflexivity. Qed.

(** ** Mode controller: the call depth is enough *)

Ltac munfold :=
  unfold Mode.Module_Mode_FlushTxBuffer, Mode.Module_Mode_EnterCommand,
    Mode.EnterCommand_depth, Mode.FlushTxBuffer_depth,
    Mode.FlushTxBuffer_body, Mode.EnterCommand_body, AT_Response_Send, emit,
    bind, ret, get, ask, modify, out_of_fuel, out_of_bounds in *.

(** [Module_Mode_FlushTxBuffer] returns from every state, and always
    leaves the transmit length at zero. *)
Lemma FlushTxBuffer_returns (e : Env) (m : Machine) :
  exists r m', Module_Mode_FlushTxBuffer e m = Ok r m' /\ data_tx_len m' = 0
    /\ data_tx_buffer m' = data_tx_buffer m.
Proof.
  destruct m as [md ti th buf len ec lt est ed tr]. munfold. simpl.
  destruct (len =? 0) eqn:Hlen.
  { apply Z.eqb_eq in Hlen. subst. eauto. }
  destruct md; simpl; [eauto | ].
  destruct (connected _) as [d | ]; simpl; [ | eauto].
  destruct (BLE_GATT_WriteCharacteristic _ _ _ _ =? 0); simpl; eauto.
Qed.

(** [Module_Mode_EnterCommand] returns 0 from every state and leaves the
    mode at [MODE_COMMAND]. *)
Lemma EnterCommand_returns (e : Env) (m : Machine) :
  exists m', Module_Mode_EnterCommand e m = Ok 0 m'
    /\ current_mode m' = MODE_COMMAND
    /\ (data_tx_len m' = 0 \/ data_tx_len m' = data_tx_len m)
    /\ data_tx_buffer m' = data_tx_buffer m.
Proof.
  destruct m as [md ti th buf len ec lt est ed tr]. munfold. simpl.
  destruct md; simpl; [eauto 10 | ].
  destruct (len =? 0) eqn:Hlen; simpl; [eauto 10 | ].
  destruct (connected _) as [d | ]; simpl; [ | eauto 10].
  destruct (BLE_GATT_WriteCharacteristic _ _ _ _ =? 0); simpl; eauto 10.
Qed.

(** More call depth changes nothing: the nesting never exceeds two. *)
Lemma FlushTxBuffer_depth_enough (d : nat) (e : Env) (m : Machine) :
  FlushTxBuffer_depth (2 + d) e m = Module_Mode_FlushTxBuffer e m.
Proof.
  destruct m as [md ti th buf len ec lt est ed tr]. munfold. simpl.
  destruct (len =? 0) eqn:Hlen; [reflexivity | ].
  destruct md; simpl; [reflexivity | ].
  destruct (connected _) as [dv | ]; simpl; reflexivity.
Qed.

Lemma EnterCommand_depth_enough (d : nat) (e : Env) (m : Machine) :
  EnterCommand_depth (2 + d) e m = Module_Mode_EnterCommand e m.
Proof.
  destruct m as [md ti th buf len ec lt est ed tr]. munfold. simpl.
  destruct md; simpl; [reflexivity | ].
  destruct (len =? 0) eqn:Hlen; simpl; [reflexivity | ].
  destruct (connected _) as [dv | ]; simpl; [ | reflexivity].
  destruct (BLE_GATT_WriteCharacteristic _ _ _ _ =? 0); simpl; reflexivity.
Qed.

(** ** Rules for the total-correctness triples *)

Section HoareRules.

Context {A B : Type}.

Lemma hoare_bind (P : Machine -> Prop) (Q : A -> Machine -> Prop)
    (R : B -> Machine -> Prop) (c : M A) (k : A -> M B) :
  hoare P c Q -> (forall a, hoare (Q a) (k a) R) -> hoare P (bind c k) R.
Proof.
  intros Hc Hk e m HP. destruct (Hc e m HP) as (a & m1 & Hrun & HQ).
  destruct (Hk a e m1 HQ) as (b & m2 & Hrun2 & HR).
  exists b, m2. unfold bind. rewrite Hrun. auto.
Qed.

Lemma hoare_get_bind (P : Machine -> Prop) (R : B -> Machine -> Prop)
    (k : Machine -> M B) :
  (forall m0, P m0 -> hoare (fun m => m = m0) (k m0) R) ->
  hoare P (bind get k) R.
Proof.
  intros Hk e m HP. destruct (Hk m HP e m eq_refl) as (b & m2 & Hrun & HR).
  exists b, m2. unfold bind, get. auto.
Qed.

Lemma hoare_ask_bind (P : Machine -> Prop) (R : B -> Machine -> Prop)
    (k : Env -> M B) :
  (forall e, hoare P (k e) R) -> hoare P (bind ask k) R.
Proof.
  intros Hk e m HP. destruct (Hk e e m HP) as (b & m2 & Hrun & HR).
  exists b, m2. unfold bind, ask. auto.
Qed.

Lemma hoare_weaken (P P' : Machine -> Prop) (Q Q' : A -> Machine -> Prop)
    (c : M A) :
  hoare P' c Q' -> (forall m, P m -> P' m) ->
  (forall a m, Q' a m -> Q a m) -> hoare P c Q.
Proof.
  intros Hc HP HQ e m H. destruct (Hc e m (HP m H)) as (a & m' & Hrun & H').
  eauto.
Qed.

Lemma hoare_ret (P : Machine -> Prop) (a : A) :
  hoare P (ret a) (fun x m => x = a /\ P m).
Proof. intros e m HP. exists a, m. auto. Qed.

End HoareRules.

Lemma hoare_modify (P : Machine -> Prop) (f : Machine -> Machine) :
  hoare (fun m => P (f m)) (modify f) (fun _ m => P m).
Proof. intros e m HP. exists tt, (f m). auto. Qed.

(** ** The transmit-buffer invariant *)

Lemma tx_append_inv (byte : Z) :
  hoare (fun m => tx_inv m /\ data_tx_len m < DATA_TX_BUFFER_SIZE)
    (tx_append byte) (fun _ m => tx_inv m).
Proof.
  intros e m [[Hlen Hbuf] Hlt]. unfold tx_append, bind, get, modify.
  destruct m as [md ti th buf len ec lt est ed tr]; simpl in *.
  assert (Hc : (0 <=? len) && (len <? DATA_TX_BUFFER_SIZE) = true).
  { apply andb_true_iff. split; [apply Z.leb_le | apply Z.ltb_lt]; lia. }
  rewrite Hc. eexists _, _. split; [reflexivity | ].
  unfold tx_inv, DATA_TX_BUFFER_SIZE, wrap16 in *; simpl.
  rewrite length_insert. rewrite Z.mod_small by lia. split; [lia | assumption].
Qed.

Lemma add_escape_chars_inv (n : nat) (i : Z) :
  hoare tx_inv (add_escape_chars n i) (fun _ m => tx_inv m).
Proof.
  revert i. induction n as [ | n IH]; intros i; simpl.
  - eapply hoare_weaken;
      [apply (hoare_ret tx_inv) | auto | intros a m [_ H]; exact H].
  - apply hoare_get_bind. intros m0 Hinv.
    destruct ((i <? escape_count m0) && (data_tx_len m0 <? DATA_TX_BUFFER_SIZE))
      eqn:Hc.
    + apply andb_true_iff in Hc as [_ Hlt]. apply Z.ltb_lt in Hlt.
      eapply hoare_bind; [ | intros; apply IH].
      eapply hoare_weaken; [apply tx_append_inv | | auto].
      intros m ->. auto.
    + eapply hoare_weaken;
        [apply (hoare_ret tx_inv) | | intros a m [_ H]; exact H].
      intros m ->. assumption.
Qed.

Lemma FlushTxBuffer_inv :
  hoare tx_inv Module_Mode_FlushTxBuffer
    (fun _ m => tx_inv m /\ data_tx_len m = 0).
Proof.
  intros e m [Hlen Hbuf].
  destruct (FlushTxBuffer_returns e m) as (r & m' & Hrun & Hz & Hb).
  exists r, m'. split; [assumption | ].
  unfold tx_inv, DATA_TX_BUFFER_SIZE in *. rewrite Hz, Hb. repeat split; lia.
Qed.

Lemma EnterCommand_inv :
  hoare tx_inv Module_Mode_EnterCommand (fun _ m => tx_inv m).
Proof.
  intros e m [Hlen Hbuf].
  destruct (EnterCommand_returns e m) as (m' & Hrun & _ & Hz & Hb).
  exists 0, m'. split; [assumption | ].
  unfold tx_inv, DATA_TX_BUFFER_SIZE in *. rewrite Hb.
  destruct Hz as [-> | ->]; repeat split; lia.
Qed.

(** Straight-line code: run it and look at the final state. *)
Ltac hoare_run :=
  let e := fresh "e" in
  let m := fresh "m" in
  intros e m ->;
  unfold bind, modify, ret, get, ask, emit, AT_Response_Send; simpl;
  eexists _, _; split; [reflexivity | ]; simpl.

Lemma escape_check_inv (byte current_time time_since_last : Z) :
  hoare tx_inv (escape_check byte current_time time_since_last)
    (fun _ m => tx_inv m).
Proof.
  unfold escape_check. apply hoare_get_bind. intros m0 Hinv.
  destruct (byte =? ESCAPE_SEQ_CHAR).
  - destruct (escape_count m0 =? 0).
    + destruct (ESCAPE_GUARD_TIME_MS <=? time_since_last);
        hoare_run; exact Hinv.
    + destruct (escape_count m0 <? ESCAPE_SEQ_LENGTH); [ | hoare_run; exact Hinv].
      intros e m ->. unfold bind, modify, ret, get; simpl.
      destruct (wrap8 (escape_count m0 + 1) =? ESCAPE_SEQ_LENGTH);
        eexists _, _; (split; [reflexivity | exact Hinv]).
  - eapply hoare_bind with (Q := fun _ m => tx_inv m).
    + destruct ((0 <? escape_count m0) && (escape_count m0 <? ESCAPE_SEQ_LENGTH)).
      * eapply hoare_weaken; [apply add_escape_chars_inv | | auto].
        intros m ->. exact Hinv.
      * eapply hoare_weaken;
          [apply (hoare_ret tx_inv) | | intros a m [_ H]; exact H].
        intros m ->. exact Hinv.
    + intros _ e m H. unfold bind, modify, ret; simpl.
      eexists _, _. split; [reflexivity | exact H].
Qed.

Lemma ProcessDataByte_inv (byte : Z) :
  hoare tx_inv (Module_Mode_ProcessDataByte byte) (fun _ m => tx_inv m).
Proof.
  unfold Module_Mode_ProcessDataByte.
  apply hoare_ask_bind. intros e0. apply hoare_get_bind. intros m0 Hinv0.
  eapply hoare_bind with (Q := fun _ m => tx_inv m).
  { eapply hoare_weaken; [apply escape_check_inv | | auto].
    intros m ->. exact Hinv0. }
  intros [ | ].
  { eapply hoare_weaken;
      [apply (hoare_ret tx_inv) | auto | intros ? ? [_ H]; exact H]. }
  apply hoare_get_bind. intros m1 Hinv1.
  eapply hoare_bind with (Q := fun _ m => tx_inv m).
  { destruct (data_tx_len m1 <? DATA_TX_BUFFER_SIZE) eqn:Hlt.
    - apply Z.ltb_lt in Hlt.
      eapply hoare_weaken; [apply tx_append_inv | | auto].
      intros m ->. auto.
    - eapply hoare_bind.
      + eapply hoare_weaken; [apply FlushTxBuffer_inv | | intros ? ? H; exact H].
        intros m ->. exact Hinv1.
      + intros ?. eapply hoare_weaken; [apply tx_append_inv | | auto].
        intros m [H Hz]. split; [exact H | ].
        rewrite Hz. unfold DATA_TX_BUFFER_SIZE. lia. }
  intros ?. eapply hoare_bind with (Q := fun _ m => tx_inv m).
  { intros e m H. eexists _, _. split; [reflexivity | exact H]. }
  intros ?. apply hoare_get_bind. intros m2 Hinv2.
  destruct (_ || _).
  - eapply hoare_bind.
    + eapply hoare_weaken; [apply FlushTxBuffer_inv | | intros ? ? H; exact H].
      intros m ->. exact Hinv2.
    + intros ? e m [H _]. eexists _, _. split; [reflexivity | exact H].
  - intros e m ->. eexists _, _. split; [reflexivity | exact Hinv2].
Qed.

Lemma EnterData_inv (dev_idx char_handle : Z) :
  hoare tx_inv (Module_Mode_EnterData dev_idx char_handle)
    (fun _ m => tx_inv m).
Proof.
  intros e m [Hlen Hbuf]. unfold Module_Mode_EnterData, bind, ask.
  destruct (connected _); unfold bind, modify, ret, AT_Response_Send, emit;
    simpl; eexists _, _; (split; [reflexivity | ]).
  - unfold tx_inv, DATA_TX_BUFFER_SIZE in *. simpl. split; [lia | exact Hbuf].
  - split; assumption.
Qed.

Lemma Init_inv :
  hoare (fun m => length (data_tx_buffer m) = Z.to_nat DATA_TX_BUFFER_SIZE)
    Module_Mode_Init (fun _ m => tx_inv m).
Proof.
  intros e m Hbuf. unfold Module_Mode_Init, bind, modify. simpl.
  eexists _, _. split; [reflexivity | ].
  unfold tx_inv, DATA_TX_BUFFER_SIZE in *. simpl. split; [lia | exact Hbuf].
Qed.

Lemma IsEscapeDetected_inv :
  hoare tx_inv Module_Mode_IsEscapeDetected (fun _ m => tx_inv m).
Proof.
  intros e m Hinv. unfold Module_Mode_IsEscapeDetected, bind, ask, get.
  destruct (negb _); [destruct (_ <=? _) | ];
    unfold bind, modify, ret; simpl; eexists _, _;
    (split; [reflexivity | exact Hinv]).
Qed.

Lemma ProcessGATTData_inv (conn handle : Z) (data : list Z) (len : Z) :
  hoare tx_inv (Module_Mode_ProcessGATTData conn handle data len)
    (fun _ m => tx_inv m).
Proof.
  intros e m Hinv. unfold Module_Mode_ProcessGATTData, bind, ask, get.
  destruct (negb (mode_eqb _ _));
    [ | destruct (BLE_DeviceManager_GetDevice _ _);
        [destruct (negb (_ =? conn)); [ | destruct (negb (handle =? _))] | ] ];
    unfold emit, modify, ret; simpl; eexists _, _;
    (split; [reflexivity | exact Hinv]).
Qed.

(** ** Sequences of calls into the mode controller *)

Lemma do_call_inv (c : ModeCall) : hoare tx_inv (do_call c) (fun _ m => tx_inv m).
Proof.
  destruct c; simpl.
  - eapply hoare_weaken; [apply Init_inv | | auto]. intros m [_ H]. exact H.
  - eapply hoare_bind; [apply EnterCommand_inv | ].
    intros ? e m H. eexists _, _. split; [reflexivity | exact H].
  - eapply hoare_bind; [apply EnterData_inv | ].
    intros ? e m H. eexists _, _. split; [reflexivity | exact H].
  - apply ProcessDataByte_inv.
  - apply ProcessGATTData_inv.
  - eapply hoare_bind; [apply IsEscapeDetected_inv | ].
    intros ? e m H. eexists _, _. split; [reflexivity | exact H].
  - eapply hoare_bind; [apply FlushTxBuffer_inv | ].
    intros ? e m [H _]. eexists _, _. split; [reflexivity | exact H].
Qed.

(** With the buffer full the loop that adds the buffered escape
    characters stores nothing: its guard stops it. *)
Lemma add_escape_chars_full (n : nat) (i : Z) (e : Env) (m : Machine) :
  data_tx_len m = DATA_TX_BUFFER_SIZE ->
  add_escape_chars n i e m = Ok tt m.
Proof.
  intros Hfull. destruct n as [ | n]; [reflexivity | ].
  cbn [add_escape_chars]. unfold bind, get. rewrite Hfull.
  rewrite Z.ltb_irrefl, andb_false_r. reflexivity.
Qed.

(** With the buffer full the escape detection leaves the buffer, its
    length, the trace, the mode and the target alone, and unless the byte
    completes an escape sequence the function goes on to the store. *)
Lemma escape_check_full (byte current_time time_since_last : Z) (e : Env)
    (m : Machine) :
  data_tx_len m = DATA_TX_BUFFER_SIZE ->
  0 <= escape_count m ->
  (byte = ESCAPE_SEQ_CHAR -> escape_count m <> 2) ->
  exists m1,
    escape_check byte current_time time_since_last e m = Ok false m1
    /\ data_tx_len m1 = DATA_TX_BUFFER_SIZE
    /\ data_tx_buffer m1 = data_tx_buffer m
    /\ trace m1 = trace m
    /\ current_mode m1 = current_mode m
    /\ target_dev_idx m1 = target_dev_idx m
    /\ target_char_handle m1 = target_char_handle m.
Proof.
  intros Hfull Hec Hrun.
  unfold escape_check, bind, get.
  destruct (byte =? ESCAPE_SEQ_CHAR) eqn:Hb.
  - apply Z.eqb_eq in Hb. specialize (Hrun Hb).
    destruct (escape_count m =? 0) eqn:H0.
    { destruct (ESCAPE_GUARD_TIME_MS <=? time_since_last);
        eexists; (split; [reflexivity | ]); destruct m; simpl in *; auto 7. }
    apply Z.eqb_neq in H0.
    destruct (escape_count m <? ESCAPE_SEQ_LENGTH) eqn:H3.
    + apply Z.ltb_lt in H3. unfold ESCAPE_SEQ_LENGTH in *.
      assert (H1 : escape_count m = 1) by lia.
      unfold modify. cbv beta iota. rewrite H1.
      eexists. split; [reflexivity | ]. destruct m; simpl in *; auto 7.
    + eexists. split; [reflexivity | ]. auto 7.
  - destruct ((0 <? escape_count m) && (escape_count m <? ESCAPE_SEQ_LENGTH)).
    + rewrite add_escape_chars_full by exact Hfull.
      eexists. split; [reflexivity | ]. destruct m; simpl in *; auto 7.
    + eexists. split; [reflexivity | ]. destruct m; simpl in *; auto 7.
Qed.

(** A flush in Data mode towards a connected target hands the buffered
    bytes to the characteristic in one write and empties the buffer,
    whatever the write answers. *)
Lemma FlushTxBuffer_writes (e : Env) (m : Machine) (d : BLE_Device_t) :
  current_mode m = MODE_DATA ->
  connected (BLE_DeviceManager_GetDevice e (target_dev_idx m)) = Some d ->
  data_tx_len m <> 0 ->
  exists r,
    Module_Mode_FlushTxBuffer e m
    = Ok r
        (says (set_data_tx_len 0 m)
           [GATT_Write (conn_handle d) (target_char_handle m)
              (take (Z.to_nat (data_tx_len m)) (data_tx_buffer m))]).
Proof.
  destruct m as [md ti th buf len ec lt est ed tr].
  intros Hmode Hd Hlen. cbn [current_mode target_dev_idx data_tx_len] in *.
  subst md. munfold. cbn [data_tx_len current_mode target_dev_idx mode_eqb negb].
  replace (len =? 0) with false by (symmetry; apply Z.eqb_neq; exact Hlen).
  rewrite Hd. cbn [data_tx_len data_tx_buffer target_char_handle].
  destruct (BLE_GATT_WriteCharacteristic e (conn_handle d) th
              (take (Z.to_nat len) buf) =? 0);
    eexists; reflexivity.
Qed.

(** The store after the buffer-full flush: with 512 bytes buffered, a
    byte that does not complete an escape sequence is stored only after
    the flush has emptied the buffer, at index 0; the automatic flush that
    follows sends it at once when the byte came more than 10 ms after the
    one before.  In Data mode towards a connected target the flush hands
    all 512 buffered bytes to the characteristic first. *)
Lemma ProcessDataByte_full_buffer (byte : Z) (e : Env) (m : Machine) :
  tx_inv m ->
  data_tx_len m = DATA_TX_BUFFER_SIZE ->
  0 <= escape_count m ->
  (byte = ESCAPE_SEQ_CHAR -> escape_count m <> 2) ->
  let late := 10 <? wrap32 (HAL_GetTick e - last_char_time m) in
  exists m',
    Module_Mode_ProcessDataByte byte e m = Ok tt m'
    /\ data_tx_buffer m' = <[0%nat := byte]> (data_tx_buffer m)
    /\ data_tx_len m' = (if late then 0 else 1)
    /\ (forall d,
          current_mode m = MODE_DATA ->
          connected (BLE_DeviceManager_GetDevice e (target_dev_idx m))
          = Some d ->
          trace m'
          = (trace m
             ++ GATT_Write (conn_handle d) (target_char_handle m)
                  (data_tx_buffer m)
             :: (if late
                 then [GATT_Write (conn_handle d) (target_char_handle m)
                         [byte]]
                 else []))%list).
Proof.
  intros [_ Hbuf] Hfull Hec Hrun late.
  destruct (escape_check_full byte (HAL_GetTick e)
              (wrap32 (HAL_GetTick e - last_char_time m)) e m Hfull Hec Hrun)
    as (m1 & Hesc & Hfull1 & Hbuf1 & Htr1 & Hmd1 & Hti1 & Hth1).
  destruct (FlushTxBuffer_returns e m1) as (r & mf & Hflush & Hlenf & Hbuff).
  unfold Mode.Module_Mode_ProcessDataByte, bind, ask, get.
  rewrite Hesc. cbv beta iota. rewrite Hfull1, Z.ltb_irrefl, Hflush.
  unfold tx_append, bind, get, modify. rewrite Hlenf.
  change ((0 <=? 0) && (0 <? DATA_TX_BUFFER_SIZE)) with true. cbv beta iota.
  cbn [data_tx_len set_last_char_time set_data_tx_len set_data_tx_buffer].
  change (wrap16 (0 + 1)) with 1.
  change ((DATA_TX_BUFFER_SIZE - 20 <=? 1)
          || (10 <? wrap32 (HAL_GetTick e - last_char_time m))) with late.
  change (Z.to_nat 0) with 0%nat. rewrite Hbuff, Hbuf1.
  set (m3 := set_last_char_time (HAL_GetTick e)
               (set_data_tx_len 1
                  (set_data_tx_buffer (<[0%nat := byte]> (data_tx_buffer m))
                     mf))).
  assert (Hfirst : forall d,
            current_mode m = MODE_DATA ->
            connected (BLE_DeviceManager_GetDevice e (target_dev_idx m))
            = Some d ->
            mf = says (set_data_tx_len 0 m1)
                   [GATT_Write (conn_handle d) (target_char_handle m)
                      (data_tx_buffer m)]).
  { intros d Hmode Hd.
    destruct (FlushTxBuffer_writes e m1 d) as [r' Hw].
    - rewrite Hmd1. exact Hmode.
    - rewrite Hti1. exact Hd.
    - rewrite Hfull1. discriminate.
    - rewrite Hflush in Hw. injection Hw as _ ->.
      rewrite Hfull1, Hbuf1, Hth1, take_ge by (rewrite Hbuf; reflexivity).
      reflexivity. }
  destruct late.
  - destruct (FlushTxBuffer_returns e m3) as (r2 & mf2 & Hflush2 & Hlen2 & Hbuf2).
    rewrite Hflush2. exists mf2. split; [reflexivity | ].
    split; [exact Hbuf2 | ]. split; [exact Hlen2 | ].
    intros d Hmode Hd. pose proof (Hfirst d Hmode Hd) as Hmf.
    destruct (FlushTxBuffer_writes e m3 d) as [r' Hw].
    + unfold m3. rewrite Hmf. cbn. rewrite Hmd1. exact Hmode.
    + unfold m3. rewrite Hmf. cbn. rewrite Hti1. exact Hd.
    + discriminate.
    + rewrite Hflush2 in Hw. injection Hw as _ ->.
      unfold m3. rewrite Hmf. cbn [says trace set_trace set_data_tx_len
        set_last_char_time set_data_tx_buffer target_char_handle data_tx_len
        data_tx_buffer].
      rewrite Htr1, Hth1, <- app_assoc.
      destruct (data_tx_buffer m) as [ | b0 buf]; [discriminate Hbuf | ].
      reflexivity.
  - exists m3. split; [reflexivity | ]. split; [reflexivity | ].
    split; [reflexivity | ].
    intros d Hmode Hd. unfold m3. rewrite (Hfirst d Hmode Hd).
    cbn. rewrite Htr1. reflexivity.
Qed.

(** C8. Whatever calls are made into the mode controller
    ([Module_Mode_ProcessDataByte], [Module_Mode_FlushTxBuffer] and the
    other entry points), in any order and whatever the collaborators
    answer, every call returns without a store outside [data_tx_buffer],
    and [data_tx_len] stays within 0..[DATA_TX_BUFFER_SIZE] (512); from
    every state so reached a flush returns and resets the length to zero.
    When the buffer is full (512 bytes waiting), a byte that does not
    complete an escape sequence is stored only after the flush: it lands
    at index 0 and the length is 1 afterwards, or 0 when the automatic
    flush sends it at once; in Data mode towards a connected target the
    512 buffered bytes are handed to the characteristic before that. *)
Theorem data_tx_len_bounded (cs : list (Env * ModeCall)) (m0 : Machine) :
  tx_inv m0 ->
  exists m, run_calls cs m0 = Ok tt m
    /\ 0 <= data_tx_len m <= DATA_TX_BUFFER_SIZE
    /\ length (data_tx_buffer m) = Z.to_nat DATA_TX_BUFFER_SIZE
    /\ (forall e, exists r m',
          Mode.Module_Mode_FlushTxBuffer e m = Ok r m' /\ data_tx_len m' = 0)
    /\ (forall e byte,
          data_tx_len m = DATA_TX_BUFFER_SIZE ->
          0 <= escape_count m ->
          (byte = ESCAPE_SEQ_CHAR -> escape_count m <> 2) ->
          let late := 10 <? wrap32 (HAL_GetTick e - last_char_time m) in
          exists m',
            Mode.Module_Mode_ProcessDataByte byte e m = Ok tt m'
            /\ data_tx_buffer m' = <[0%nat := byte]> (data_tx_buffer m)
            /\ data_tx_len m' = (if late then 0 else 1)
            /\ (forall d,
                  current_mode m = MODE_DATA ->
                  connected
                    (BLE_DeviceManager_GetDevice e (target_dev_idx m))
                  = Some d ->
                  trace m'
                  = (trace m
                     ++ GATT_Write (conn_handle d) (target_char_handle m)
                          (data_tx_buffer m)
                     :: (if late
                         then [GATT_Write (conn_handle d)
                                 (target_char_handle m) [byte]]
                         else []))%list)).
Proof.
  revert m0. induction cs as [ | [e c] cs IH]; intros m0 Hinv; simpl.
  - exists m0. pose proof Hinv as [Hlen Hbuf].
    split; [reflexivity | ]. split; [exact Hlen | ]. split; [exact Hbuf | ].
    split.
    + intros e.
      destruct (FlushTxBuffer_returns e m0) as (r & m' & Hrun & Hz & _).
      eauto.
    + intros e byte Hfull Hec Hesc.
      exact (ProcessDataByte_full_buffer byte e m0 Hinv Hfull Hec Hesc).
  - destruct (do_call_inv c e m0 Hinv) as ([] & m1 & Hrun & Hinv1).
    rewrite Hrun. apply IH. exact Hinv1.
Qed.

Lemma data_tx_len_bounded_witness :
  tx_inv power_on
  /\ (exists m,
        run_calls [(quiet_env 5, Call_ProcessDataByte 65);
                   (quiet_env 6, Call_FlushTxBuffer)] power_on = Ok tt m
        /\ 0 <= data_tx_len m <= DATA_TX_BUFFER_SIZE)
  /\ tx_inv full_buffer
  /\ (exists m',
        Mode.Module_Mode_ProcessDataByte 66 (one_device_env 5 0) full_buffer
        = Ok tt m'
        /\ data_tx_buffer m'
           = <[0%nat := 66]> (replicate (Z.to_nat DATA_TX_BUFFER_SIZE) 65)
        /\ data_tx_len m' = 1
        /\ trace m'
           = [GATT_Write 7 18 (replicate (Z.to_nat DATA_TX_BUFFER_SIZE) 65)]).
Proof.
  assert (H : tx_inv power_on).
  { unfold tx_inv, power_on, DATA_TX_BUFFER_SIZE. simpl.
    split; [lia | reflexivity]. }
  assert (Hf : tx_inv full_buffer).
  { unfold tx_inv, full_buffer, DATA_TX_BUFFER_SIZE. simpl.
    split; [lia | reflexivity]. }
  split; [exact H | ]. split; [ | split; [exact Hf | ]].
  - destruct (data_tx_len_bounded
                [(quiet_env 5, Call_ProcessDataByte 65);
                 (quiet_env 6, Call_FlushTxBuffer)] power_on H)
      as (m & Hrun & Hlen & _).
    exists m. split; [exact Hrun | exact Hlen].
  - destruct (data_tx_len_bounded [] full_buffer Hf)
      as (m & Hrun & _ & _ & _ & Hfull).
    injection Hrun as <-.
    destruct (Hfull (one_device_env 5 0) 66 eq_refl
                ltac:(simpl; lia) ltac:(discriminate))
      as (m' & Hrun' & Hbuf' & Hlen' & Htr').
    exists m'. split; [exact Hrun' | ]. split; [exact Hbuf' | ].
    split; [exact Hlen' | ].
    exact (Htr' some_device eq_refl eq_refl).
Defined.

(** ** Flush failure *)

(** C3 (as the code has it). [Module_Mode_FlushTxBuffer] always returns.
    When it fails (returns -1) there was data to send in Data mode and the
    transmit buffer is cleared.  If it failed because the target device is
    no longer connected, the mode goes back to Command and ["+CMDMODE\r\n"]
    is sent, nothing is written to the characteristic.  If it failed
    because the characteristic write returned an error, the mode stays Data
    and nothing is sent on the serial link. *)
Theorem FlushTxBuffer_failure (e : Env) (m : Machine) :
  exists r m',
    Module_Mode_FlushTxBuffer e m = Ok r m'
    /\ (r = -1 ->
        data_tx_len m' = 0
        /\ data_tx_len m <> 0
        /\ current_mode m = MODE_DATA
        /\ match connected (BLE_DeviceManager_GetDevice e (target_dev_idx m)) with
           | None =>
               current_mode m' = MODE_COMMAND
               /\ trace m' = (trace m ++ [UART_Tx ("+CMDMODE" ++ CRLF)])%list
           | Some d =>
               let data := take (Z.to_nat (data_tx_len m)) (data_tx_buffer m) in
               BLE_GATT_WriteCharacteristic e (conn_handle d)
                 (target_char_handle m) data <> 0
               /\ current_mode m' = MODE_DATA
               /\ trace m' =
                  (trace m
                     ++ [GATT_Write (conn_handle d) (target_char_handle m) data])%list
           end).
Proof.
  destruct m as [md ti th buf len ec lt est ed tr]. munfold. simpl.
  destruct (len =? 0) eqn:Hlen;
    [eexists _, _; split; [reflexivity | discriminate] | ].
  apply Z.eqb_neq in Hlen.
  destruct md; simpl;
    [eexists _, _; split; [reflexivity | discriminate] | ].
  destruct (connected _) as [d | ]; simpl.
  - destruct (BLE_GATT_WriteCharacteristic _ _ _ _ =? 0) eqn:Hw; simpl;
      eexists _, _; (split; [reflexivity | ]); [discriminate | ].
    intros _. apply Z.eqb_neq in Hw. simpl. auto 6.
  - eexists _, _. split; [reflexivity | ]. intros _. simpl. auto 6.
Qed.

Lemma FlushTxBuffer_failure_witness :
  Module_Mode_FlushTxBuffer (quiet_env 0) data_mode_one_byte
  = Ok (-1)
      (set_trace [UART_Tx ("+CMDMODE" ++ CRLF)]
         (set_target_char_handle 0 (set_target_dev_idx 255
            (set_current_mode MODE_COMMAND
               (set_data_tx_len 0 data_mode_one_byte)))))
  /\ exists r m',
       Module_Mode_FlushTxBuffer (quiet_env 0) data_mode_one_byte = Ok r m'
       /\ (r = -1 -> data_tx_len m' = 0).
Proof.
  split; [reflexivity | ].
  destruct (FlushTxBuffer_failure (quiet_env 0) data_mode_one_byte)
    as (r & m' & Hrun & H).
  exists r, m'. split; [exact Hrun | ].
  intros Hr. exact (proj1 (H Hr)).
Defined.

(** A write error leaves the controller in Data mode: the flush fails, the
    buffer is cleared, and no transition to Command mode takes place. *)
Lemma FlushTxBuffer_write_error_stays_in_data_mode :
  ~ (forall e m r m',
       Module_Mode_FlushTxBuffer e m = Ok r m' -> r = -1 ->
       data_tx_len m' = 0 /\ current_mode m' = MODE_COMMAND).
Proof.
  intros H.
  specialize (H (one_device_env 0 1) data_mode_one_byte (-1)
                (set_trace [GATT_Write 7 18 [65]]
                   (set_data_tx_len 0 data_mode_one_byte))
                eq_refl eq_refl).
  destruct H as [_ H]. discriminate H.
Qed.

(** ** Entering command mode twice *)

Lemma dispatch_CMDMODE : dispatch "AT+CMDMODE" = (let* _ := ask in call AT_CMDMODE_Handler).
Proof. reflexivity. Qed.

(** C9. In Command mode [Module_Mode_EnterCommand] returns 0 and changes
    nothing: no flush, no write to the mode state, no ["+CMDMODE"] line.
    So ["AT+CMDMODE"] received in Command mode (with or without its line
    terminator) answers ["OK\r\n"] and nothing else.  From any state, a
    second call right after a first one is such a no-op. *)
Theorem EnterCommand_idempotent (e e' : Env) (m : Machine) :
  (current_mode m = MODE_COMMAND ->
     Module_Mode_EnterCommand e m = Ok 0 m
     /\ AT_Command_Process (Some "AT+CMDMODE") e m
        = Ok tt (set_trace (trace m ++ [UART_Tx ("OK" ++ CRLF)]) m)
     /\ AT_Command_Process (Some ("AT+CMDMODE" ++ CRLF)) e m
        = Ok tt (set_trace (trace m ++ [UART_Tx ("OK" ++ CRLF)]) m))
  /\ exists m1,
       Module_Mode_EnterCommand e m = Ok 0 m1
       /\ Module_Mode_EnterCommand e' m1 = Ok 0 m1.
Proof.
  assert (Hcmd : forall m0, current_mode m0 = MODE_COMMAND ->
                   Module_Mode_EnterCommand e' m0 = Ok 0 m0
                   /\ Module_Mode_EnterCommand e m0 = Ok 0 m0).
  { intros [md ti th buf len ec lt est ed tr]. simpl. intros ->.
    split; reflexivity. }
  split.
  - intros Hm. destruct (Hcmd m Hm) as [_ Hrun]. split; [exact Hrun | ].
    assert (Hp : AT_Command_Process (Some "AT+CMDMODE") e m
                 = Ok tt (set_trace (trace m ++ [UART_Tx ("OK" ++ CRLF)]) m)).
    { change (AT_Command_Process (Some "AT+CMDMODE") e m)
        with (dispatch "AT+CMDMODE" e m).
      rewrite dispatch_CMDMODE.
      unfold call, AT_CMDMODE_Handler, bind, ask. rewrite Hrun. reflexivity. }
    split; [exact Hp | ].
    change (AT_Command_Process (Some ("AT+CMDMODE" ++ CRLF)) e m)
      with (dispatch "AT+CMDMODE" e m).
    change (dispatch "AT+CMDMODE" e m)
      with (AT_Command_Process (Some "AT+CMDMODE") e m).
    exact Hp.
  - destruct (EnterCommand_returns e m) as (m1 & Hrun & Hmode & _).
    exists m1. split; [exact Hrun | ]. apply (Hcmd m1 Hmode).
Qed.

Lemma EnterCommand_idempotent_witness :
  current_mode power_on = MODE_COMMAND
  /\ Module_Mode_EnterCommand (quiet_env 0) power_on = Ok 0 power_on
  /\ AT_Command_Process (Some "AT+CMDMODE") (quiet_env 0) power_on
     = Ok tt (set_trace [UART_Tx ("OK" ++ CRLF)] power_on).
Proof.
  split; [reflexivity | ].
  destruct (EnterCommand_idempotent (quiet_env 0) (quiet_env 0) power_on)
    as [H _].
  destruct (H eq_refl) as (H1 & H2 & _).
  split; [exact H1 | exact H2].
Defined.

(** ** The escape sequence followed by more input *)

(** C1 (what the code does). After a guard time of silence, ["+++"] and
    then ['x'] with no pause: only two of the three ['+'] reach the
    payload, the pending escape is still armed, and a poll one guard time
    after the ['x'] reports the escape (returns 1).  When the fourth byte
    is another ['+'], three of the four reach the payload and the poll
    reports the escape as well. *)
Theorem escape_not_abandoned :
  exists m,
    run_calls (plus_plus_plus_then 120) data_mode_idle = Ok tt m
    /\ payload m = [43; 43; 120]
    /\ escape_detected m = 1
    /\ (exists m', Module_Mode_IsEscapeDetected (one_device_env 2003 0) m
                   = Ok 1 m')
    /\ exists m2,
         run_calls (plus_plus_plus_then 43) data_mode_idle = Ok tt m2
         /\ payload m2 = [43; 43; 43]
         /\ exists m', Module_Mode_IsEscapeDetected (one_device_env 2003 0) m2
                       = Ok 1 m'.
Proof.
  eexists. split; [vm_compute; reflexivity | ].
  split; [vm_compute; reflexivity | ].
  split; [reflexivity | ].
  split; [eexists; vm_compute; reflexivity | ].
  eexists. split; [vm_compute; reflexivity | ].
  split; [vm_compute; reflexivity | ].
  eexists; vm_compute; reflexivity.
Qed.

(** ** The line receiver *)

Lemma printable_not_NUL c : printable c -> Ascii.eqb c NUL = false.
Proof.
  intros [H _]. apply Ascii.eqb_neq. intros ->.
  unfold ASCII_SPACE in H. vm_compute in H. apply H. reflexivity.
Qed.

Lemma char_of_byte_printable byte :
  ASCII_SPACE <= byte <= ASCII_TILDE -> printable (char_of_byte byte).
Proof.
  unfold printable, char_of_byte, code, wrap8, ASCII_SPACE, ASCII_TILDE.
  intros H. rewrite Z.mod_small by lia.
  rewrite N_ascii_embedding by lia. rewrite Z2N.id by lia. exact H.
Qed.

Lemma line_ok_empty buf idx : line_ok buf idx -> line_ok buf 0.
Proof.
  intros (Hlen & Hidx & _). unfold line_ok, AT_CMD_MAX_LEN in *.
  repeat split; try assumption; try lia; intros j Hj; simpl in Hj; lia.
Qed.

Lemma line_ok_store buf idx c :
  line_ok buf idx -> idx < AT_CMD_MAX_LEN - 1 -> printable c ->
  line_ok (<[Z.to_nat idx := c]> buf) (wrap16 (idx + 1)).
Proof.
  intros (Hlen & Hidx & Hpre) Hlt Hc.
  unfold line_ok, AT_CMD_MAX_LEN, wrap16 in *.
  rewrite Z.mod_small by lia. rewrite length_insert.
  repeat split; try assumption; try lia.
  intros j Hj. destruct (decide (j = Z.to_nat idx)) as [-> | Hne].
  - exists c. split; [ | exact Hc]. apply list_lookup_insert_eq. lia.
  - rewrite list_lookup_insert_ne by congruence. apply Hpre. lia.
Qed.

Lemma line_ok_terminate buf idx :
  line_ok buf idx ->
  line_ok (<[Z.to_nat idx := NUL]> buf) idx
  /\ <[Z.to_nat idx := NUL]> buf !! Z.to_nat idx = Some NUL.
Proof.
  intros (Hlen & Hidx & Hpre). unfold line_ok, AT_CMD_MAX_LEN in *.
  rewrite length_insert. repeat split; try assumption; try lia.
  - intros j Hj. rewrite list_lookup_insert_ne by lia. apply Hpre. exact Hj.
  - apply list_lookup_insert_eq. lia.
Qed.

(** The C string in a buffer whose first [n] cells are printable and whose
    cell [n] is NUL has length [n]. *)
Lemma cstring_of_length (buf : list ascii) (n : nat) :
  (forall j : nat, (j < n)%nat -> exists c, buf !! j = Some c /\ printable c) ->
  buf !! n = Some NUL ->
  String.length (cstring_of buf) = n
  /\ forall j : nat, (j < n)%nat ->
       buf !! j = Some (char_at (cstring_of buf) j).
Proof.
  revert buf. induction n as [ | n IH]; intros [ | c buf] Hpre Hnul;
    try discriminate.
  - simpl in Hnul. injection Hnul as ->. simpl. split; [reflexivity | lia].
  - simpl in Hnul. destruct (Hpre 0%nat ltac:(lia)) as (c0 & Hc0 & Hp).
    simpl in Hc0. injection Hc0 as ->.
    simpl. rewrite (printable_not_NUL _ Hp). simpl.
    destruct (IH buf) as [Hl Hch].
    + intros j Hj. apply (Hpre (S j)). lia.
    + exact Hnul.
    + split; [rewrite Hl; reflexivity | ].
      intros [ | j] Hj; [reflexivity | ]. simpl. unfold char_at in *. simpl.
      apply Hch. lia.
Qed.

Lemma Init_rx_inv : rx_inv AT_Command_Init.
Proof.
  unfold rx_inv, line_ok, AT_Command_Init, AT_CMD_MAX_LEN. simpl.
  repeat split; lia.
Qed.

Lemma timeout_check_rx_inv (s : ATState) :
  at_cmd_ready s = 0 -> rx_inv s ->
  rx_inv (timeout_check s) /\ at_cmd_ready (timeout_check s) = 0.
Proof.
  destruct s as [buf idx rdy g cb tick]. unfold rx_inv, timeout_check; simpl.
  intros -> [Hline _]. destruct (_ && _); simpl.
  - split; [split; [eapply line_ok_empty; eassumption | lia] | reflexivity].
  - split; [split; [assumption | lia] | reflexivity].
Qed.

Lemma line_step_rx_inv (byte : Z) (s : ATState) :
  at_cmd_ready s = 0 -> rx_inv s -> rx_inv (line_step byte s).1.
Proof.
  destruct s as [buf idx rdy g cb tick]. unfold rx_inv, line_step; simpl.
  intros -> [Hline _].
  destruct ((byte =? ASCII_CR) || (byte =? ASCII_LF)); simpl.
  - destruct (2 <=? idx) eqn:H2; simpl.
    + apply Z.leb_le in H2. destruct (line_ok_terminate _ _ Hline) as [H1 Hn].
      split; [exact H1 | ]. intros _. split; assumption.
    + split; [eapply line_ok_empty; eassumption | lia].
  - destruct ((ASCII_SPACE <=? byte) && (byte <=? ASCII_TILDE)) eqn:Hp; simpl.
    + destruct (idx <? AT_CMD_MAX_LEN - 1) eqn:Hlt; simpl.
      * apply Z.ltb_lt in Hlt.
        apply andb_true_iff in Hp as [Hp1 Hp2].
        apply Z.leb_le in Hp1, Hp2.
        split; [ | lia].
        apply line_ok_store; [assumption | assumption | ].
        apply char_of_byte_printable. lia.
      * split; [assumption | lia].
    + destruct (AT_MAX_GARBAGE <? wrap16 (g + 1)); simpl.
      * split; [eapply line_ok_empty; eassumption | lia].
      * split; [assumption | lia].
Qed.

Lemma ReceiveByte_rx_inv (byte : Z) (s : ATState) :
  rx_inv s -> rx_inv (AT_Command_ReceiveByte byte s).1.
Proof.
  intros Hinv. unfold AT_Command_ReceiveByte.
  assert (Htick : rx_inv (set_at_rx_tick (wrap32 (at_rx_tick s + 1)) s)).
  { destruct s. exact Hinv. }
  change (at_cmd_ready (set_at_rx_tick (wrap32 (at_rx_tick s + 1)) s))
    with (at_cmd_ready s).
  destruct (at_cmd_ready s =? 0) eqn:Hr; simpl; [ | exact Htick].
  apply Z.eqb_eq in Hr.
  destruct (timeout_check_rx_inv
              (set_at_rx_tick (wrap32 (at_rx_tick s + 1)) s) Hr Htick)
    as [H1 H2].
  apply line_step_rx_inv; assumption.
Qed.

Lemma drain_rx_inv (s : ATState) : rx_inv s -> rx_inv (drain s).
Proof.
  destruct s as [buf idx rdy g cb tick]. unfold rx_inv, drain; simpl.
  intros [Hline _]. split; [eapply line_ok_empty; eassumption | ].
  intros H. exfalso. apply H. reflexivity.
Qed.

(** Only the cells up to the terminator matter for the C string. *)
Lemma cstring_of_take (buf rest : list ascii) (n : nat) :
  (forall j : nat, (j < n)%nat -> exists c, buf !! j = Some c /\ printable c) ->
  buf !! n = Some NUL ->
  cstring_of (take (S n) buf ++ rest)%list = cstring_of buf.
Proof.
  revert buf. induction n as [ | n IH]; intros [ | c buf] Hpre Hnul;
    try discriminate.
  - simpl in Hnul. injection Hnul as ->. reflexivity.
  - destruct (Hpre 0%nat ltac:(lia)) as (c0 & Hc0 & Hp).
    simpl in Hc0. injection Hc0 as ->.
    change (take (S (S n)) (c0 :: buf) ++ rest)%list
      with (c0 :: (take (S n) buf ++ rest)%list).
    simpl cstring_of. rewrite (printable_not_NUL _ Hp). f_equal.
    apply IH; [ | exact Hnul]. intros j Hj. apply (Hpre (S j)). lia.
Qed.

Lemma ProcessReady_state (s s' : ATState) (e : Env) (m m' : Machine) :
  Dispatch.AT_Command_ProcessReady s e m = Ok s' m' -> s' = task_drain s.
Proof.
  unfold Dispatch.AT_Command_ProcessReady, task_drain.
  destruct (at_cmd_ready s =? 0).
  - unfold ret. congruence.
  - unfold bind, ret. destruct (Dispatch.AT_Command_Process _ e m); congruence.
Qed.

Lemma rx_run_inv (ins : list RxInput) (s : ATState) :
  rx_inv s -> rx_inv (rx_run ins s).
Proof.
  unfold rx_run. revert s. induction ins as [ | i ins IH]; intros s Hinv;
    simpl; [exact Hinv | ].
  apply IH. destruct i as [byte | ]; simpl.
  - apply ReceiveByte_rx_inv. exact Hinv.
  - unfold task_drain. destruct (at_cmd_ready s =? 0);
      [exact Hinv | apply drain_rx_inv; exact Hinv].
Qed.

Lemma ReceiveByte_while_ready (byte : Z) (s : ATState) :
  at_cmd_ready s <> 0 ->
  AT_Command_ReceiveByte byte s
  = (set_at_rx_tick (wrap32 (at_rx_tick s + 1)) s, false).
Proof.
  intros Hr. unfold AT_Command_ReceiveByte.
  change (at_cmd_ready (set_at_rx_tick (wrap32 (at_rx_tick s + 1)) s))
    with (at_cmd_ready s).
  apply Z.eqb_neq in Hr. rewrite Hr. reflexivity.
Qed.

Lemma ReceiveByte_raised (byte : Z) (s : ATState) :
  (AT_Command_ReceiveByte byte s).2 = true ->
  at_cmd_ready s = 0 /\ at_cmd_ready (AT_Command_ReceiveByte byte s).1 = 1.
Proof.
  unfold AT_Command_ReceiveByte.
  change (at_cmd_ready (set_at_rx_tick (wrap32 (at_rx_tick s + 1)) s))
    with (at_cmd_ready s).
  destruct (at_cmd_ready s =? 0) eqn:Hr; simpl; [ | discriminate].
  apply Z.eqb_eq in Hr. unfold line_step.
  destruct (_ || _); [destruct (2 <=? _) | ]; simpl.
  - auto.
  - discriminate.
  - destruct (_ && _); [destruct (_ <? _) | destruct (_ <? _)]; simpl;
      discriminate.
Qed.

Lemma feed_raises (bytes : list Z) (s : ATState) :
  ((feed bytes s).2 <= if (at_cmd_ready s =? 0)%Z then 1 else 0)%nat.
Proof.
  revert s. induction bytes as [ | byte bytes IH]; intros s; simpl.
  - destruct (_ =? _); lia.
  - destruct (AT_Command_ReceiveByte byte s) as [s1 raised] eqn:Hstep.
    specialize (IH s1). destruct (feed bytes s1) as [s2 n]. simpl in *.
    destruct raised.
    + destruct (ReceiveByte_raised byte s) as [H0 H1];
        [rewrite Hstep; reflexivity | ].
      rewrite Hstep in H1. simpl in H1. rewrite H1 in IH. rewrite H0.
      simpl in *. lia.
    + destruct (at_cmd_ready s =? 0) eqn:Hr.
      * destruct (at_cmd_ready s1 =? 0); lia.
      * apply Z.eqb_neq in Hr.
        rewrite (ReceiveByte_while_ready _ _ Hr) in Hstep.
        injection Hstep as <-. simpl in IH.
        apply Z.eqb_neq in Hr. rewrite Hr in IH. lia.
Qed.

(** C4. After [AT_Command_Init], whatever bytes the interrupt handler
    receives and whenever the processing task runs in between: if the
    ready flag is set, the line buffer holds a line of at least two
    printable characters followed by its NUL terminator inside the array,
    and that same line is what the task's copy holds once it has drained
    it; and however many more bytes arrive before the task runs, at most
    one call raises the flag, none while it is already set. *)
Theorem ready_line_wellformed (ins : list RxInput) :
  let s := rx_run ins AT_Command_Init in
  (at_cmd_ready s <> 0 ->
     let line := cstring_of (at_line_buf s) in
     (2 <= String.length line)%nat
     /\ (String.length line < Z.to_nat AT_CMD_MAX_LEN)%nat
     /\ at_line_buf s !! String.length line = Some NUL
     /\ (forall j, (j < String.length line)%nat -> printable (char_at line j))
     /\ cstring_of (at_cmd_buf (task_drain s)) = line
     /\ at_cmd_ready (task_drain s) = 0)
  /\ (forall bytes, ((feed bytes s).2 <= 1)%nat)
  /\ (at_cmd_ready s <> 0 -> forall bytes, (feed bytes s).2 = 0%nat).
Proof.
  intros s.
  assert (Hinv : rx_inv s) by (apply rx_run_inv, Init_rx_inv).
  split; [ | split].
  - intros Hr. destruct Hinv as [(Hlen & Hidx & Hpre) Hrdy].
    destruct (Hrdy Hr) as [H2 Hnul].
    destruct (cstring_of_length _ _ Hpre Hnul) as [Hl Hch].
    simpl. rewrite Hl. unfold AT_CMD_MAX_LEN in *.
    split; [lia | ]. split; [lia | ]. split; [exact Hnul | ].
    split; [ | split].
    + intros j Hj. destruct (Hpre j Hj) as (c & Hc & Hp).
      rewrite (Hch j Hj) in Hc. injection Hc as <-. exact Hp.
    + unfold task_drain. apply Z.eqb_neq in Hr. rewrite Hr.
      unfold drain. simpl.
      replace (Z.to_nat (at_line_idx s + 1)) with (S (Z.to_nat (at_line_idx s)))
        by lia.
      apply cstring_of_take; assumption.
    + unfold task_drain. apply Z.eqb_neq in Hr. rewrite Hr. reflexivity.
  - intros bytes. pose proof (feed_raises bytes s) as H.
    destruct (at_cmd_ready s =? 0); lia.
  - intros Hr bytes. pose proof (feed_raises bytes s) as H.
    apply Z.eqb_neq in Hr. rewrite Hr in H. lia.
Qed.

Lemma ready_line_wellformed_witness :
  at_cmd_ready (rx_run [Rx 65; Rx 84; Rx 13] AT_Command_Init) <> 0
  /\ cstring_of (at_cmd_buf
                   (task_drain (rx_run [Rx 65; Rx 84; Rx 13] AT_Command_Init)))
     = cstring_of (at_line_buf (rx_run [Rx 65; Rx 84; Rx 13] AT_Command_Init)).
Proof.
  assert (H : at_cmd_ready (rx_run [Rx 65; Rx 84; Rx 13] AT_Command_Init) <> 0).
  { vm_compute. discriminate. }
  split; [exact H | ].
  destruct (ready_line_wellformed [Rx 65; Rx 84; Rx 13]) as [Hw _].
  exact (proj1 (proj2 (proj2 (proj2 (proj2 (Hw H)))))).
Defined.

Example ready_line_AT :
  cstring_of (at_line_buf (rx_run [Rx 65; Rx 84; Rx 13] AT_Command_Init)) = "AT".
Proof. reflexivity. Qed.

(** C5. While the ready flag is set, a call of [AT_Command_ReceiveByte]
    leaves the line buffer, the fill index and the ready flag as they are
    and raises nothing, whatever the byte; so does any run of such
    calls. *)
Theorem ReceiveByte_drops_while_ready (s : ATState) :
  at_cmd_ready s <> 0 ->
  (forall byte,
     let s' := (AT_Command_ReceiveByte byte s).1 in
     at_line_buf s' = at_line_buf s
     /\ at_line_idx s' = at_line_idx s
     /\ at_cmd_ready s' = at_cmd_ready s
     /\ at_cmd_buf s' = at_cmd_buf s
     /\ (AT_Command_ReceiveByte byte s).2 = false)
  /\ (forall bytes,
        let s' := (feed bytes s).1 in
        at_line_buf s' = at_line_buf s
        /\ at_line_idx s' = at_line_idx s
        /\ at_cmd_ready s' = at_cmd_ready s).
Proof.
  intros Hr. split.
  - intros byte. rewrite (ReceiveByte_while_ready _ _ Hr).
    destruct s. simpl. auto.
  - intros bytes. revert s Hr. induction bytes as [ | byte bytes IH];
      intros s Hr; simpl; [auto | ].
    rewrite (ReceiveByte_while_ready _ _ Hr).
    specialize (IH (set_at_rx_tick (wrap32 (at_rx_tick s + 1)) s)).
    destruct (feed bytes _) as [s2 n]. simpl in *.
    destruct s; simpl in *. apply IH. exact Hr.
Qed.

Lemma ReceiveByte_drops_while_ready_witness :
  at_cmd_ready line_AT_ready <> 0
  /\ at_line_buf (AT_Command_ReceiveByte 66 line_AT_ready).1
     = at_line_buf line_AT_ready.
Proof.
  assert (H : at_cmd_ready line_AT_ready <> 0).
  { vm_compute. discriminate. }
  split; [exact H | ].
  exact (proj1 (proj1 (ReceiveByte_drops_while_ready line_AT_ready H) 66)).
Defined.

(** ** Hex digits *)

Lemma hex_value_range c : 0 <= hex_value c < 16.
Proof.
  unfold hex_value.
  destruct ((48 <=? code c) && (code c <=? 57)) eqn:H1;
    [apply andb_true_iff in H1 as [?%Z.leb_le ?%Z.leb_le]; lia | ].
  destruct ((65 <=? code c) && (code c <=? 70)) eqn:H2;
    [apply andb_true_iff in H2 as [?%Z.leb_le ?%Z.leb_le]; lia | ].
  destruct ((97 <=? code c) && (code c <=? 102)) eqn:H3;
    [apply andb_true_iff in H3 as [?%Z.leb_le ?%Z.leb_le]; lia | lia].
Qed.

Lemma mac_nibble_spec c :
  mac_nibble c = if is_hex c then Some (hex_value c) else None.
Proof.
  unfold mac_nibble, is_hex, hex_value, wrap8.
  destruct ((48 <=? code c) && (code c <=? 57)) eqn:H1; simpl.
  { apply andb_true_iff in H1 as [?%Z.leb_le ?%Z.leb_le].
    rewrite Z.mod_small by lia. reflexivity. }
  destruct ((65 <=? code c) && (code c <=? 70)) eqn:H2; simpl.
  { apply andb_true_iff in H2 as [?%Z.leb_le ?%Z.leb_le].
    rewrite Z.mod_small by lia. f_equal. lia. }
  destruct ((97 <=? code c) && (code c <=? 102)) eqn:H3; simpl.
  { apply andb_true_iff in H3 as [?%Z.leb_le ?%Z.leb_le].
    rewrite Z.mod_small by lia. f_equal. lia. }
  reflexivity.
Qed.

Lemma ParseHexNibble_spec c :
  ParseHexNibble c = if is_hex c then hex_value c else 255.
Proof.
  unfold ParseHexNibble, is_hex, hex_value, wrap8.
  destruct ((48 <=? code c) && (code c <=? 57)) eqn:H1; simpl.
  { apply andb_true_iff in H1 as [?%Z.leb_le ?%Z.leb_le].
    rewrite Z.mod_small by lia. reflexivity. }
  destruct ((65 <=? code c) && (code c <=? 70)) eqn:H2; simpl.
  { apply andb_true_iff in H2 as [?%Z.leb_le ?%Z.leb_le].
    rewrite Z.mod_small by lia. lia. }
  destruct ((97 <=? code c) && (code c <=? 102)) eqn:H3; simpl.
  { apply andb_true_iff in H3 as [?%Z.leb_le ?%Z.leb_le].
    rewrite Z.mod_small by lia. lia. }
  reflexivity.
Qed.

Lemma nibbles_complete h : 0 <= h < 16 -> In h nibbles.
Proof.
  intros H. unfold nibbles. apply in_map_iff. exists (Z.to_nat h).
  split; [lia | ]. apply in_seq. lia.
Qed.

(** [(hi << 4) | lo], stored in a [uint8_t], is [16 * hi + lo]. *)
Lemma lor_nibbles h l :
  0 <= h < 16 -> 0 <= l < 16 -> wrap8 (Z.lor (Z.shiftl h 4) l) = 16 * h + l.
Proof.
  intros Hh Hl.
  assert (Hall : forallb (fun h => forallb (fun l =>
            wrap8 (Z.lor (Z.shiftl h 4) l) =? 16 * h + l) nibbles) nibbles
          = true) by (vm_compute; reflexivity).
  rewrite forallb_forall in Hall.
  specialize (Hall h (nibbles_complete h Hh)).
  rewrite forallb_forall in Hall.
  apply Z.eqb_eq. apply Hall. apply nibbles_complete. exact Hl.
Qed.

Lemma char_at_end (s : string) : char_at s (String.length s) = NUL.
Proof.
  unfold char_at. induction s as [ | c s IH]; simpl; [reflexivity | exact IH].
Qed.

(** ** MAC addresses *)

Lemma mac_nibble_ok c : is_hex c = true -> mac_nibble c = Some (hex_value c).
Proof. intros H. rewrite mac_nibble_spec, H. reflexivity. Qed.

Lemma mac_nibble_bad c : is_hex c = false -> mac_nibble c = None.
Proof. intros H. rewrite mac_nibble_spec, H. reflexivity. Qed.

(** Rewrite the tests the loop makes on the characters of [s], using what
    is known about the positions before and at the first deviation. *)
Ltac mac_walk s Hpre Hbad :=
  repeat match goal with
  | |- context [mac_nibble (char_at s ?p)] =>
      first
        [ rewrite (mac_nibble_ok (char_at s p)) by (apply (Hpre p); lia)
        | rewrite (mac_nibble_bad (char_at s p)) by exact Hbad ];
      cbn [negb andb Nat.ltb Nat.leb]
  | |- context [Ascii.eqb (char_at s ?p) ":"%char] =>
      first
        [ rewrite (Hpre p ltac:(lia) : Ascii.eqb (char_at s p) ":"%char = true)
        | rewrite (Hbad : Ascii.eqb (char_at s p) ":"%char = false) ];
      cbn [negb andb Nat.ltb Nat.leb]
  end.

Lemma ParseMACString_accept (s : string) (o0 o1 o2 o3 o4 o5 : Z) :
  (forall k, (k < 17)%nat -> mac_pos_ok k (char_at s k) = true) ->
  ParseMACString (Some s) (Some [o0; o1; o2; o3; o4; o5])
  = (0, Some (map (octet s) (seq 0 6))).
Proof.
  intros Hpre. unfold ParseMACString.
  cbn [ParseMACString_loop Nat.mul Nat.add].
  assert (Hbad : False -> True) by auto.
  mac_walk s Hpre Hbad.
  rewrite !lor_nibbles by apply hex_value_range. reflexivity.
Qed.

Lemma ParseMACString_reject (s : string) (o0 o1 o2 o3 o4 o5 : Z) (k : nat) :
  (k < 17)%nat ->
  (forall j, (j < k)%nat -> mac_pos_ok j (char_at s j) = true) ->
  mac_pos_ok k (char_at s k) = false ->
  ParseMACString (Some s) (Some [o0; o1; o2; o3; o4; o5])
  = (-1, Some (map (octet s) (seq 0 ((k + 1) / 3)%nat)
               ++ drop ((k + 1) / 3)%nat [o0; o1; o2; o3; o4; o5])%list).
Proof.
  intros Hk Hpre Hbad. unfold ParseMACString.
  cbn [ParseMACString_loop Nat.mul Nat.add].
  do 17 (destruct k as [ | k];
         [mac_walk s Hpre Hbad;
          rewrite ?lor_nibbles by apply hex_value_range; reflexivity | ]).
  lia.
Qed.

(** Where a string leaves the form, if it does. *)
Lemma first_deviation (s : string) (n : nat) :
  (forall j, (j < n)%nat -> mac_pos_ok j (char_at s j) = true)
  \/ exists k, (k < n)%nat
       /\ (forall j, (j < k)%nat -> mac_pos_ok j (char_at s j) = true)
       /\ mac_pos_ok k (char_at s k) = false.
Proof.
  induction n as [ | n [IH | (k & Hk & Hpre & Hbad)]].
  - left. intros j Hj. lia.
  - destruct (mac_pos_ok n (char_at s n)) eqn:Hn.
    + left. intros j Hj. destruct (decide (j = n)) as [-> | Hne];
        [exact Hn | apply IH; lia].
    + right. exists n. split; [lia | ]. split; assumption.
  - right. exists k. split; [lia | ]. split; assumption.
Qed.

Lemma mac_formb_spec (s : string) :
  mac_formb s = true
  <-> forall k, (k < 17)%nat -> mac_pos_ok k (char_at s k) = true.
Proof.
  unfold mac_formb. rewrite forallb_forall. split.
  - intros H k Hk. apply H. apply in_seq. lia.
  - intros H k Hk. apply H. apply in_seq in Hk. lia.
Qed.

(** C6 (as the code has it). [ParseMACString] succeeds exactly on the
    strings whose first 17 characters are six 2-digit hex octets separated
    by colons, and then stores the six octets in order; such a string has
    at least 17 characters, and whatever follows the 17th is not looked at.
    On any other string it fails at the first position [k < 17] that leaves
    the form (wrong separator, non-hex digit, or the end of the string):
    the octets completed before [k] are stored, the rest of the array is
    untouched. *)
Theorem ParseMACString_prefix_form (s : string) (out : list Z) :
  length out = 6%nat ->
  ((ParseMACString (Some s) (Some out)).1 = 0 <-> mac_formb s = true)
  /\ (mac_formb s = true ->
      ParseMACString (Some s) (Some out) = (0, Some (map (octet s) (seq 0 6)))
      /\ (17 <= String.length s)%nat
      /\ forall t, ParseMACString (Some (s ++ t)) (Some out)
                   = ParseMACString (Some s) (Some out))
  /\ (forall k, (k < 17)%nat ->
        (forall j, (j < k)%nat -> mac_pos_ok j (char_at s j) = true) ->
        mac_pos_ok k (char_at s k) = false ->
        ParseMACString (Some s) (Some out)
        = (-1, Some (map (octet s) (seq 0 ((k + 1) / 3)%nat)
                     ++ drop ((k + 1) / 3)%nat out)%list)).
Proof.
  intros Hlen.
  destruct out as [ | o0 [ | o1 [ | o2 [ | o3 [ | o4 [ | o5 [ | ]]]]]]];
    try discriminate Hlen.
  split; [ | split].
  - split.
    + intros Hret. apply mac_formb_spec.
      destruct (first_deviation s 17) as [H | (k & Hk & Hpre & Hbad)];
        [exact H | ].
      rewrite (ParseMACString_reject s _ _ _ _ _ _ k Hk Hpre Hbad) in Hret.
      discriminate Hret.
    + intros H. rewrite ParseMACString_accept; [reflexivity | ].
      apply mac_formb_spec. exact H.
  - intros H. pose proof (proj1 (mac_formb_spec s) H) as Hform.
    assert (Hlong : (17 <= String.length s)%nat).
    { destruct (le_lt_dec 17 (String.length s)) as [Hle | Hlt]; [exact Hle | ].
      specialize (Hform _ Hlt). rewrite char_at_end in Hform.
      unfold mac_pos_ok in Hform. destruct (_ =? _)%nat; discriminate Hform. }
    split; [apply ParseMACString_accept; exact Hform | ].
    split; [exact Hlong | ].
    intros t. rewrite !ParseMACString_accept; [ | exact Hform | ].
    + f_equal. f_equal. unfold octet. 
      assert (Hc : forall k, (k < 17)%nat -> char_at (s ++ t) k = char_at s k).
      { intros k Hk. unfold char_at. rewrite <- append_correct1 by lia.
        reflexivity. }
      simpl. rewrite !Hc by lia. reflexivity.
    + intros k Hk. unfold char_at. rewrite <- append_correct1 by lia.
      apply Hform. exact Hk.
  - intros k Hk Hpre Hbad. apply ParseMACString_reject; assumption.
Qed.

Lemma ParseMACString_prefix_form_witness :
  length (replicate 6 0) = 6%nat
  /\ mac_formb "AA:bb:0C:1d:EE:F9" = true
  /\ ParseMACString (Some "AA:bb:0C:1d:EE:F9") (Some (replicate 6 0))
     = (0, Some [170; 187; 12; 29; 238; 249]).
Proof.
  split; [reflexivity | ]. split; [reflexivity | ].
  exact (proj1 (proj1 (proj2 (ParseMACString_prefix_form
                                "AA:bb:0C:1d:EE:F9" (replicate 6 0) eq_refl))
                  eq_refl)).
Defined.

(** Three characters too many after a well-formed address: accepted. *)
Lemma ParseMACString_accepts_trailing_characters :
  String.length "AA:BB:CC:DD:EE:FF:00" = 20%nat
  /\ ParseMACString (Some "AA:BB:CC:DD:EE:FF:00") (Some (replicate 6 0))
     = (0, Some [170; 187; 204; 221; 238; 255]).
Proof. split; reflexivity. Qed.

(** ** Hex payloads *)

Lemma half_length (n : nat) : Z.of_nat n / 2 = Z.of_nat (Nat.div2 n).
Proof.
  rewrite Nat.div2_div, Nat2Z.inj_div. reflexivity.
Qed.

Lemma even_mod2 (n : nat) : (Z.of_nat n mod 2 =? 0) = Nat.even n.
Proof.
  destruct (Nat.even n) eqn:He.
  - apply Nat.even_spec in He. destruct He as [k ->]. apply Z.eqb_eq.
    rewrite Nat2Z.inj_mul. change (Z.of_nat 2) with 2.
    rewrite Z.mul_comm. apply Z.mod_mul. lia.
  - apply Z.eqb_neq. intros H.
    assert (Ho : Nat.odd n = true) by (unfold Nat.odd; rewrite He; reflexivity).
    apply Nat.odd_spec in Ho. destruct Ho as [k ->].
    rewrite Nat2Z.inj_add, Nat2Z.inj_mul in H.
    change (Z.of_nat 2) with 2 in H. change (Z.of_nat 1) with 1 in H.
    rewrite Z.add_comm, Z.mul_comm, Z.mod_add in H by lia.
    discriminate H.
Qed.

Lemma ParseHexNibble_hex c :
  is_hex c = true -> ParseHexNibble c = hex_value c /\ (hex_value c =? 255) = false.
Proof.
  intros H. rewrite ParseHexNibble_spec, H. split; [reflexivity | ].
  pose proof (hex_value_range c). apply Z.eqb_neq. lia.
Qed.

(** The loop on a string of hex digit pairs that fits. *)
Lemma ParseHexString_loop_ok (s : string) :
  forall (out : list Z) (max_len i : Z),
    all_hex s = true -> Nat.even (String.length s) = true ->
    0 <= i -> i + Z.of_nat (Nat.div2 (String.length s)) <= max_len ->
    max_len <= 65535 -> (Z.to_nat max_len <= length out)%nat ->
    ParseHexString_loop s out max_len i
    = (i + Z.of_nat (Nat.div2 (String.length s)),
       (take (Z.to_nat i) out ++ hex_decode s
          ++ drop (Z.to_nat i + Nat.div2 (String.length s))%nat out)%list).
Proof.
  induction s as [ | c | c0 c1 s IH] using string_pair_ind;
    intros out max_len i Hhex Heven Hi Hfit Hmax Hout.
  - simpl. rewrite Z.add_0_r, Nat.add_0_r, take_drop. reflexivity.
  - discriminate Heven.
  - simpl in Hhex. apply andb_true_iff in Hhex as [Hc0 Hhex].
    apply andb_true_iff in Hhex as [Hc1 Hhex].
    destruct (ParseHexNibble_hex c0 Hc0) as [E0 N0].
    destruct (ParseHexNibble_hex c1 Hc1) as [E1 N1].
    cbn [ParseHexString_loop String.length Nat.div2 hex_decode].
    cbn [String.length Nat.div2] in Hfit.
    remember (Nat.div2 (String.length s)) as d eqn:Hd. clear Hd.
    assert (Hlt : (i <? max_len) = true) by (apply Z.ltb_lt; lia).
    rewrite Hlt, E0, E1, N0, N1. cbn [orb].
    rewrite lor_nibbles by apply hex_value_range.
    unfold wrap16. rewrite Z.mod_small by lia.
    rewrite IH; try assumption; try lia;
      [ | rewrite length_insert; exact Hout].
    f_equal; [lia | ].
    replace (Z.to_nat (i + 1)) with (S (Z.to_nat i)) by lia.
    rewrite (take_S_r _ _ (16 * hex_value c0 + hex_value c1))
      by (apply list_lookup_insert_eq; lia).
    rewrite take_insert_ge by lia.
    rewrite drop_insert_lt by lia.
    rewrite <- app_assoc. simpl.
    repeat f_equal. lia.
Qed.


Lemma byte_values_complete b : 0 <= b < 256 -> In b byte_values.
Proof.
  intros H. unfold byte_values. apply in_map_iff. exists (Z.to_nat b).
  split; [lia | ]. apply in_seq. lia.
Qed.

Lemma hex_value_digits b :
  0 <= b < 256 ->
  16 * hex_value (Fmt.hex_digit (b / 16)) + hex_value (Fmt.hex_digit b) = b.
Proof.
  intros Hb.
  assert (Hall : forallb (fun b =>
            16 * hex_value (Fmt.hex_digit (b / 16)) + hex_value (Fmt.hex_digit b)
            =? b) byte_values = true) by (vm_compute; reflexivity).
  rewrite forallb_forall in Hall. apply Z.eqb_eq, Hall, byte_values_complete, Hb.
Qed.

Lemma hex_digit_is_hex n : is_hex (Fmt.hex_digit n) = true.
Proof.
  unfold Fmt.hex_digit.
  assert (Hall : forallb (fun k =>
            is_hex (char_at "0123456789ABCDEF" (Z.to_nat k))) nibbles = true)
    by (vm_compute; reflexivity).
  rewrite forallb_forall in Hall. apply Hall, nibbles_complete.
  apply Z.mod_pos_bound. lia.
Qed.






Lemma hex_decode_length (s : string) :
  length (hex_decode s) = Nat.div2 (String.length s).
Proof.
  induction s as [ | c | c0 c1 s IH] using string_pair_ind;
    [reflexivity | reflexivity | ].
  cbn [hex_decode length String.length Nat.div2]. rewrite IH. reflexivity.
Qed.


(** [ParseHexString] on a string of hex digit pairs that fits [max_len]. *)
Lemma ParseHexString_ok (s : string) (out : list Z) (max_len : Z) :
  0 < max_len <= 65535 -> (Z.to_nat max_len <= length out)%nat ->
  all_hex s = true -> Nat.even (String.length s) = true ->
  Z.of_nat (String.length s) / 2 <= max_len ->
  ParseHexString (Some s) (Some out) max_len
  = (Z.of_nat (length (hex_decode s)),
     Some (hex_decode s ++ drop (length (hex_decode s)) out)%list).
Proof.
  intros Hmax Hout Hhex Heven Hfit. unfold ParseHexString.
  replace (max_len =? 0) with false by (symmetry; apply Z.eqb_neq; lia).
  rewrite even_mod2, Heven. cbn [negb].
  replace (max_len <? Z.of_nat (String.length s) / 2) with false
    by (symmetry; apply Z.ltb_ge; lia).
  rewrite half_length in Hfit.
  rewrite (ParseHexString_loop_ok s out max_len 0) by (assumption || lia).
  rewrite hex_decode_length. reflexivity.
Qed.




(** ** Characteristic handles that parse to zero *)

Lemma prefix_app (p s : string) :
  String.prefix p s = true -> s = p ++ str_drop (String.length p) s.
Proof.
  revert s. induction p as [ | c p IH]; intros s H; [reflexivity | ].
  destruct s as [ | d s]; [discriminate H | ]. simpl in H.
  destruct (ascii_dec c d) as [-> | Hne]; [ | discriminate H].
  simpl. f_equal. apply IH. exact H.
Qed.

Lemma dispatch_READ (rest : string) (e : Env) (m : Machine) :
  dispatch ("AT+READ=" ++ rest) e m
  = (let p := SkipToComma (Some rest) in
     if not_null p && negb (ParseUInt8 (Some rest) =? 255) then
       if 0 <? ParseUInt16 p
       then call (AT_READ_Handler (ParseUInt8 (Some rest)) (ParseUInt16 p))
       else AT_Response_Send ERROR_line
     else AT_Response_Send ERROR_line) e m.
Proof. destruct rest; reflexivity. Qed.

Lemma dispatch_WRITE (rest : string) (e : Env) (m : Machine) :
  dispatch ("AT+WRITE=" ++ rest) e m
  = (let p := SkipToComma (Some rest) in
     if not_null p && negb (ParseUInt8 (Some rest) =? 255) then
       let q := SkipToComma p in
       if not_null q && (0 <? ParseUInt16 p) && not_at_end q
       then call (AT_WRITE_Handler (ParseUInt8 (Some rest)) (ParseUInt16 p) q)
       else AT_Response_Send ERROR_line
     else AT_Response_Send ERROR_line) e m.
Proof. destruct rest; reflexivity. Qed.

Lemma dispatch_DATAMODE (rest : string) (e : Env) (m : Machine) :
  dispatch ("AT+DATAMODE=" ++ rest) e m
  = (let p := SkipToComma (Some rest) in
     if not_null p && negb (ParseUInt8 (Some rest) =? 255) then
       if 0 <? ParseUInt16 p
       then call (AT_DATAMODE_Handler (ParseUInt8 (Some rest)) (ParseUInt16 p))
       else AT_Response_Send ERROR_line
     else AT_Response_Send ERROR_line) e m.
Proof. destruct rest; reflexivity. Qed.

(** A line whose trimmed form starts with a command prefix of at least two
    characters beginning with ["AT"] reaches the dispatcher. *)
Lemma Process_dispatch (line p : string) (e : Env) (m : Machine) :
  String.prefix ("AT" ++ p) (trimmed line) = true ->
  AT_Command_Process (Some line) e m = dispatch (trimmed line) e m.
Proof.
  intros Hp. apply prefix_app in Hp.
  destruct line as [ | c line]; [discriminate Hp | ].
  unfold AT_Command_Process. rewrite Hp. reflexivity.
Qed.

Lemma ParseUInt16_loop_overflow (digits rest : string) :
  forall acc, all_digits digits = true -> 0 <= acc <= 65535 ->
    65535 < dec_value digits acc ->
    ParseUInt16_loop (digits ++ rest) acc = 0.
Proof.
  induction digits as [ | c digits IH]; intros acc Hd Hacc Hover.
  - simpl in Hover. lia.
  - simpl in Hd. apply andb_true_iff in Hd as [Hc Hd].
    cbn [append ParseUInt16_loop]. rewrite Hc.
    pose proof Hc as Hc'. unfold is_digit in Hc'.
    apply andb_true_iff in Hc' as [?%Z.leb_le ?%Z.leb_le].
    unfold wrap32. rewrite (Z.mod_small (code c - 48)) by lia.
    rewrite Z.mod_small by lia.
    destruct (65535 <? acc * 10 + (code c - 48)) eqn:Ho; [reflexivity | ].
    apply Z.ltb_ge in Ho. apply IH; [exact Hd | lia | exact Hover].
Qed.

(** C10. For [AT+READ], [AT+WRITE] and [AT+DATAMODE], a handle field on
    which [ParseUInt16] returns 0 (or that is missing altogether) gets
    ["ERROR\r\n"] and nothing else: no handler runs, so there is no GATT
    request and no change of mode.  [ParseUInt16] returns 0 on the literal
    ["0"], on an empty field, on a field that does not start with a
    decimal digit, and on one that starts with a decimal number above
    65535. *)
Theorem zero_handle_rejected (line : string) (e : Env) (m : Machine) :
  let cmd := trimmed line in
  let rejected :=
    AT_Command_Process (Some line) e m
    = Ok tt (set_trace (trace m ++ [UART_Tx ("ERROR" ++ CRLF)]) m) in
  (strncmp_eq cmd "AT+READ=" = true ->
   ParseUInt16 (SkipToComma (Some (str_drop 8 cmd))) = 0 -> rejected)
  /\ (strncmp_eq cmd "AT+WRITE=" = true ->
      ParseUInt16 (SkipToComma (Some (str_drop 9 cmd))) = 0 -> rejected)
  /\ (strncmp_eq cmd "AT+DATAMODE=" = true ->
      ParseUInt16 (SkipToComma (Some (str_drop 12 cmd))) = 0 -> rejected)
  /\ ParseUInt16 (Some "0") = 0
  /\ ParseUInt16 (Some "") = 0
  /\ ParseUInt16 None = 0
  /\ (forall c rest, is_digit c = false -> ParseUInt16 (Some (String c rest)) = 0)
  /\ (forall digits rest, all_digits digits = true ->
        65535 < dec_value digits 0 -> ParseUInt16 (Some (digits ++ rest)) = 0).
Proof.
  intros cmd rejected. subst rejected.
  split; [ | split; [ | split]].
  - intros Hp Hz. rewrite (Process_dispatch line "+READ=") by exact Hp.
    fold cmd. rewrite (prefix_app _ _ Hp) at 1.
    rewrite dispatch_READ. cbv zeta.
    change (String.length "AT+READ=") with 8%nat.
    rewrite Hz. cbn [Z.ltb Z.compare].
    destruct (_ && _); reflexivity.
  - intros Hp Hz. rewrite (Process_dispatch line "+WRITE=") by exact Hp.
    fold cmd. rewrite (prefix_app _ _ Hp) at 1.
    rewrite dispatch_WRITE. cbv zeta.
    change (String.length "AT+WRITE=") with 9%nat.
    rewrite Hz. cbn [Z.ltb Z.compare]. rewrite andb_false_r.
    destruct (_ && _); reflexivity.
  - intros Hp Hz. rewrite (Process_dispatch line "+DATAMODE=") by exact Hp.
    fold cmd. rewrite (prefix_app _ _ Hp) at 1.
    rewrite dispatch_DATAMODE. cbv zeta.
    change (String.length "AT+DATAMODE=") with 12%nat.
    rewrite Hz. cbn [Z.ltb Z.compare].
    destruct (_ && _); reflexivity.
  - split; [reflexivity | ]. split; [reflexivity | ]. split; [reflexivity | ].
    split.
    + intros c rest Hc. simpl. rewrite Hc. reflexivity.
    + intros [ | c digits] rest Hd Hover; [simpl in Hover; lia | ].
      apply (ParseUInt16_loop_overflow (String c digits) rest 0 Hd); [lia | ].
      exact Hover.
Qed.

Lemma zero_handle_rejected_witness :
  strncmp_eq (trimmed ("AT+READ=0,0" ++ CRLF)) "AT+READ=" = true
  /\ ParseUInt16 (SkipToComma (Some (str_drop 8 (trimmed ("AT+READ=0,0" ++ CRLF)))))
     = 0
  /\ AT_Command_Process (Some ("AT+READ=0,0" ++ CRLF)) (one_device_env 0 0)
       power_on
     = Ok tt (set_trace [UART_Tx ("ERROR" ++ CRLF)] power_on).
Proof.
  split; [reflexivity | ]. split; [reflexivity | ].
  exact (proj1 (zero_handle_rejected ("AT+READ=0,0" ++ CRLF)
                  (one_device_env 0 0) power_on) eq_refl eq_refl).
Defined.

Example zero_handle_examples :
  ParseUInt16 (Some "65536") = 0 /\ ParseUInt16 (Some "70000,0A") = 0
  /\ ParseUInt16 (Some "x12") = 0 /\ ParseUInt16 (Some ",0A") = 0
  /\ ParseUInt16 (Some "65535") = 65535.
Proof. repeat split. Qed.

(** ** Listing the known devices *)

Lemma str_take_app (s t : string) : str_take (String.length s) (s ++ t) = s.
Proof. induction s as [ | c s IH]; simpl; [destruct t | rewrite IH]; reflexivity. Qed.

Lemma str_take_all (s : string) (n : nat) :
  (String.length s <= n)%nat -> str_take n s = s.
Proof.
  revert n. induction s as [ | c s IH]; intros [ | n] H; simpl in *;
    try reflexivity; try lia.
  rewrite IH by lia. reflexivity.
Qed.

(** A response that fits the response buffer goes out as it is. *)
Lemma response_bytes_fits (text : string) :
  (String.length text <= 127)%nat -> response_bytes text = text.
Proof.
  intros H. unfold response_bytes, wrap16, AT_CMD_MAX_LEN.
  rewrite Z.mod_small by lia.
  replace (128 <? Z.of_nat (String.length text)) with false
    by (symmetry; apply Z.ltb_ge; lia).
  rewrite Nat2Z.id, (str_take_all text 127 H). apply str_take_app.
Qed.

(** Every device line starts with ["+DEV:"] and ends with the line
    terminator. *)
Lemma DEV_line_shape (i : Z) (dev : BLE_Device_t) :
  exists body, DEV_line i dev = "+DEV:" ++ body ++ CRLF.
Proof. exists (DEV_fields i dev). reflexivity. Qed.

Lemma dispatch_LIST : dispatch "AT+LIST" = (let* _ := ask in call AT_LIST_Handler).
Proof. reflexivity. Qed.

(** X28. With two known devices, the line ["AT+LIST\r\n"] in upper case
    is answered by ["+LIST:2\r\n"], one ["+DEV:...\r\n"] line for each
    device, then ["OK\r\n"] (each device line fitting the 127 characters
    of the response buffer); the same line in lower case changes nothing
    and sends nothing. *)
Theorem AT_LIST_two_devices (e : Env) (m : Machine) (d0 d1 : BLE_Device_t) :
  BLE_DeviceManager_GetCount e = 2 ->
  BLE_DeviceManager_GetDevice e 0 = Some d0 ->
  BLE_DeviceManager_GetDevice e 1 = Some d1 ->
  (String.length (DEV_line 0 d0) <= 127)%nat ->
  (String.length (DEV_line 1 d1) <= 127)%nat ->
  AT_Command_Process (Some ("AT+LIST" ++ CRLF)) e m
  = Ok tt (set_trace (trace m ++ [UART_Tx ("+LIST:2" ++ CRLF);
                                  UART_Tx (DEV_line 0 d0);
                                  UART_Tx (DEV_line 1 d1);
                                  UART_Tx ("OK" ++ CRLF)]) m)
  /\ (exists body0 body1,
        DEV_line 0 d0 = "+DEV:" ++ body0 ++ CRLF
        /\ DEV_line 1 d1 = "+DEV:" ++ body1 ++ CRLF)
  /\ AT_Command_Process (Some ("at+list" ++ CRLF)) e m = Ok tt m.
Proof.
  intros Hcount Hd0 Hd1 Hfit0 Hfit1. split; [ | split].
  - change (AT_Command_Process (Some ("AT+LIST" ++ CRLF)) e m)
      with (dispatch "AT+LIST" e m).
    rewrite dispatch_LIST.
    unfold call, AT_LIST_Handler, bind, ask. rewrite Hcount.
    change (Z.to_nat 2) with 2%nat. cbn [AT_LIST_loop].
    unfold bind, ask. cbn [Z.ltb Z.compare]. rewrite Hd0.
    change (wrap8 (0 + 1)) with 1. cbn [Z.ltb Z.compare Pos.compare Pos.compare_cont].
    rewrite Hd1.
    unfold AT_Response_Send, emit, modify, ret.
    rewrite (response_bytes_fits _ Hfit0), (response_bytes_fits _ Hfit1).
    destruct m as [md ti th buf len ec lt est ed tr]. cbn [set_trace trace].
    cbn -[DEV_line response_bytes].
    rewrite <- !app_assoc. reflexivity.
  - destruct (DEV_line_shape 0 d0) as [b0 H0].
    destruct (DEV_line_shape 1 d1) as [b1 H1].
    exists b0, b1. split; assumption.
  - reflexivity.
Qed.

Lemma AT_LIST_two_devices_witness :
  BLE_DeviceManager_GetCount two_device_env = 2
  /\ AT_Command_Process (Some ("AT+LIST" ++ CRLF)) two_device_env power_on
     = Ok tt
         (set_trace
            [UART_Tx ("+LIST:2" ++ CRLF);
             UART_Tx ("+DEV:0,06:05:04:03:02:01,-60,0x0007,sensor" ++ CRLF);
             UART_Tx ("+DEV:1,66:55:44:33:22:11,-71,0xFFFF,Unknown" ++ CRLF);
             UART_Tx ("OK" ++ CRLF)] power_on).
Proof.
  split; [reflexivity | ].
  exact (proj1 (AT_LIST_two_devices two_device_env power_on some_device
                  other_device eq_refl eq_refl eq_refl
                  ltac:(vm_compute; lia) ltac:(vm_compute; lia))).
Defined.

(** C2. The dispatcher at ["at+list\r\n"] with two known devices.  The
    line passes the prefix test, which accepts ['a'] and ['t'] beside ['A']
    and ['T'] ("case insensitive" in its comment), but every command name
    is then compared with an upper-case literal, the two characters of the
    prefix included: the line matches no command, and [AT_Command_Process]
    returns without sending anything, where ["AT+LIST\r\n"] is answered
    with the device list. *)
Lemma lower_case_list_gets_no_response :
  BLE_DeviceManager_GetCount two_device_env = 2
  /\ has_AT_prefix (trimmed ("at+list" ++ CRLF)) = true
  /\ (exists m,
        AT_Command_Process (Some ("at+list" ++ CRLF)) two_device_env power_on
        = Ok tt m
        /\ trace m = [])
  /\ exists m,
       AT_Command_Process (Some ("AT+LIST" ++ CRLF)) two_device_env power_on
       = Ok tt m
       /\ length (trace m) = 4%nat.
Proof.
  split; [reflexivity | ]. split; [reflexivity | ]. split.
  - exists power_on. split; reflexivity.
  - eexists. split; [vm_compute; reflexivity | reflexivity].
Qed.

(** * Further properties of the parsers *)

Lemma digit_value c : is_digit c = true -> 0 <= code c - 48 <= 9.
Proof.
  unfold is_digit. intros H.
  apply andb_true_iff in H as [?%Z.leb_le ?%Z.leb_le]. lia.
Qed.

Lemma dec_value_mono (digits : string) :
  forall acc, all_digits digits = true -> 0 <= acc -> acc <= dec_value digits acc.
Proof.
  induction digits as [ | c digits IH]; intros acc Hd Hacc; simpl; [lia | ].
  simpl in Hd. apply andb_true_iff in Hd as [Hc Hd].
  pose proof (digit_value c Hc).
  specialize (IH (acc * 10 + (code c - 48)) Hd). lia.
Qed.

Lemma ParseUInt16_loop_value (digits rest : string) :
  forall acc, all_digits digits = true -> no_leading_digit rest = true ->
    0 <= acc -> dec_value digits acc <= 65535 ->
    ParseUInt16_loop (digits ++ rest) acc = dec_value digits acc.
Proof.
  induction digits as [ | c digits IH]; intros acc Hd Hrest Hacc Hfit.
  - simpl in *. unfold wrap16.
    destruct rest as [ | c rest]; simpl.
    + apply Z.mod_small. lia.
    + simpl in Hrest. apply negb_true_iff in Hrest. rewrite Hrest.
      apply Z.mod_small. lia.
  - simpl in Hd. apply andb_true_iff in Hd as [Hc Hd].
    pose proof (digit_value c Hc).
    cbn [append ParseUInt16_loop dec_value] in *. rewrite Hc.
    pose proof (dec_value_mono digits (acc * 10 + (code c - 48)) Hd).
    unfold wrap32. rewrite (Z.mod_small (code c - 48)) by lia.
    rewrite Z.mod_small by lia.
    replace (65535 <? acc * 10 + (code c - 48)) with false
      by (symmetry; apply Z.ltb_ge; lia).
    apply IH; try assumption; lia.
Qed.

Lemma ParseUInt16_loop_range (s : string) :
  forall acc, 0 <= ParseUInt16_loop s acc <= 65535.
Proof.
  induction s as [ | c s IH]; intros acc; simpl.
  - unfold wrap16. pose proof (Z.mod_pos_bound acc 65536). lia.
  - destruct (is_digit c).
    + destruct (65535 <? _); [lia | apply IH].
    + unfold wrap16. pose proof (Z.mod_pos_bound acc 65536). lia.
Qed.

(** X1. [ParseUInt16] reads the decimal number a field starts with: on a
    non-empty run of digits that ends at the end of the string or at a
    non-digit it returns the number when it is at most 65535 and 0 when
    it is larger; whatever the string, the result is within 0..65535. *)
Theorem ParseUInt16_decimal (digits rest : string) :
  digits <> EmptyString ->
  all_digits digits = true ->
  no_leading_digit rest = true ->
  (dec_value digits 0 <= 65535 ->
     ParseUInt16 (Some (digits ++ rest)) = dec_value digits 0)
  /\ (65535 < dec_value digits 0 -> ParseUInt16 (Some (digits ++ rest)) = 0)
  /\ forall s, 0 <= ParseUInt16 s <= 65535.
Proof.
  intros Hne Hd Hrest.
  destruct digits as [ | c digits]; [congruence | ].
  split; [ | split].
  - intros Hfit.
    apply (ParseUInt16_loop_value (String c digits) rest 0 Hd Hrest); lia.
  - intros Hover.
    apply (ParseUInt16_loop_overflow (String c digits) rest 0 Hd); lia.
  - intros [[ | d s] | ]; simpl; try lia.
    apply (ParseUInt16_loop_range (String d s) 0).
Qed.

Lemma ParseUInt16_decimal_witness :
  "2000" <> EmptyString
  /\ all_digits "2000" = true
  /\ no_leading_digit ",7" = true
  /\ ParseUInt16 (Some ("2000" ++ ",7")) = 2000.
Proof.
  assert (H1 : "2000" <> EmptyString) by discriminate.
  split; [exact H1 | ]. split; [reflexivity | ]. split; [reflexivity | ].
  exact (proj1 (ParseUInt16_decimal "2000" ",7" H1 eq_refl eq_refl)
           ltac:(vm_compute; discriminate)).
Defined.

Lemma ParseUInt8_loop_value (digits rest : string) :
  forall acc, all_digits digits = true -> no_leading_digit rest = true ->
    0 <= acc -> dec_value digits acc <= 255 ->
    ParseUInt8_loop (digits ++ rest) acc = dec_value digits acc.
Proof.
  induction digits as [ | c digits IH]; intros acc Hd Hrest Hacc Hfit.
  - simpl in *. unfold wrap8.
    destruct rest as [ | c rest]; simpl.
    + apply Z.mod_small. lia.
    + simpl in Hrest. apply negb_true_iff in Hrest. rewrite Hrest.
      apply Z.mod_small. lia.
  - simpl in Hd. apply andb_true_iff in Hd as [Hc Hd].
    pose proof (digit_value c Hc).
    cbn [append ParseUInt8_loop dec_value] in *. rewrite Hc.
    pose proof (dec_value_mono digits (acc * 10 + (code c - 48)) Hd).
    unfold wrap16. rewrite (Z.mod_small (code c - 48)) by lia.
    rewrite Z.mod_small by lia.
    replace (255 <? acc * 10 + (code c - 48)) with false
      by (symmetry; apply Z.ltb_ge; lia).
    apply IH; try assumption; lia.
Qed.

Lemma ParseUInt8_loop_overflow (digits rest : string) :
  forall acc, all_digits digits = true -> 0 <= acc <= 255 ->
    255 < dec_value digits acc ->
    ParseUInt8_loop (digits ++ rest) acc = 255.
Proof.
  induction digits as [ | c digits IH]; intros acc Hd Hacc Hover.
  - simpl in Hover. lia.
  - simpl in Hd. apply andb_true_iff in Hd as [Hc Hd].
    pose proof (digit_value c Hc).
    cbn [append ParseUInt8_loop]. rewrite Hc.
    unfold wrap16. rewrite (Z.mod_small (code c - 48)) by lia.
    rewrite Z.mod_small by lia.
    destruct (255 <? acc * 10 + (code c - 48)) eqn:Ho; [reflexivity | ].
    apply Z.ltb_ge in Ho. apply IH; [exact Hd | lia | exact Hover].
Qed.

Lemma ParseUInt8_loop_range (s : string) :
  forall acc, 0 <= ParseUInt8_loop s acc <= 255.
Proof.
  induction s as [ | c s IH]; intros acc; simpl.
  - unfold wrap8. pose proof (Z.mod_pos_bound acc 256). lia.
  - destruct (is_digit c).
    + destruct (255 <? _); [lia | apply IH].
    + unfold wrap8. pose proof (Z.mod_pos_bound acc 256). lia.
Qed.

(** X2. [ParseUInt8] reads the decimal number a field starts with: the
    number when it is at most 255, and 255 (the error value) when it is
    larger or when the string is empty or missing; so the result is within
    0..255, and the value 255 cannot be told from an error. *)
Theorem ParseUInt8_decimal (digits rest : string) :
  digits <> EmptyString ->
  all_digits digits = true ->
  no_leading_digit rest = true ->
  (dec_value digits 0 <= 255 ->
     ParseUInt8 (Some (digits ++ rest)) = dec_value digits 0)
  /\ (255 < dec_value digits 0 -> ParseUInt8 (Some (digits ++ rest)) = 255)
  /\ ParseUInt8 (Some EmptyString) = 255
  /\ ParseUInt8 None = 255
  /\ forall s, 0 <= ParseUInt8 s <= 255.
Proof.
  intros Hne Hd Hrest.
  destruct digits as [ | c digits]; [congruence | ].
  split; [ | split; [ | split; [ | split]]]; try reflexivity.
  - intros Hfit.
    apply (ParseUInt8_loop_value (String c digits) rest 0 Hd Hrest); lia.
  - intros Hover.
    apply (ParseUInt8_loop_overflow (String c digits) rest 0 Hd); lia.
  - intros [[ | d s] | ]; simpl; try lia.
    apply (ParseUInt8_loop_range (String d s) 0).
Qed.

Lemma ParseUInt8_decimal_witness :
  "255" <> EmptyString
  /\ all_digits "255" = true
  /\ no_leading_digit ",5" = true
  /\ ParseUInt8 (Some ("255" ++ ",5")) = 255
  /\ ParseUInt8 (Some ("256" ++ ",5")) = 255.
Proof.
  assert (H1 : "255" <> EmptyString) by discriminate.
  assert (H2 : "256" <> EmptyString) by discriminate.
  split; [exact H1 | ]. split; [reflexivity | ]. split; [reflexivity | ].
  split.
  - exact (proj1 (ParseUInt8_decimal "255" ",5" H1 eq_refl eq_refl)
             ltac:(vm_compute; discriminate)).
  - exact (proj1 (proj2 (ParseUInt8_decimal "256" ",5" H2 eq_refl eq_refl))
             ltac:(vm_compute; reflexivity)).
Defined.

(** X3. [SkipToComma] cuts a string at its first comma: it returns what
    follows that comma, and [NULL] when there is no comma (or no
    string). *)
Theorem SkipToComma_first_comma (field rest : string) :
  no_comma field = true ->
  SkipToComma (Some (field ++ String ","%char rest)) = Some rest
  /\ SkipToComma (Some field) = None.
Proof.
  intros H. induction field as [ | c field IH]; simpl in *.
  - split; reflexivity.
  - apply andb_true_iff in H as [Hc H]. apply negb_true_iff in Hc.
    rewrite Hc. apply IH. exact H.
Qed.

Lemma SkipToComma_first_comma_witness :
  no_comma "0" = true
  /\ SkipToComma (Some ("0" ++ String ","%char "18,0A1B")) = Some "18,0A1B".
Proof.
  split; [reflexivity | ].
  exact (proj1 (SkipToComma_first_comma "0" "18,0A1B" eq_refl)).
Defined.

(** * Further properties of the mode controller *)

(** What a flush leaves behind: an empty buffer, and either the mode state
    as it was or Command mode with the target cleared. *)
Lemma FlushTxBuffer_cases (e : Env) (m : Machine) :
  exists r m',
    Module_Mode_FlushTxBuffer e m = Ok r m'
    /\ data_tx_len m' = 0
    /\ data_tx_buffer m' = data_tx_buffer m
    /\ ((current_mode m' = current_mode m
         /\ target_dev_idx m' = target_dev_idx m
         /\ target_char_handle m' = target_char_handle m)
        \/ (current_mode m' = MODE_COMMAND
            /\ target_dev_idx m' = 255 /\ target_char_handle m' = 0)).
Proof.
  destruct m as [md ti th buf len ec lt est ed tr]. munfold. simpl.
  destruct (len =? 0) eqn:Hlen.
  { apply Z.eqb_eq in Hlen. subst. eexists _, _. split; [reflexivity | ].
    simpl. auto 7. }
  destruct md; simpl; [eexists _, _; split; [reflexivity | simpl; auto 7] | ].
  destruct (connected _) as [d | ]; simpl;
    [ | eexists _, _; split; [reflexivity | simpl; auto 7] ].
  destruct (BLE_GATT_WriteCharacteristic _ _ _ _ =? 0); simpl;
    eexists _, _; (split; [reflexivity | simpl; auto 7]).
Qed.

Lemma at_most_weaken (a b : Z) (m : Machine) :
  at_most a m -> a <= b -> at_most b m.
Proof.
  intros (Hb & Hl & Ht) Hab. split; [exact Hb | ]. split; [lia | exact Ht].
Qed.

Lemma FlushTxBuffer_at_most (limit : Z) :
  hoare (at_most limit) Module_Mode_FlushTxBuffer (fun _ m => at_most 0 m).
Proof.
  intros e m (Hbuf & Hlen & Htc).
  destruct (FlushTxBuffer_cases e m) as (r & m' & Hrun & Hz & Hb & Hcase).
  exists r, m'. split; [exact Hrun | ].
  unfold at_most, target_cleared in *. rewrite Hz, Hb.
  split; [exact Hbuf | ]. split; [lia | ].
  destruct Hcase as [(Hm & Ht & Hh) | (Hm & Ht & Hh)].
  - rewrite Hm, Ht, Hh. exact Htc.
  - auto.
Qed.

Lemma tx_append_at_most (limit byte : Z) :
  limit < DATA_TX_BUFFER_SIZE ->
  hoare (at_most limit) (tx_append byte) (fun _ m => at_most (limit + 1) m).
Proof.
  intros Hlim e m (Hbuf & Hlen & Htc). unfold tx_append, bind, get, modify.
  destruct m as [md ti th buf len ec lt est ed tr]; simpl in *.
  assert (Hc : (0 <=? len) && (len <? DATA_TX_BUFFER_SIZE) = true).
  { apply andb_true_iff. split; [apply Z.leb_le | apply Z.ltb_lt]; lia. }
  rewrite Hc. eexists _, _. split; [reflexivity | ].
  unfold at_most, target_cleared, DATA_TX_BUFFER_SIZE, wrap16 in *; simpl in *.
  rewrite length_insert. rewrite Z.mod_small by lia.
  split; [exact Hbuf | ]. split; [lia | exact Htc].
Qed.

Lemma add_escape_chars_at_most (n : nat) :
  forall (limit i : Z),
    limit + Z.of_nat n <= DATA_TX_BUFFER_SIZE ->
    hoare (at_most limit) (add_escape_chars n i)
      (fun _ m => at_most (limit + Z.of_nat n) m).
Proof.
  induction n as [ | n IH]; intros limit i Hlim.
  - intros e m H. exists tt, m. split; [reflexivity | ].
    rewrite Z.add_0_r. exact H.
  - cbn [add_escape_chars]. apply hoare_get_bind. intros m0 Hinv.
    destruct (_ && _).
    + eapply hoare_bind with (Q := fun _ m => at_most (limit + 1) m).
      * eapply hoare_weaken;
          [apply (tx_append_at_most limit); lia | | auto].
        intros m ->. exact Hinv.
      * intros ?. eapply hoare_weaken; [apply (IH (limit + 1)); lia | auto | ].
        intros ? m H. replace (limit + Z.of_nat (S n))
          with (limit + 1 + Z.of_nat n) by lia. exact H.
    + intros e m ->. exists tt, m0. split; [reflexivity | ].
      apply (at_most_weaken limit); [exact Hinv | lia].
Qed.

(** After the escape check: nothing was added when the function is about
    to return, at most two escape characters otherwise. *)
Lemma escape_check_at_most (byte current_time time_since_last : Z) :
  hoare (at_most (FLUSH_THRESHOLD - 1))
    (escape_check byte current_time time_since_last)
    (fun returned m =>
       if returned : bool then at_most (FLUSH_THRESHOLD - 1) m
       else at_most (FLUSH_THRESHOLD + 1) m).
Proof.
  assert (Hup : forall m, at_most (FLUSH_THRESHOLD - 1) m ->
                          at_most (FLUSH_THRESHOLD + 1) m).
  { intros m H. apply (at_most_weaken _ _ _ H). lia. }
  unfold escape_check. apply hoare_get_bind. intros m0 Hinv.
  destruct (byte =? ESCAPE_SEQ_CHAR).
  - destruct (escape_count m0 =? 0).
    + destruct (ESCAPE_GUARD_TIME_MS <=? time_since_last);
        hoare_run; apply Hup, Hinv.
    + destruct (escape_count m0 <? ESCAPE_SEQ_LENGTH);
        [ | hoare_run; apply Hup, Hinv].
      intros e m ->. unfold bind, modify, ret, get; simpl.
      destruct (wrap8 (escape_count m0 + 1) =? ESCAPE_SEQ_LENGTH);
        eexists _, _; (split; [reflexivity | ]); [exact Hinv | apply Hup, Hinv].
  - eapply hoare_bind with (Q := fun _ m => at_most (FLUSH_THRESHOLD + 1) m).
    + destruct ((0 <? escape_count m0) && (escape_count m0 <? ESCAPE_SEQ_LENGTH))
        eqn:Hc.
      * apply andb_true_iff in Hc as [H0%Z.ltb_lt H3%Z.ltb_lt].
        unfold ESCAPE_SEQ_LENGTH in H3.
        eapply hoare_weaken;
          [apply (add_escape_chars_at_most (Z.to_nat (escape_count m0))
                    (FLUSH_THRESHOLD - 1) 0);
           unfold FLUSH_THRESHOLD, DATA_TX_BUFFER_SIZE; lia | | ].
        -- intros m ->. exact Hinv.
        -- intros ? m H. apply (at_most_weaken _ _ _ H). lia.
      * intros e m ->. exists tt, m0. split; [reflexivity | apply Hup, Hinv].
    + intros ? e m H. unfold bind, modify, ret; simpl.
      eexists _, _. split; [reflexivity | exact H].
Qed.

Lemma ProcessDataByte_at_most (byte : Z) :
  hoare (at_most (FLUSH_THRESHOLD - 1)) (Module_Mode_ProcessDataByte byte)
    (fun _ m => at_most (FLUSH_THRESHOLD - 1) m).
Proof.
  unfold Module_Mode_ProcessDataByte.
  apply hoare_ask_bind. intros e0. apply hoare_get_bind. intros m0 Hinv0.
  eapply hoare_bind.
  { eapply hoare_weaken; [apply escape_check_at_most | | intros ? ? H; exact H].
    intros m ->. exact Hinv0. }
  intros [ | ].
  { intros e m H. exists tt, m. split; [reflexivity | exact H]. }
  apply hoare_get_bind. intros m1 Hinv1.
  eapply hoare_bind with (Q := fun _ m => at_most (FLUSH_THRESHOLD + 2) m).
  { destruct (data_tx_len m1 <? DATA_TX_BUFFER_SIZE) eqn:Hlt.
    - eapply hoare_weaken;
        [apply (tx_append_at_most (FLUSH_THRESHOLD + 1));
         unfold FLUSH_THRESHOLD, DATA_TX_BUFFER_SIZE; lia | | ].
      + intros m ->. exact Hinv1.
      + intros ? m H. replace (FLUSH_THRESHOLD + 2)
          with (FLUSH_THRESHOLD + 1 + 1) by lia. exact H.
    - apply Z.ltb_ge in Hlt. destruct Hinv1 as (_ & Hl & _).
      unfold FLUSH_THRESHOLD, DATA_TX_BUFFER_SIZE in *. lia. }
  intros ?. eapply hoare_bind with (Q := fun _ m => at_most (FLUSH_THRESHOLD + 2) m).
  { intros e m H. eexists _, _. split; [reflexivity | exact H]. }
  intros ?. apply hoare_get_bind. intros m2 Hinv2.
  destruct (_ || _) eqn:Hc.
  - eapply hoare_bind.
    + eapply hoare_weaken;
        [apply (FlushTxBuffer_at_most (FLUSH_THRESHOLD + 2)) | | intros ? ? H; exact H].
      intros m ->. exact Hinv2.
    + intros ? e m H. eexists _, _. split; [reflexivity | ].
      apply (at_most_weaken _ _ _ H).
      unfold FLUSH_THRESHOLD, DATA_TX_BUFFER_SIZE. lia.
  - apply orb_false_iff in Hc as [Hc _]. apply Z.leb_gt in Hc.
    intros e m ->. exists tt, m2. split; [reflexivity | ].
    destruct Hinv2 as (Hb & Hl & Ht).
    split; [exact Hb | ]. split; [ | exact Ht].
    unfold FLUSH_THRESHOLD in *. lia.
Qed.

Lemma EnterCommand_at_most (limit : Z) :
  hoare (at_most limit) Module_Mode_EnterCommand (fun _ m => at_most limit m).
Proof.
  intros e m (Hbuf & Hlen & Htc).
  destruct m as [md ti th buf len ec lt est ed tr].
  unfold at_most, target_cleared in *. simpl in *. munfold. simpl.
  destruct md; simpl.
  { eexists _, _. split; [reflexivity | simpl; auto]. }
  destruct (len =? 0) eqn:Hz; simpl.
  { eexists _, _. split; [reflexivity | simpl; auto]. }
  destruct (connected _) as [d | ]; simpl.
  - destruct (BLE_GATT_WriteCharacteristic _ _ _ _ =? 0); simpl;
      eexists _, _; (split; [reflexivity | simpl]);
      (split; [exact Hbuf | split; [lia | auto]]).
  - eexists _, _. split; [reflexivity | simpl].
    split; [exact Hbuf | split; [lia | auto]].
Qed.

Lemma EnterData_at_most (limit dev_idx char_handle : Z) :
  0 <= limit ->
  hoare (at_most limit) (Module_Mode_EnterData dev_idx char_handle)
    (fun _ m => at_most limit m).
Proof.
  intros Hlim e m (Hbuf & Hlen & Htc). unfold Module_Mode_EnterData, bind, ask.
  destruct (connected _); unfold bind, modify, ret, AT_Response_Send, emit;
    simpl; eexists _, _; (split; [reflexivity | ]).
  - split; [exact Hbuf | ]. split; [simpl; lia | ].
    intros H. discriminate H.
  - split; [exact Hbuf | split; assumption].
Qed.

Lemma Init_at_most (limit : Z) :
  0 <= limit ->
  hoare (at_most limit) Module_Mode_Init (fun _ m => at_most limit m).
Proof.
  intros Hlim e m (Hbuf & Hlen & Htc). unfold Module_Mode_Init, bind, modify.
  simpl. eexists _, _. split; [reflexivity | ].
  split; [exact Hbuf | ]. split; [simpl; lia | ]. intros _. simpl. auto.
Qed.

Lemma IsEscapeDetected_at_most (limit : Z) :
  hoare (at_most limit) Module_Mode_IsEscapeDetected (fun _ m => at_most limit m).
Proof.
  intros e m Hinv. unfold Module_Mode_IsEscapeDetected, bind, ask, get.
  destruct (negb _); [destruct (_ <=? _) | ];
    unfold bind, modify, ret; simpl; eexists _, _;
    (split; [reflexivity | exact Hinv]).
Qed.

Lemma ProcessGATTData_at_most (limit conn handle : Z) (data : list Z) (len : Z) :
  hoare (at_most limit) (Module_Mode_ProcessGATTData conn handle data len)
    (fun _ m => at_most limit m).
Proof.
  intros e m Hinv. unfold Module_Mode_ProcessGATTData, bind, ask, get.
  destruct (negb (mode_eqb _ _));
    [ | destruct (BLE_DeviceManager_GetDevice _ _);
        [destruct (negb (_ =? conn)); [ | destruct (negb (handle =? _))] | ] ];
    unfold emit, modify, ret; simpl; eexists _, _;
    (split; [reflexivity | exact Hinv]).
Qed.

Lemma do_call_at_most (c : ModeCall) :
  hoare (at_most (FLUSH_THRESHOLD - 1)) (do_call c)
    (fun _ m => at_most (FLUSH_THRESHOLD - 1) m).
Proof.
  assert (H0 : 0 <= FLUSH_THRESHOLD - 1)
    by (unfold FLUSH_THRESHOLD, DATA_TX_BUFFER_SIZE; lia).
  destruct c; simpl.
  - apply Init_at_most, H0.
  - eapply hoare_bind; [apply EnterCommand_at_most | ].
    intros ? e m H. eexists _, _. split; [reflexivity | exact H].
  - eapply hoare_bind; [apply EnterData_at_most, H0 | ].
    intros ? e m H. eexists _, _. split; [reflexivity | exact H].
  - apply ProcessDataByte_at_most.
  - apply ProcessGATTData_at_most.
  - eapply hoare_bind; [apply IsEscapeDetected_at_most | ].
    intros ? e m H. eexists _, _. split; [reflexivity | exact H].
  - eapply hoare_bind; [apply FlushTxBuffer_at_most | ].
    intros ? e m H. eexists _, _. split; [reflexivity | ].
    apply (at_most_weaken _ _ _ H), H0.
Qed.

Lemma run_calls_at_most (cs : list (Env * ModeCall)) (m0 : Machine) :
  at_most (FLUSH_THRESHOLD - 1) m0 ->
  exists m, run_calls cs m0 = Ok tt m /\ at_most (FLUSH_THRESHOLD - 1) m.
Proof.
  revert m0. induction cs as [ | [e c] cs IH]; intros m0 Hinv; simpl.
  - exists m0. auto.
  - destruct (do_call_at_most c e m0 Hinv) as ([] & m1 & Hrun & Hinv1).
    rewrite Hrun. apply IH. exact Hinv1.
Qed.

Lemma power_on_at_most : at_most (FLUSH_THRESHOLD - 1) power_on.
Proof.
  unfold at_most, target_cleared, power_on, FLUSH_THRESHOLD, DATA_TX_BUFFER_SIZE.
  simpl. split; [reflexivity | ]. split; [lia | auto].
Qed.

(** X4. From power-on, whatever calls are made into the mode controller
    and whatever the collaborators answer, the transmit buffer holds fewer
    bytes than the auto-flush threshold (492) between calls.  So the test
    [data_tx_len < DATA_TX_BUFFER_SIZE] of [Module_Mode_ProcessDataByte]
    always succeeds: its buffer-full flush is never reached. *)
Theorem tx_len_below_flush_threshold (cs : list (Env * ModeCall)) :
  exists m,
    run_calls cs power_on = Ok tt m
    /\ 0 <= data_tx_len m < FLUSH_THRESHOLD
    /\ (data_tx_len m <? DATA_TX_BUFFER_SIZE) = true.
Proof.
  destruct (run_calls_at_most cs power_on power_on_at_most)
    as (m & Hrun & _ & Hlen & _).
  exists m. split; [exact Hrun | ].
  unfold FLUSH_THRESHOLD, DATA_TX_BUFFER_SIZE in *.
  split; [lia | apply Z.ltb_lt; lia].
Qed.

(** X5. From power-on, whatever calls are made into the mode controller,
    whenever the mode is Command the target getters return their "not in
    data mode" values: device index 0xFF and characteristic handle 0. *)
Theorem command_mode_has_no_target (cs : list (Env * ModeCall)) (e : Env) :
  exists m,
    run_calls cs power_on = Ok tt m
    /\ (current_mode m = MODE_COMMAND ->
        Module_Mode_GetTargetDevice e m = Ok 255 m
        /\ Module_Mode_GetTargetHandle e m = Ok 0 m).
Proof.
  destruct (run_calls_at_most cs power_on power_on_at_most)
    as (m & Hrun & _ & _ & Htc).
  exists m. split; [exact Hrun | ]. intros Hm.
  destruct (Htc Hm) as [Ht Hh].
  unfold Module_Mode_GetTargetDevice, Module_Mode_GetTargetHandle, bind, get, ret.
  rewrite Ht, Hh. auto.
Qed.

Lemma command_mode_has_no_target_witness :
  exists m,
    run_calls [(one_device_env 0 0, Call_EnterData 0 18);
               (one_device_env 5 0, Call_EnterCommand)] power_on = Ok tt m
    /\ current_mode m = MODE_COMMAND
    /\ Module_Mode_GetTargetDevice (quiet_env 0) m = Ok 255 m.
Proof.
  destruct (command_mode_has_no_target
              [(one_device_env 0 0, Call_EnterData 0 18);
               (one_device_env 5 0, Call_EnterCommand)] (quiet_env 0))
    as (m & Hrun & H).
  exists m. split; [exact Hrun | ].
  assert (Hm : current_mode m = MODE_COMMAND).
  { vm_compute in Hrun. injection Hrun as <-. reflexivity. }
  split; [exact Hm | exact (proj1 (H Hm))].
Defined.



(** A store into the transmit buffer adds the byte to the payload and
    changes nothing else. *)
Lemma tx_append_payload (byte : Z) (e : Env) (m : Machine) :
  tx_inv m -> data_tx_len m < DATA_TX_BUFFER_SIZE ->
  exists m',
    tx_append byte e m = Ok tt m'
    /\ payload m' = (payload m ++ [byte])%list
    /\ tx_inv m'
    /\ trace m' = trace m
    /\ m' = set_data_tx_len (data_tx_len m') (set_data_tx_buffer (data_tx_buffer m') m).
Proof.
  destruct m as [md ti th buf len ec lt est ed tr].
  intros [Hlen Hbuf] Hlt. unfold DATA_TX_BUFFER_SIZE in *. simpl in *.
  unfold tx_append, bind, get, modify. simpl.
  assert (Hc : (0 <=? len) && (len <? DATA_TX_BUFFER_SIZE) = true).
  { apply andb_true_iff. split; [apply Z.leb_le | apply Z.ltb_lt];
      unfold DATA_TX_BUFFER_SIZE; lia. }
  rewrite Hc. eexists. split; [reflexivity | ].
  unfold payload, tx_inv, wrap16, DATA_TX_BUFFER_SIZE. simpl.
  rewrite Z.mod_small by lia. rewrite length_insert.
  split; [ | split; [split; [lia | exact Hbuf] | split; reflexivity]].
  rewrite <- app_assoc. f_equal.
  replace (Z.to_nat (len + 1)) with (S (Z.to_nat len)) by lia.
  rewrite (take_S_r _ _ byte) by (apply list_lookup_insert_eq; lia).
  rewrite take_insert_ge by lia. reflexivity.
Qed.






(** A flush towards a connected target empties the buffer and leaves the
    mode and the escape detection alone, whatever the write answers. *)
Lemma FlushTxBuffer_connected (e : Env) (m : Machine) :
  current_mode m = MODE_DATA -> target_connected e m ->
  exists r m',
    Module_Mode_FlushTxBuffer e m = Ok r m'
    /\ m' = set_trace (trace m') (set_data_tx_len 0 m).
Proof.
  destruct m as [md ti th buf len ec lt est ed tr].
  intros Hmode [d Hd]. simpl in *. subst md. munfold. simpl.
  destruct (len =? 0) eqn:Hz.
  { apply Z.eqb_eq in Hz. subst len. eexists _, _. split; reflexivity. }
  rewrite Hd. simpl.
  destruct (BLE_GATT_WriteCharacteristic e (conn_handle d) th
              (take (Z.to_nat len) buf) =? 0);
    simpl; eexists _, _; split; reflexivity.
Qed.

(** What [Module_Mode_ProcessDataByte] does once the escape check has let
    the byte through, the target being connected: the byte is stored, the
    arrival time kept, and the mode and escape detection stay as the check
    left them. *)
Lemma ProcessDataByte_after_check (byte : Z) (e : Env) (m mc : Machine) :
  escape_check byte (HAL_GetTick e)
    (wrap32 (HAL_GetTick e - last_char_time m)) e m = Ok false mc ->
  tx_inv mc -> current_mode mc = MODE_DATA -> target_connected e mc ->
  exists m',
    Module_Mode_ProcessDataByte byte e m = Ok tt m'
    /\ control m' = control mc
    /\ last_char_time m' = HAL_GetTick e
    /\ tx_inv m'.
Proof.
  intros Hcheck Hinv Hmode Hconn.
  unfold Module_Mode_ProcessDataByte, bind, ask, get. rewrite Hcheck.
  assert (Hstore : exists m1,
            (if data_tx_len mc <? DATA_TX_BUFFER_SIZE then tx_append byte
             else bind Module_Mode_FlushTxBuffer (fun _ => tx_append byte)) e mc
            = Ok tt m1
            /\ tx_inv m1 /\ control m1 = control mc).
  { destruct (data_tx_len mc <? DATA_TX_BUFFER_SIZE) eqn:Hlt.
    - apply Z.ltb_lt in Hlt.
      destruct (tx_append_payload byte e mc Hinv Hlt)
        as (m1 & Hrun & _ & Hi & _ & Hm1).
      exists m1. split; [exact Hrun | ]. split; [exact Hi | ].
      rewrite Hm1. reflexivity.
    - destruct (FlushTxBuffer_connected e mc Hmode Hconn)
        as (r & m0 & Hrun0 & Hm0).
      assert (Hi0 : tx_inv m0).
      { rewrite Hm0. destruct Hinv as [Hl Hbuf]. split; [ | exact Hbuf].
        simpl. unfold DATA_TX_BUFFER_SIZE. lia. }
      assert (Hl0 : data_tx_len m0 < DATA_TX_BUFFER_SIZE).
      { rewrite Hm0. simpl. unfold DATA_TX_BUFFER_SIZE. lia. }
      destruct (tx_append_payload byte e m0 Hi0 Hl0)
        as (m1 & Hrun & _ & Hi & _ & Hm1).
      exists m1. unfold bind. rewrite Hrun0. split; [exact Hrun | ].
      split; [exact Hi | ]. rewrite Hm1, Hm0. reflexivity. }
  destruct Hstore as (m1 & Hrun1 & Hi1 & Hc1).
  unfold bind in Hrun1. rewrite Hrun1. unfold modify. cbv beta iota.
  set (m2 := set_last_char_time (HAL_GetTick e) m1).
  assert (Hi2 : tx_inv m2) by (destruct m1; exact Hi1).
  assert (Hc2 : control m2 = control mc) by (destruct m1; exact Hc1).
  destruct (_ || _).
  - assert (Hmode2 : current_mode m2 = MODE_DATA).
    { rewrite <- Hmode.
      exact (f_equal (fun c => fst (fst (fst (fst c)))) Hc2). }
    assert (Hconn2 : target_connected e m2).
    { destruct Hconn as [d Hd]. exists d.
      assert (Ht : target_dev_idx m2 = target_dev_idx mc)
        by exact (f_equal (fun c => snd (fst (fst (fst c)))) Hc2).
      rewrite Ht. exact Hd. }
    destruct (FlushTxBuffer_connected e m2 Hmode2 Hconn2)
      as (r & m3 & Hrun3 & Hm3).
    exists m3. cbv beta. rewrite Hrun3. unfold ret.
    split; [reflexivity | ].
    split; [rewrite Hm3, <- Hc2; reflexivity | ].
    split; [rewrite Hm3; unfold m2; destruct m1; reflexivity | ].
    rewrite Hm3. destruct Hi2 as [Hl Hbuf]. split; [ | exact Hbuf].
    simpl. unfold DATA_TX_BUFFER_SIZE. lia.
  - exists m2. unfold ret. split; [reflexivity | ].
    split; [exact Hc2 | ].
    split; [unfold m2; destruct m1; reflexivity | exact Hi2].
Qed.

(** X8. The escape sequence is recognised: in Data mode with no escape run
    under way, a ['+'] that arrives at least the guard time after the
    previous byte and two more ['+'] after it (the target being connected
    when the first two arrive) leave the escape pending; a poll at least
    the guard time after the third ['+'] returns 1 and clears the pending
    escape, so that every later poll returns 0.  The poll does not itself
    leave Data mode. *)
Theorem escape_sequence_detected (e1 e2 e3 e4 : Env) (m : Machine) :
  tx_inv m ->
  current_mode m = MODE_DATA ->
  escape_count m = 0 ->
  target_connected e1 m ->
  target_connected e2 m ->
  ESCAPE_GUARD_TIME_MS <= wrap32 (HAL_GetTick e1 - last_char_time m) ->
  ESCAPE_GUARD_TIME_MS <= wrap32 (HAL_GetTick e4 - HAL_GetTick e3) ->
  exists m3 m4,
    run_calls [(e1, Call_ProcessDataByte ESCAPE_SEQ_CHAR);
               (e2, Call_ProcessDataByte ESCAPE_SEQ_CHAR);
               (e3, Call_ProcessDataByte ESCAPE_SEQ_CHAR)] m = Ok tt m3
    /\ current_mode m3 = MODE_DATA
    /\ escape_detected m3 = 1
    /\ Module_Mode_IsEscapeDetected e4 m3 = Ok 1 m4
    /\ current_mode m4 = MODE_DATA
    /\ escape_count m4 = 0
    /\ forall e5, Module_Mode_IsEscapeDetected e5 m4 = Ok 0 m4.
Proof.
  intros Hinv Hmode Hec Hc1 Hc2 Hg1 Hg4.
  (* first '+' *)
  assert (H1 : escape_check ESCAPE_SEQ_CHAR (HAL_GetTick e1)
                 (wrap32 (HAL_GetTick e1 - last_char_time m)) e1 m
               = Ok false (set_escape_count 1
                             (set_escape_start_time (HAL_GetTick e1) m))).
  { unfold escape_check, bind, get, modify, ret. rewrite Hec.
    apply Z.leb_le in Hg1. rewrite Hg1. reflexivity. }
  destruct (ProcessDataByte_after_check _ e1 m _ H1) as (m1 & R1 & C1 & _ & I1).
  { destruct m; exact Hinv. }
  { destruct m; exact Hmode. }
  { destruct m; exact Hc1. }
  unfold control in C1. simpl in C1.
  injection C1 as Cm1 Ct1 Ch1 Ce1 Cd1.
  (* second '+' *)
  assert (H2 : escape_check ESCAPE_SEQ_CHAR (HAL_GetTick e2)
                 (wrap32 (HAL_GetTick e2 - last_char_time m1)) e2 m1
               = Ok false (set_escape_count 2 m1)).
  { unfold escape_check, bind, get, modify, ret. rewrite Ce1. reflexivity. }
  destruct (ProcessDataByte_after_check _ e2 m1 _ H2) as (m2 & R2 & C2 & _ & I2).
  { destruct m1; exact I1. }
  { destruct m1; simpl in *. congruence. }
  { destruct Hc2 as [d Hd]. exists d. destruct m1; simpl in *.
    rewrite Ct1. destruct m; exact Hd. }
  unfold control in C2.
  replace (current_mode (set_escape_count 2 m1)) with (current_mode m1) in C2
    by (destruct m1; reflexivity).
  replace (escape_count (set_escape_count 2 m1)) with 2 in C2
    by (destruct m1; reflexivity).
  injection C2 as Cm2 _ _ Ce2 _.
  (* third '+' *)
  set (m3 := set_last_char_time (HAL_GetTick e3)
               (set_escape_detected 1 (set_escape_count 3 m2))).
  assert (R3 : Module_Mode_ProcessDataByte ESCAPE_SEQ_CHAR e3 m2 = Ok tt m3).
  { unfold Module_Mode_ProcessDataByte, escape_check, bind, ask, get, modify,
      ret. rewrite Ce2. reflexivity. }
  set (m4 := set_escape_count 0 (set_escape_detected 0 m3)).
  exists m3, m4. simpl. rewrite R1, R2, R3.
  split; [reflexivity | ].
  split.
  { unfold m3. destruct m2; simpl in *. destruct m; simpl in *. congruence. }
  split; [unfold m3; destruct m2; reflexivity | ].
  split.
  { unfold Module_Mode_IsEscapeDetected, bind, ask, get, modify, ret.
    unfold m4, m3. destruct m2; simpl.
    apply Z.leb_le in Hg4. rewrite Hg4. reflexivity. }
  split.
  { unfold m4, m3. destruct m2; simpl in *. destruct m; simpl in *. congruence. }
  split; [unfold m4; destruct m3; reflexivity | ].
  intros e5. unfold m4. destruct m3; reflexivity.
Qed.

Lemma escape_sequence_detected_witness :
  tx_inv data_mode_idle
  /\ ESCAPE_GUARD_TIME_MS
     <= wrap32 (HAL_GetTick (one_device_env 1000 0) - last_char_time data_mode_idle)
  /\ exists m3 m4,
       run_calls [(one_device_env 1000 0, Call_ProcessDataByte ESCAPE_SEQ_CHAR);
                  (one_device_env 1001 0, Call_ProcessDataByte ESCAPE_SEQ_CHAR);
                  (one_device_env 1002 0, Call_ProcessDataByte ESCAPE_SEQ_CHAR)]
         data_mode_idle = Ok tt m3
       /\ Module_Mode_IsEscapeDetected (one_device_env 2002 0) m3 = Ok 1 m4.
Proof.
  assert (Hinv : tx_inv data_mode_idle).
  { unfold tx_inv, data_mode_idle, DATA_TX_BUFFER_SIZE. simpl.
    split; [lia | reflexivity]. }
  assert (Hg1 : ESCAPE_GUARD_TIME_MS
                <= wrap32 (HAL_GetTick (one_device_env 1000 0)
                           - last_char_time data_mode_idle)).
  { vm_compute. discriminate. }
  assert (Hg4 : ESCAPE_GUARD_TIME_MS
                <= wrap32 (HAL_GetTick (one_device_env 2002 0)
                           - HAL_GetTick (one_device_env 1002 0))).
  { vm_compute. discriminate. }
  split; [exact Hinv | ]. split; [exact Hg1 | ].
  destruct (escape_sequence_detected
              (one_device_env 1000 0) (one_device_env 1001 0)
              (one_device_env 1002 0) (one_device_env 2002 0) data_mode_idle
              Hinv eq_refl eq_refl
              (ex_intro _ some_device eq_refl) (ex_intro _ some_device eq_refl)
              Hg1 Hg4)
    as (m3 & m4 & Hrun & _ & _ & Hpoll & _).
  exists m3, m4. split; [exact Hrun | exact Hpoll].
Defined.


(** * Further properties of the line receiver *)

(** A printable byte that finds room is stored at the fill index. *)
Lemma ReceiveByte_stores (byte : Z) (s : ATState) :
  at_cmd_ready s = 0 -> printable_byte byte ->
  0 <= at_line_idx s < AT_CMD_MAX_LEN - 1 ->
  at_line_idx s = 0 \/ 0 <= at_rx_tick s < AT_RX_TIMEOUT_MS ->
  AT_Command_ReceiveByte byte s
  = (set_at_garbage_count 0
       (set_at_rx_tick 0
          (set_at_line_idx (at_line_idx s + 1)
             (set_at_line_buf
                (<[Z.to_nat (at_line_idx s) := char_of_byte byte]>
                   (at_line_buf s)) s))), false).
Proof.
  destruct s as [buf idx rdy g cb tick].
  unfold printable_byte, AT_CMD_MAX_LEN, AT_RX_TIMEOUT_MS, ASCII_SPACE,
    ASCII_TILDE. simpl.
  intros -> Hp Hidx Htick.
  unfold AT_Command_ReceiveByte, timeout_check. simpl.
  assert (Hto : (0 <? idx) && (AT_RX_TIMEOUT_MS <? wrap32 (tick + 1)) = false).
  { apply andb_false_iff. destruct Htick as [-> | Ht]; [left; reflexivity | ].
    right. apply Z.ltb_ge. unfold wrap32, AT_RX_TIMEOUT_MS.
    rewrite Z.mod_small by lia. lia. }
  rewrite Hto. unfold line_step. simpl.
  assert (Hterm : (byte =? ASCII_CR) || (byte =? ASCII_LF) = false).
  { apply orb_false_iff. unfold ASCII_CR, ASCII_LF. split; apply Z.eqb_neq; lia. }
  rewrite Hterm.
  assert (Hpr : (ASCII_SPACE <=? byte) && (byte <=? ASCII_TILDE) = true).
  { apply andb_true_iff. unfold ASCII_SPACE, ASCII_TILDE.
    split; apply Z.leb_le; lia. }
  rewrite Hpr.
  assert (Hroom : (idx <? AT_CMD_MAX_LEN - 1) = true).
  { apply Z.ltb_lt. unfold AT_CMD_MAX_LEN. lia. }
  rewrite Hroom. unfold wrap16. rewrite Z.mod_small by lia. reflexivity.
Qed.

Lemma feed_app (a b : list Z) (s : ATState) :
  feed (a ++ b) s
  = ((feed b (feed a s).1).1, ((feed a s).2 + (feed b (feed a s).1).2)%nat).
Proof.
  revert s. induction a as [ | byte a IH]; intros s; simpl.
  - destruct (feed b s); reflexivity.
  - destruct (AT_Command_ReceiveByte byte s) as [s1 raised].
    rewrite IH. destruct (feed a s1) as [s2 n]. simpl.
    destruct (feed b s2) as [s3 k]. simpl. f_equal. lia.
Qed.

(** A byte that is neither printable nor a terminator, in a run that stays
    within the limit: it is counted and nothing else changes. *)
Lemma ReceiveByte_counts (byte : Z) (s : ATState) :
  at_cmd_ready s = 0 ->
  is_printable_byte byte = false ->
  (byte =? ASCII_CR) || (byte =? ASCII_LF) = false ->
  0 <= at_garbage_count s -> at_garbage_count s + 1 <= AT_MAX_GARBAGE ->
  at_line_idx s = 0 \/ 0 <= at_rx_tick s <= at_garbage_count s ->
  AT_Command_ReceiveByte byte s
  = (set_at_garbage_count (at_garbage_count s + 1)
       (set_at_rx_tick (wrap32 (at_rx_tick s + 1)) s), false).
Proof.
  destruct s as [buf idx rdy g cb tick].
  unfold is_printable_byte, AT_MAX_GARBAGE. simpl.
  intros -> Hnp Hnt Hg0 Hg Htick.
  unfold AT_Command_ReceiveByte, timeout_check. simpl.
  assert (Hto : (0 <? idx) && (AT_RX_TIMEOUT_MS <? wrap32 (tick + 1)) = false).
  { apply andb_false_iff. destruct Htick as [-> | Ht]; [left; reflexivity | ].
    right. apply Z.ltb_ge. unfold wrap32, AT_RX_TIMEOUT_MS.
    rewrite Z.mod_small by lia. lia. }
  rewrite Hto. unfold line_step. simpl. rewrite Hnt, Hnp.
  unfold wrap16. rewrite Z.mod_small by lia.
  replace (AT_MAX_GARBAGE <? g + 1) with false
    by (symmetry; apply Z.ltb_ge; unfold AT_MAX_GARBAGE; lia).
  reflexivity.
Qed.

Lemma printable_part_printable (bytes : list Z) :
  Forall printable_byte (printable_part bytes).
Proof.
  apply List.Forall_forall. intros b Hb.
  apply List.filter_In in Hb as [_ Hb]. unfold is_printable_byte in Hb.
  apply andb_true_iff in Hb as [H1 H2]. apply Z.leb_le in H1, H2.
  split; assumption.
Qed.

(** Bytes with tolerable noise among them: the printable ones are stored
    one after the other, the others are dropped. *)
Lemma feed_noisy (bytes : list Z) (s : ATState) :
  at_cmd_ready s = 0 ->
  noise_ok (at_garbage_count s) bytes = true ->
  0 <= at_garbage_count s <= AT_MAX_GARBAGE ->
  length (at_line_buf s) = Z.to_nat AT_CMD_MAX_LEN ->
  0 <= at_line_idx s ->
  at_line_idx s + Z.of_nat (length (printable_part bytes))
  <= AT_CMD_MAX_LEN - 1 ->
  at_line_idx s = 0 \/ 0 <= at_rx_tick s <= at_garbage_count s ->
  exists s',
    feed bytes s = (s', 0%nat)
    /\ at_cmd_ready s' = 0
    /\ at_line_idx s'
       = at_line_idx s + Z.of_nat (length (printable_part bytes))
    /\ length (at_line_buf s') = Z.to_nat AT_CMD_MAX_LEN
    /\ take (Z.to_nat (at_line_idx s')) (at_line_buf s')
       = (take (Z.to_nat (at_line_idx s)) (at_line_buf s)
          ++ map char_of_byte (printable_part bytes))%list
    /\ at_cmd_buf s' = at_cmd_buf s
    /\ (at_line_idx s' = 0 \/ 0 <= at_rx_tick s' < AT_RX_TIMEOUT_MS).
Proof.
  revert s. induction bytes as [ | byte bytes IH];
    intros s Hr Hnoise Hg Hlen Hidx Hroom Htick.
  - exists s. simpl. rewrite Z.add_0_r, app_nil_r.
    repeat split; try assumption; try reflexivity.
    destruct Htick as [H0 | Ht]; [left; exact H0 | right].
    unfold AT_MAX_GARBAGE, AT_RX_TIMEOUT_MS in *. lia.
  - cbn [noise_ok] in Hnoise. unfold printable_part in *.
    cbn [List.filter] in *.
    destruct (is_printable_byte byte) eqn:Hp.
    + (* stored *)
      change (length (byte :: List.filter is_printable_byte bytes))
        with (S (length (List.filter is_printable_byte bytes))) in *.
      assert (Hb : printable_byte byte).
      { unfold is_printable_byte in Hp.
        apply andb_true_iff in Hp as [H1 H2]. apply Z.leb_le in H1, H2.
        split; assumption. }
      simpl feed. rewrite ReceiveByte_stores; [ | assumption | assumption | lia | ].
      2: { destruct Htick as [H0 | Ht]; [left; exact H0 | right].
           unfold AT_MAX_GARBAGE, AT_RX_TIMEOUT_MS in *. lia. }
      set (s1 := set_at_garbage_count 0 _).
      assert (H1 : at_cmd_ready s1 = 0 /\ at_line_idx s1 = at_line_idx s + 1
                   /\ at_line_buf s1
                      = <[Z.to_nat (at_line_idx s) := char_of_byte byte]>
                          (at_line_buf s)
                   /\ at_cmd_buf s1 = at_cmd_buf s /\ at_rx_tick s1 = 0
                   /\ at_garbage_count s1 = 0).
      { unfold s1. destruct s. simpl in *. tauto. }
      destruct H1 as (Hr1 & Hi1 & Hb1 & Hc1 & Ht1 & Hg1).
      destruct (IH s1) as (s' & Hfeed & Hr' & Hi' & Hl' & Hbuf' & Hc' & Ht').
      * exact Hr1.
      * rewrite Hg1. exact Hnoise.
      * rewrite Hg1. unfold AT_MAX_GARBAGE. lia.
      * rewrite Hb1, length_insert. exact Hlen.
      * lia.
      * lia.
      * right. rewrite Ht1, Hg1. lia.
      * exists s'. rewrite Hfeed. split; [reflexivity | ].
        split; [exact Hr' | ]. split; [lia | ]. split; [exact Hl' | ].
        split; [ | split; [congruence | exact Ht']].
        rewrite Hbuf', Hi1, Hb1.
        replace (Z.to_nat (at_line_idx s + 1))
          with (S (Z.to_nat (at_line_idx s))) by lia.
        rewrite (take_S_r _ _ (char_of_byte byte)).
        -- rewrite take_insert_ge by lia. rewrite <- app_assoc. reflexivity.
        -- apply list_lookup_insert_eq. unfold AT_CMD_MAX_LEN in *. lia.
    + (* dropped *)
      apply andb_true_iff in Hnoise as [Hnoise Hrest].
      apply andb_true_iff in Hnoise as [Hnt Hrun].
      apply negb_true_iff in Hnt. apply Z.leb_le in Hrun.
      simpl feed.
      rewrite ReceiveByte_counts; [ | assumption | assumption | assumption
                                   | lia | assumption | assumption].
      set (s1 := set_at_garbage_count (at_garbage_count s + 1) _).
      assert (H1 : at_cmd_ready s1 = 0 /\ at_line_idx s1 = at_line_idx s
                   /\ at_line_buf s1 = at_line_buf s
                   /\ at_cmd_buf s1 = at_cmd_buf s
                   /\ at_rx_tick s1 = wrap32 (at_rx_tick s + 1)
                   /\ at_garbage_count s1 = at_garbage_count s + 1).
      { unfold s1. destruct s. simpl in *. tauto. }
      destruct H1 as (Hr1 & Hi1 & Hb1 & Hc1 & Ht1 & Hg1).
      destruct (IH s1) as (s' & Hfeed & Hr' & Hi' & Hl' & Hbuf' & Hc' & Ht').
      * exact Hr1.
      * rewrite Hg1. exact Hrest.
      * rewrite Hg1. lia.
      * rewrite Hb1. exact Hlen.
      * lia.
      * lia.
      * destruct Htick as [H0 | Ht]; [left; lia | right].
        rewrite Ht1, Hg1. unfold wrap32, AT_MAX_GARBAGE in *.
        rewrite Z.mod_small by lia. lia.
      * exists s'. rewrite Hfeed. split; [reflexivity | ].
        split; [exact Hr' | ]. split; [lia | ]. split; [exact Hl' | ].
        split; [ | split; [congruence | exact Ht']].
        rewrite Hbuf', Hi1, Hb1. reflexivity.
Qed.

(** The C string of stored printable characters followed by a NUL. *)
Lemma cstring_of_chars (bytes : list Z) (rest : list ascii) :
  Forall printable_byte bytes ->
  cstring_of (map char_of_byte bytes ++ NUL :: rest)%list = chars_of bytes.
Proof.
  induction 1 as [ | byte bytes Hb _ IH]; [reflexivity | ].
  unfold chars_of in *. simpl.
  rewrite (printable_not_NUL _ (char_of_byte_printable _ Hb)).
  f_equal. exact IH.
Qed.

(** X9. What is typed is what is processed, noise apart.  When the
    receiver is idle and bytes arrive among which 2 to 127 are printable,
    with no more than 20 other bytes in a row, followed by a carriage
    return or a line feed: no call but the last raises the ready flag, and
    the next run of [AT_Command_ProcessReady] hands exactly the printable
    bytes, in order, to [AT_Command_Process] and leaves the receiver idle
    again. *)
Theorem typed_line_is_processed (bytes : list Z) (term : Z) (s : ATState) :
  rx_idle s ->
  0 <= at_garbage_count s <= AT_MAX_GARBAGE ->
  noise_ok (at_garbage_count s) bytes = true ->
  (2 <= length (printable_part bytes) <= 127)%nat ->
  term = ASCII_CR \/ term = ASCII_LF ->
  exists s1,
    feed (bytes ++ [term]) s = (s1, 1%nat)
    /\ (feed bytes s).2 = 0%nat
    /\ at_cmd_ready s1 = 1
    /\ AT_Command_ProcessReady s1
       = (AT_Command_Process (Some (chars_of (printable_part bytes)));;
          ret (drain s1))%M
    /\ rx_idle (drain s1).
Proof.
  intros (Hr & Hidx & Hlen) Hg Hnoise Hn Hterm.
  pose proof (printable_part_printable bytes) as Hall.
  destruct (feed_noisy bytes s Hr Hnoise Hg Hlen) as
    (s0 & Hfeed & Hr0 & Hi0 & Hl0 & Hbuf0 & Hc0 & Ht0).
  { lia. }
  { unfold AT_CMD_MAX_LEN. lia. }
  { left. exact Hidx. }
  set (line := printable_part bytes) in *. clearbody line.
  rewrite Hidx in Hi0, Hbuf0. rewrite Z.add_0_l in Hi0. simpl in Hbuf0.
  rewrite feed_app, Hfeed. simpl fst. simpl snd.
  (* the terminator *)
  assert (Hstep : AT_Command_ReceiveByte term s0
                  = (set_at_rx_tick 0
                       (set_at_garbage_count 0
                          (set_at_cmd_ready 1
                             (set_at_line_buf
                                (<[Z.to_nat (at_line_idx s0) := NUL]>
                                   (at_line_buf s0))
                                (set_at_rx_tick (wrap32 (at_rx_tick s0 + 1))
                                   s0)))), true)).
  { destruct s0 as [buf idx rdy g cb tick]. simpl in *. subst rdy idx.
    unfold AT_Command_ReceiveByte, timeout_check. simpl.
    assert (Hto : (0 <? Z.of_nat (length line))
                  && (AT_RX_TIMEOUT_MS <? wrap32 (tick + 1)) = false).
    { apply andb_false_iff. right. apply Z.ltb_ge.
      destruct Ht0 as [H0 | Ht]; [lia | ].
      unfold wrap32, AT_RX_TIMEOUT_MS in *. rewrite Z.mod_small by lia. lia. }
    rewrite Hto. unfold line_step. simpl.
    assert (Ht : (term =? ASCII_CR) || (term =? ASCII_LF) = true).
    { apply orb_true_iff. destruct Hterm as [-> | ->]; [left | right];
        reflexivity. }
    rewrite Ht.
    assert (H2 : (2 <=? Z.of_nat (length line)) = true)
      by (apply Z.leb_le; lia).
    rewrite H2. reflexivity. }
  simpl feed. rewrite Hstep.
  set (s1 := set_at_rx_tick 0 _).
  assert (H1 : at_cmd_ready s1 = 1 /\ at_line_idx s1 = Z.of_nat (length line)
               /\ at_line_buf s1
                  = <[length line := NUL]> (at_line_buf s0)).
  { unfold s1. destruct s0. simpl in *. subst. rewrite Nat2Z.id. tauto. }
  destruct H1 as (Hr1 & Hi1 & Hb1).
  exists s1. split; [reflexivity | ]. split; [reflexivity | ].
  split; [exact Hr1 | ]. clearbody s1.
  assert (Hcopy : cstring_of (at_cmd_buf (drain s1)) = chars_of line).
  { unfold drain. simpl. rewrite Hi1, Hb1.
    replace (Z.to_nat (Z.of_nat (length line) + 1))
      with (S (length line)) by lia.
    rewrite (take_S_r _ _ NUL).
    - rewrite take_insert_ge by lia.
      rewrite Hi0, Nat2Z.id in Hbuf0. rewrite Hbuf0. simpl.
      rewrite <- app_assoc. apply cstring_of_chars. exact Hall.
    - apply list_lookup_insert_eq. unfold AT_CMD_MAX_LEN in *. lia. }
  split.
  - unfold AT_Command_ProcessReady. rewrite Hr1.
    change (1 =? 0) with false. cbv beta iota zeta.
    rewrite Hcopy. reflexivity.
  - unfold rx_idle, drain. simpl. rewrite Hb1, length_insert. tauto.
Qed.

Lemma typed_line_is_processed_witness :
  rx_idle AT_Command_Init
  /\ exists s1,
       feed ([65; 7; 7; 84; 43; 76; 200; 73; 83; 84] ++ [ASCII_CR])
         AT_Command_Init
       = (s1, 1%nat)
       /\ AT_Command_ProcessReady s1
          = (AT_Command_Process (Some "AT+LIST");; ret (drain s1))%M.
Proof.
  assert (Hidle : rx_idle AT_Command_Init).
  { unfold rx_idle. simpl. repeat split; reflexivity. }
  assert (Hg : 0 <= at_garbage_count AT_Command_Init <= AT_MAX_GARBAGE).
  { vm_compute. split; discriminate. }
  assert (Hn : (2 <= length (printable_part
                               [65; 7; 7; 84; 43; 76; 200; 73; 83; 84]%Z)
                <= 127)%nat).
  { vm_compute. lia. }
  split; [exact Hidle | ].
  destruct (typed_line_is_processed [65; 7; 7; 84; 43; 76; 200; 73; 83; 84]
              ASCII_CR AT_Command_Init Hidle Hg eq_refl Hn
              (or_introl eq_refl))
    as (s1 & Hfeed & _ & _ & Hproc & _).
  exists s1. split; [exact Hfeed | exact Hproc].
Defined.


(** One garbage byte: the line is dropped, or the garbage count goes up by
    one and the line stays. *)
Lemma ReceiveByte_garbage (byte : Z) (s : ATState) :
  at_cmd_ready s = 0 -> garbage_byte byte ->
  0 <= at_garbage_count s <= AT_MAX_GARBAGE ->
  let s' := (AT_Command_ReceiveByte byte s).1 in
  (AT_Command_ReceiveByte byte s).2 = false
  /\ at_cmd_ready s' = 0
  /\ 0 <= at_garbage_count s' <= AT_MAX_GARBAGE
  /\ (at_line_idx s' = 0
      \/ at_garbage_count s' = at_garbage_count s + 1
         /\ at_line_idx s' = at_line_idx s)
  /\ (at_line_idx s = 0 -> at_line_idx s' = 0).
Proof.
  destruct s as [buf idx rdy g cb tick].
  unfold garbage_byte, printable_byte, AT_MAX_GARBAGE, ASCII_SPACE,
    ASCII_TILDE, ASCII_CR, ASCII_LF. simpl.
  intros -> (Hnp & Hcr & Hlf) Hg.
  unfold AT_Command_ReceiveByte, timeout_check, line_step. simpl.
  assert (Hterm : (byte =? ASCII_CR) || (byte =? ASCII_LF) = false).
  { apply orb_false_iff. unfold ASCII_CR, ASCII_LF.
    split; apply Z.eqb_neq; assumption. }
  assert (Hpr : (ASCII_SPACE <=? byte) && (byte <=? ASCII_TILDE) = false).
  { unfold ASCII_SPACE, ASCII_TILDE. apply andb_false_iff.
    destruct (Z.leb_spec 32 byte); [ | left; reflexivity].
    right. apply Z.leb_gt. lia. }
  destruct ((0 <? idx) && (AT_RX_TIMEOUT_MS <? wrap32 (tick + 1))); simpl;
    rewrite Hterm, Hpr; simpl.
  - change (AT_MAX_GARBAGE <? wrap16 (0 + 1)) with false. simpl.
    change (wrap16 (0 + 1)) with 1. repeat split; lia.
  - unfold wrap16. rewrite Z.mod_small by lia. unfold AT_MAX_GARBAGE.
    destruct (Z.ltb_spec 20 (g + 1)); simpl; repeat split; lia.
Qed.

Lemma feed_garbage (bytes : list Z) (s : ATState) :
  at_cmd_ready s = 0 -> Forall garbage_byte bytes ->
  0 <= at_garbage_count s <= AT_MAX_GARBAGE ->
  let s' := (feed bytes s).1 in
  (feed bytes s).2 = 0%nat
  /\ at_cmd_ready s' = 0
  /\ 0 <= at_garbage_count s' <= AT_MAX_GARBAGE
  /\ (at_line_idx s' = 0
      \/ at_garbage_count s' = at_garbage_count s + Z.of_nat (length bytes)
         /\ at_line_idx s' = at_line_idx s)
  /\ (at_line_idx s = 0 -> at_line_idx s' = 0).
Proof.
  revert s. induction bytes as [ | byte bytes IH]; intros s Hr Hall Hg.
  - simpl. repeat split; try lia; assumption.
  - apply Forall_cons in Hall as [Hb Hall].
    destruct (ReceiveByte_garbage byte s Hr Hb Hg)
      as (Hn1 & Hr1 & Hg1 & Hcase1 & Hz1).
    simpl feed. destruct (AT_Command_ReceiveByte byte s) as [s1 raised].
    simpl in Hn1, Hr1, Hg1, Hcase1, Hz1. subst raised.
    destruct (IH s1 Hr1 Hall Hg1) as (Hn2 & Hr2 & Hg2 & Hcase2 & Hz2).
    destruct (feed bytes s1) as [s2 n]. simpl in *. subst n.
    split; [reflexivity | ]. split; [exact Hr2 | ]. split; [exact Hg2 | ].
    split.
    + destruct Hcase1 as [H0 | [Hc Hi]]; [left; auto | ].
      destruct Hcase2 as [H0 | [Hc2 Hi2]]; [left; exact H0 | ].
      right. split; [lia | congruence].
    + auto.
Qed.

(** X10. Noise discards a started line: while no line is waiting, 21 or
    more bytes in a row that are neither printable nor a line terminator
    leave the fill index at 0, whatever had been typed before them; none
    of these bytes raises the ready flag. *)
Theorem garbage_discards_line (bytes : list Z) (s : ATState) :
  at_cmd_ready s = 0 ->
  0 <= at_garbage_count s <= AT_MAX_GARBAGE ->
  Forall garbage_byte bytes ->
  (Z.to_nat AT_MAX_GARBAGE < length bytes)%nat ->
  at_line_idx (feed bytes s).1 = 0
  /\ at_cmd_ready (feed bytes s).1 = 0
  /\ (feed bytes s).2 = 0%nat.
Proof.
  intros Hr Hg Hall Hlen.
  destruct (feed_garbage bytes s Hr Hall Hg) as (Hn & Hr' & Hg' & Hcase & _).
  split; [ | split; assumption].
  destruct Hcase as [H0 | [Hc _]]; [exact H0 | ].
  unfold AT_MAX_GARBAGE in *. lia.
Qed.

Lemma garbage_discards_line_witness :
  at_line_idx (feed [65; 84] AT_Command_Init).1 = 2
  /\ at_line_idx
       (feed (replicate 21 7) (feed [65; 84] AT_Command_Init).1).1 = 0.
Proof.
  split; [reflexivity | ].
  refine (proj1 (garbage_discards_line (replicate 21 7)
                   (feed [65; 84] AT_Command_Init).1 eq_refl _ _ _)).
  - vm_compute. split; discriminate.
  - repeat constructor;
      unfold printable_byte, ASCII_SPACE, ASCII_TILDE, ASCII_CR, ASCII_LF; lia.
  - vm_compute. lia.
Defined.


(** * Further properties of the dispatcher *)

Lemma prefix_trans (a b c : string) :
  String.prefix a b = true -> String.prefix b c = true ->
  String.prefix a c = true.
Proof.
  revert b c. induction a as [ | x a IH]; intros b c Hab Hbc;
    [destruct c; reflexivity | ].
  destruct b as [ | y b]; [discriminate Hab | ].
  destruct c as [ | z c]; [discriminate Hbc | ].
  simpl in *.
  destruct (ascii_dec x y) as [-> | ]; [ | discriminate Hab].
  destruct (ascii_dec y z) as [-> | ]; [ | discriminate Hbc].
  eapply IH; eassumption.
Qed.

(** A command that does not begin with ["AT"] in upper case matches none
    of the literals the dispatcher compares with. *)
Lemma strcmp_needs_AT (cmd lit : string) :
  String.prefix "AT" cmd = false -> String.prefix "AT" lit = true ->
  strcmp_eq cmd lit = false.
Proof.
  intros Hcmd Hlit. unfold strcmp_eq.
  destruct (String.eqb cmd lit) eqn:Heq; [ | reflexivity].
  apply String.eqb_eq in Heq. subst. congruence.
Qed.

Lemma strncmp_needs_AT (cmd lit : string) :
  String.prefix "AT" cmd = false -> String.prefix "AT" lit = true ->
  strncmp_eq cmd lit = false.
Proof.
  intros Hcmd Hlit. unfold strncmp_eq.
  destruct (String.prefix lit cmd) eqn:Hpre; [ | reflexivity].
  rewrite (prefix_trans _ _ _ Hlit Hpre) in Hcmd. discriminate.
Qed.

Lemma dispatch_needs_AT (cmd : string) (e : Env) (m : Machine) :
  String.prefix "AT" cmd = false -> dispatch cmd e m = Ok tt m.
Proof.
  intros H. unfold dispatch, bind, ask.
  repeat match goal with
         | |- context [strcmp_eq cmd ?lit] =>
             rewrite (strcmp_needs_AT cmd lit H eq_refl)
         | |- context [strncmp_eq cmd ?lit] =>
             rewrite (strncmp_needs_AT cmd lit H eq_refl)
         end.
  reflexivity.
Qed.

(** X11. The check that a line starts with AT accepts either case, but the
    commands are compared in upper case only: a line that, once trimmed,
    does not begin with the two upper-case letters AT gets no answer and
    has no effect, whether it is noise or a command typed in lower
    case. *)
Theorem line_without_upper_case_AT_is_ignored
    (line : string) (e : Env) (m : Machine) :
  String.prefix "AT" (trimmed line) = false ->
  AT_Command_Process (Some line) e m = Ok tt m.
Proof.
  intros H. unfold AT_Command_Process.
  destruct line as [ | c line]; [reflexivity | ].
  destruct (_ <? _)%nat; [reflexivity | ].
  destruct (negb _); [reflexivity | ].
  apply dispatch_needs_AT. exact H.
Qed.

Lemma line_without_upper_case_AT_is_ignored_witness :
  has_AT_prefix (trimmed "at+scan=1000") = true
  /\ AT_Command_Process (Some "at+scan=1000") (quiet_env 0) power_on
     = Ok tt power_on.
Proof.
  split; [reflexivity | ].
  apply line_without_upper_case_AT_is_ignored. reflexivity.
Defined.


Lemma talks_ret {A} (a : A) : only_talks (ret a).
Proof.
  intros e m. exists a, []. unfold ret. rewrite app_nil_r.
  destruct m; reflexivity.
Qed.

Lemma talks_bind {A B} (c : M A) (k : A -> M B) :
  only_talks c -> (forall a, only_talks (k a)) -> only_talks (bind c k).
Proof.
  intros Hc Hk e m. destruct (Hc e m) as (a & evs1 & H1).
  destruct (Hk a e (set_trace (trace m ++ evs1) m)) as (b & evs2 & H2).
  exists b, (evs1 ++ evs2)%list. unfold bind. rewrite H1, H2.
  rewrite app_assoc. destruct m; reflexivity.
Qed.

Lemma talks_ask_bind {B} (k : Env -> M B) :
  (forall e, only_talks (k e)) -> only_talks (bind ask k).
Proof. intros Hk e m. exact (Hk e e m). Qed.

Lemma talks_emit (ev : Event) : only_talks (emit ev).
Proof. intros e m. exists tt, [ev]. reflexivity. Qed.

Lemma talks_send (text : string) : only_talks (AT_Response_Send text).
Proof. apply talks_emit. Qed.

Lemma talks_call {A} (c : M A) : only_talks c -> only_talks (call c).
Proof. intros H. apply talks_bind; [exact H | intros ?; apply talks_ret]. Qed.

(** Walks through a computation made of sends, events and branches. *)
Ltac talk_step :=
  match goal with
  | |- only_talks (ret _) => apply talks_ret
  | |- only_talks (emit _) => apply talks_emit
  | |- only_talks (AT_Response_Send _) => apply talks_send
  | |- only_talks (call _) => apply talks_call
  | |- only_talks (bind ask _) => apply talks_ask_bind; intros ?
  | |- only_talks (bind _ _) => apply talks_bind; [ | intros ?]
  | |- only_talks (match ?x with _ => _ end) => destruct x
  end.

Ltac talk := repeat first [talk_step | progress cbv beta iota zeta].

Lemma talks_LIST_loop (n : nat) (i count : Z) :
  only_talks (AT_LIST_loop n i count).
Proof.
  revert i. induction n as [ | n IH]; intros i; simpl; [apply talks_ret | ].
  destruct (i <? count); [ | apply talks_ret].
  apply talks_ask_bind. intros e. apply talks_bind; [ | intros ?; apply IH].
  destruct (BLE_DeviceManager_GetDevice e i); talk.
Qed.

Lemma talks_LIST : only_talks AT_LIST_Handler.
Proof.
  unfold AT_LIST_Handler. apply talks_ask_bind. intros e.
  apply talks_bind; [apply talks_send | intros ?].
  apply talks_bind; [apply talks_LIST_loop | intros ?]. talk.
Qed.

Lemma talks_CONNECT (mac_str : option string) :
  only_talks (AT_CONNECT_Handler mac_str).
Proof. unfold AT_CONNECT_Handler. talk. Qed.

Lemma talks_READ (dev_idx char_handle : Z) :
  only_talks (AT_READ_Handler dev_idx char_handle).
Proof. unfold AT_READ_Handler. talk. Qed.

Lemma talks_WRITE (dev_idx char_handle : Z) (data : option string) :
  only_talks (AT_WRITE_Handler dev_idx char_handle data).
Proof. unfold AT_WRITE_Handler. talk. Qed.

Lemma dispatch_only_talks (cmd : string) :
  strcmp_eq cmd "AT+CMDMODE" = false ->
  strncmp_eq cmd "AT+DATAMODE=" = false ->
  restarts cmd = false ->
  only_talks (dispatch cmd).
Proof.
  intros Hcmd Hdata Hre. apply orb_false_iff in Hre as [Hreset Hfactory].
  unfold dispatch. rewrite Hcmd, Hdata, Hreset, Hfactory.
  repeat first
    [ talk_step
    | apply talks_LIST | apply talks_CONNECT | apply talks_READ
    | apply talks_WRITE
    | progress cbv beta iota zeta ].
Qed.

(** A line that is not one of the restart commands and not one of the
    mode commands is processed by sends and recorded calls only. *)
Lemma Process_only_talks (line : string) :
  strcmp_eq (trimmed line) "AT+CMDMODE" = false ->
  strncmp_eq (trimmed line) "AT+DATAMODE=" = false ->
  restarts (trimmed line) = false ->
  only_talks (AT_Command_Process (Some line)).
Proof.
  intros Hcmd Hdata Hre. unfold AT_Command_Process.
  destruct line as [ | c line]; [apply talks_ret | ].
  destruct (_ <? _)%nat; [apply talks_ret | ].
  destruct (negb _); [apply talks_ret | ].
  apply dispatch_only_talks; assumption.
Qed.

(** The restart commands: the handler is called and control never comes
    back to the dispatcher. *)
Lemma Process_restarts (line : string) (e : Env) (m : Machine) :
  restarts (trimmed line) = true ->
  AT_Command_Process (Some line) e m
  = NoReturn
      (says m [Call (if strcmp_eq (trimmed line) "AT+RESET"
                     then AT_RESET_Handler else AT_FACTORY_Handler)]).
Proof.
  intros Hre. apply orb_true_iff in Hre as [H | H];
    apply String.eqb_eq in H.
  - rewrite (Process_dispatch line "+RESET") by (rewrite H; reflexivity).
    rewrite H. reflexivity.
  - rewrite (Process_dispatch line "+FACTORY") by (rewrite H; reflexivity).
    rewrite H. reflexivity.
Qed.

(** X12. Only the two mode commands reach the data tunnel: processing any
    other line leaves the mode, the target, the transmit buffer and the
    escape detection exactly as they were; all it does is add events to
    the trace.  It returns, unless the command is [AT+RESET] or
    [AT+FACTORY]: then the handler is called, the firmware restarts and
    the call never returns. *)
Theorem commands_leave_the_tunnel_alone (line : string) (e : Env)
    (m : Machine) :
  strcmp_eq (trimmed line) "AT+CMDMODE" = false ->
  strncmp_eq (trimmed line) "AT+DATAMODE=" = false ->
  exists evs,
    AT_Command_Process (Some line) e m
    = (if restarts (trimmed line) then NoReturn (says m evs)
       else Ok tt (says m evs))
    /\ (restarts (trimmed line) = true ->
        evs = [Call (if strcmp_eq (trimmed line) "AT+RESET"
                     then AT_RESET_Handler else AT_FACTORY_Handler)]).
Proof.
  intros Hcmd Hdata. destruct (restarts (trimmed line)) eqn:Hre.
  - eexists. split; [apply (Process_restarts line e m Hre) | reflexivity].
  - destruct (Process_only_talks line Hcmd Hdata Hre e m) as ([] & evs & H).
    exists evs. split; [exact H | discriminate].
Qed.

Lemma commands_leave_the_tunnel_alone_witness :
  (exists evs,
     AT_Command_Process (Some "AT+WRITE=0,18,48656C6C6F")
       (one_device_env 0 0) data_mode_one_byte
     = Ok tt (says data_mode_one_byte evs))
  /\ AT_Command_Process (Some "AT+RESET") (one_device_env 0 0)
       data_mode_one_byte
     = NoReturn (says data_mode_one_byte [Call AT_RESET_Handler]).
Proof.
  split.
  - destruct (commands_leave_the_tunnel_alone "AT+WRITE=0,18,48656C6C6F"
                (one_device_env 0 0) data_mode_one_byte eq_refl eq_refl)
      as (evs & H & _).
    exists evs. exact H.
  - destruct (commands_leave_the_tunnel_alone "AT+RESET"
                (one_device_env 0 0) data_mode_one_byte eq_refl eq_refl)
      as (evs & H & Hevs).
    rewrite (Hevs eq_refl) in H. exact H.
Defined.


Lemma only_talks_inv {A} (c : M A) (e : Env) (m : Machine) :
  only_talks c -> tx_inv m -> exists a m', c e m = Ok a m' /\ tx_inv m'.
Proof.
  intros Hc Hinv. destruct (Hc e m) as (a & evs & Hrun).
  exists a, (set_trace (trace m ++ evs) m). split; [exact Hrun | ].
  destruct m; exact Hinv.
Qed.

(** X13. Processing a command line returns, whatever the line and
    whatever the collaborators answer, with two exceptions: after
    [AT+RESET] and [AT+FACTORY] the firmware restarts and the call never
    returns.  Either way the transmit buffer of the data tunnel stays
    inside its bounds. *)
Theorem AT_Command_Process_returns_unless_reset (line : option string)
    (e : Env) (m : Machine) :
  tx_inv m ->
  exists m',
    tx_inv m'
    /\ AT_Command_Process line e m
       = (if match line with
             | Some l => restarts (trimmed l)
             | None => false
             end
          then NoReturn m' else Ok tt m').
Proof.
  intros Hinv. destruct line as [line | ];
    [ | exists m; split; [exact Hinv | reflexivity] ].
  destruct (restarts (trimmed line)) eqn:Hre.
  { eexists. split; [ | apply (Process_restarts line e m Hre)].
    destruct m; exact Hinv. }
  destruct (strcmp_eq (trimmed line) "AT+CMDMODE") eqn:Hc.
  { apply String.eqb_eq in Hc.
    rewrite (Process_dispatch line "+CMDMODE") by (rewrite Hc; reflexivity).
    rewrite Hc, dispatch_CMDMODE.
    destruct (EnterCommand_inv e m Hinv) as (r & m1 & Hrun & Hinv1).
    unfold call, AT_CMDMODE_Handler, bind, ask. rewrite Hrun.
    destruct (r =? 0); unfold AT_Response_Send, emit, modify, ret;
      eexists; (split; [ | reflexivity]); destruct m1; exact Hinv1. }
  destruct (strncmp_eq (trimmed line) "AT+DATAMODE=") eqn:Hd.
  { unfold strncmp_eq in Hd.
    rewrite (Process_dispatch line "+DATAMODE=") by exact Hd.
    rewrite (prefix_app _ _ Hd), dispatch_DATAMODE. cbv zeta.
    assert (Hsend : forall text,
              exists m', tx_inv m' /\ AT_Response_Send text e m = Ok tt m').
    { intros text. eexists. split; [ | reflexivity]. destruct m; exact Hinv. }
    destruct (_ && _); [ | apply Hsend].
    destruct (0 <? _); [ | apply Hsend].
    destruct (EnterData_inv (ParseUInt8 (Some (str_drop 12 (trimmed line))))
                (ParseUInt16
                   (SkipToComma (Some (str_drop 12 (trimmed line)))))
                e m Hinv) as (r & m1 & Hrun & Hinv1).
    unfold call, AT_DATAMODE_Handler, bind. simpl String.length. rewrite Hrun.
    destruct (r =? 0); unfold AT_Response_Send, emit, modify, ret;
      eexists; (split; [ | reflexivity]); destruct m1; exact Hinv1. }
  destruct (only_talks_inv (AT_Command_Process (Some line)) e m
              (Process_only_talks line Hc Hd Hre) Hinv)
    as ([] & m' & Hrun & Hinv').
  exists m'. split; assumption.
Qed.

Lemma AT_Command_Process_returns_unless_reset_witness :
  tx_inv data_mode_one_byte
  /\ (exists m',
        tx_inv m'
        /\ AT_Command_Process (Some "AT+CMDMODE") (quiet_env 0)
             data_mode_one_byte = Ok tt m')
  /\ (exists m',
        tx_inv m'
        /\ AT_Command_Process (Some "AT+FACTORY") (quiet_env 0)
             data_mode_one_byte = NoReturn m').
Proof.
  assert (Hinv : tx_inv data_mode_one_byte).
  { unfold tx_inv, data_mode_one_byte, DATA_TX_BUFFER_SIZE. simpl.
    split; [lia | reflexivity]. }
  split; [exact Hinv | ]. split.
  - exact (AT_Command_Process_returns_unless_reset (Some "AT+CMDMODE")
             (quiet_env 0) data_mode_one_byte Hinv).
  - exact (AT_Command_Process_returns_unless_reset (Some "AT+FACTORY")
             (quiet_env 0) data_mode_one_byte Hinv).
Defined.


(** ** Commands with decimal fields *)

Lemma str_app_nil (s : string) : s ++ "" = s.
Proof. induction s as [ | c s IH]; simpl; [reflexivity | f_equal; exact IH]. Qed.

Lemma str_app_assoc (a b c : string) : (a ++ b) ++ c = a ++ b ++ c.
Proof. induction a as [ | x a IH]; simpl; [reflexivity | f_equal; exact IH]. Qed.

Lemma prefix_app_refl (p s : string) : String.prefix p (p ++ s) = true.
Proof.
  induction p as [ | c p IH]; simpl; [destruct s; reflexivity | ].
  destruct (ascii_dec c c); [exact IH | congruence].
Qed.

Lemma SkipToComma_digits (digits rest : string) :
  all_digits digits = true ->
  SkipToComma (Some (digits ++ "," ++ rest)) = Some rest.
Proof.
  intros H. induction digits as [ | c digits IH]; simpl in *; [reflexivity | ].
  apply andb_true_iff in H as [Hc H].
  replace (Ascii.eqb c ","%char) with false; [exact (IH H) | ].
  symmetry. apply Ascii.eqb_neq. intros ->. discriminate Hc.
Qed.

Lemma ParseUInt8_field (digits rest : string) :
  is_field digits -> no_leading_digit rest = true ->
  field_value digits <= 255 ->
  ParseUInt8 (Some (digits ++ rest)) = field_value digits.
Proof.
  intros [Hne Hd] Hrest Hfit. destruct digits as [ | c digits]; [congruence | ].
  apply (ParseUInt8_loop_value (String c digits) rest 0 Hd Hrest);
    [lia | exact Hfit].
Qed.

Lemma ParseUInt8_field_overflow (digits rest : string) :
  is_field digits -> no_leading_digit rest = true ->
  255 <= field_value digits ->
  ParseUInt8 (Some (digits ++ rest)) = 255.
Proof.
  intros Hf Hrest Hover.
  destruct (Z.eq_dec (field_value digits) 255) as [Heq | Hneq].
  - transitivity (field_value digits); [ | exact Heq].
    apply ParseUInt8_field; [assumption | assumption | lia].
  - destruct Hf as [Hne Hd].
    destruct digits as [ | c digits]; [congruence | ].
    apply (ParseUInt8_loop_overflow (String c digits) rest 0 Hd); [lia | ].
    unfold field_value in *. lia.
Qed.

Lemma ParseUInt16_field (digits rest : string) :
  is_field digits -> no_leading_digit rest = true ->
  field_value digits <= 65535 ->
  ParseUInt16 (Some (digits ++ rest)) = field_value digits.
Proof.
  intros [Hne Hd] Hrest Hfit. destruct digits as [ | c digits]; [congruence | ].
  apply (ParseUInt16_loop_value (String c digits) rest 0 Hd Hrest);
    [lia | exact Hfit].
Qed.

Lemma ParseUInt16_last_field (digits : string) :
  is_field digits -> field_value digits <= 65535 ->
  ParseUInt16 (Some digits) = field_value digits.
Proof.
  intros Hf Hfit. rewrite <- (str_app_nil digits) at 1.
  apply ParseUInt16_field; [assumption | reflexivity | assumption].
Qed.

(** X14. [AT+READ=<index>,<handle>] with decimal fields, an index below
    255 and a handle in 1..65535: when the device at that index is
    connected, a read of that handle is asked of its connection and the
    answer is [OK] or [ERROR] as the request is accepted or not; when it
    is not connected, the answer is [+ERROR:NOT_CONNECTED] and no read is
    asked.  An index of 255 or more gets [ERROR].  Nothing else
    happens. *)
Theorem AT_READ_command (line idx hdl : string) (e : Env) (m : Machine) :
  trimmed line = "AT+READ=" ++ idx ++ "," ++ hdl ->
  is_field idx -> is_field hdl -> 0 < field_value hdl <= 65535 ->
  (field_value idx < 255 ->
   AT_Command_Process (Some line) e m
   = Ok tt
       (says m
          match connected (BLE_DeviceManager_GetDevice e (field_value idx)) with
          | None => [UART_Tx ("+ERROR:NOT_CONNECTED" ++ CRLF)]
          | Some dev =>
              [GATT_Read (conn_handle dev) (field_value hdl);
               UART_Tx
                 (if BLE_GATT_ReadCharacteristic e (conn_handle dev)
                       (field_value hdl) =? 0
                  then OK_line else ERROR_line)]
          end))
  /\ (255 <= field_value idx ->
      AT_Command_Process (Some line) e m = Ok tt (says m [UART_Tx ERROR_line])).
Proof.
  intros Ht Hidx Hhdl Hv.
  assert (Hrun : AT_Command_Process (Some line) e m
                 = dispatch ("AT+READ=" ++ idx ++ "," ++ hdl) e m).
  { rewrite (Process_dispatch line "+READ=");
      [rewrite Ht; reflexivity | ].
    rewrite Ht. apply (prefix_app_refl "AT+READ="). }
  rewrite Hrun, dispatch_READ. cbv zeta.
  rewrite (SkipToComma_digits idx hdl (proj2 Hidx)).
  rewrite (ParseUInt16_last_field hdl Hhdl) by lia.
  split.
  - intros Hi.
    rewrite (ParseUInt8_field idx ("," ++ hdl) Hidx eq_refl) by lia.
    replace (field_value idx =? 255) with false
      by (symmetry; apply Z.eqb_neq; lia).
    replace (0 <? field_value hdl) with true
      by (symmetry; apply Z.ltb_lt; lia).
    change (not_null (Some hdl) && negb false) with true. cbv iota.
    unfold call, AT_READ_Handler, bind, ask.
    destruct (connected _) as [dev | ]; [ | reflexivity].
    unfold emit, modify. cbv beta iota.
    destruct (BLE_GATT_ReadCharacteristic _ _ _ =? 0); simpl;
      unfold says; rewrite <- app_assoc; destruct m; reflexivity.
  - intros Hi.
    rewrite (ParseUInt8_field_overflow idx ("," ++ hdl) Hidx eq_refl Hi).
    reflexivity.
Qed.

Lemma AT_READ_command_witness :
  AT_Command_Process (Some ("AT+READ=0,18" ++ CRLF)) (one_device_env 0 0)
    power_on
  = Ok tt (says power_on [GATT_Read 7 18; UART_Tx OK_line]).
Proof.
  assert (H0 : is_field "0") by (split; [discriminate | reflexivity]).
  assert (H18 : is_field "18") by (split; [discriminate | reflexivity]).
  assert (Hv : 0 < field_value "18" <= 65535) by (vm_compute; split; congruence).
  assert (Hi : field_value "0" < 255) by reflexivity.
  exact (proj1 (AT_READ_command ("AT+READ=0,18" ++ CRLF) "0" "18"
                  (one_device_env 0 0) power_on eq_refl H0 H18 Hv) Hi).
Defined.


(** [AT_WRITE_Handler] on a connected device and a well-formed hex
    payload: the decoded bytes are written and the status answered. *)
Lemma str_take_length (n : nat) (s : string) :
  String.length (str_take n s) = Nat.min n (String.length s).
Proof.
  revert s. induction n as [ | n IH]; intros [ | c s]; simpl; try reflexivity.
  rewrite IH. reflexivity.
Qed.

Lemma str_length_app (s t : string) :
  String.length (s ++ t) = (String.length s + String.length t)%nat.
Proof. induction s as [ | c s IH]; simpl; [reflexivity | rewrite IH; reflexivity]. Qed.

(** The local copy of [AT_Command_Process] holds at most 127 characters. *)
Lemma trimmed_length (line : string) : (String.length (trimmed line) <= 127)%nat.
Proof.
  unfold trimmed. change (Z.to_nat (AT_CMD_MAX_LEN - 1)) with 127%nat.
  rewrite !str_take_length. lia.
Qed.

Lemma AT_WRITE_Handler_hex (dev_idx char_handle : Z) (data : string)
    (e : Env) (m : Machine) (dev : BLE_Device_t) :
  connected (BLE_DeviceManager_GetDevice e dev_idx) = Some dev ->
  all_hex data = true -> Nat.even (String.length data) = true ->
  (2 <= String.length data <= 128)%nat ->
  let status :=
    BLE_GATT_WriteCharacteristic e (conn_handle dev) char_handle
      (hex_decode data) in
  AT_WRITE_Handler dev_idx char_handle (Some data) e m
  = Ok (if status =? 0 then 0 else -1)
      (says m [GATT_Write (conn_handle dev) char_handle (hex_decode data);
               UART_Tx (if status =? 0 then OK_line else ERROR_line)]).
Proof.
  intros Hconn Hhex Heven Hlen status.
  assert (Hdl : length (hex_decode data) = Nat.div2 (String.length data))
    by apply hex_decode_length.
  assert (Hhalf : (1 <= Nat.div2 (String.length data) <= 64)%nat).
  { destruct (proj1 (Nat.even_spec _) Heven) as [k Hk]. rewrite Hk in *.
    rewrite Nat.div2_double. lia. }
  unfold AT_WRITE_Handler, bind, ask. rewrite Hconn.
  destruct data as [ | c0 rest]; [simpl in Hlen; lia | ].
  cbv iota. set (data := String c0 rest) in *. clearbody data.
  rewrite (ParseHexString_ok data).
  - cbv zeta.
    replace (Z.of_nat (length (hex_decode data)) <=? 0) with false
      by (symmetry; apply Z.leb_gt; lia).
    unfold wrap16. rewrite Z.mod_small by lia. rewrite Nat2Z.id.
    change (default (replicate (Z.to_nat AT_WRITE_MAX_DATA_LEN) 0)
              (Some (hex_decode data
                     ++ drop (length (hex_decode data))
                          (replicate (Z.to_nat AT_WRITE_MAX_DATA_LEN) 0))%list))
      with (hex_decode data
            ++ drop (length (hex_decode data))
                 (replicate (Z.to_nat AT_WRITE_MAX_DATA_LEN) 0))%list.
    rewrite !take_app_length.
    fold status. unfold emit, modify. cbv beta iota.
    destruct (status =? 0); simpl; unfold says; rewrite <- app_assoc;
      destruct m; reflexivity.
  - unfold AT_WRITE_MAX_DATA_LEN. lia.
  - rewrite length_replicate. lia.
  - exact Hhex.
  - exact Heven.
  - rewrite half_length. unfold AT_WRITE_MAX_DATA_LEN. lia.
Qed.

(** X15. [AT+WRITE=<index>,<handle>,<hex>] with decimal fields, an index
    below 255, a handle in 1..65535 and a non-empty payload written as
    pairs of hex digits.  The line is cut to 127 characters before it is
    parsed, so the payload has at most 114 digits: 1 to 57 bytes, and the
    64 bytes of the handler's buffer are never filled.  When the device
    at that index is connected, the bytes the digits denote are written to
    that handle on its connection, in one request, and the answer is [OK]
    or [ERROR] as the request is accepted or not; when it is not connected
    the answer is [+ERROR:NOT_CONNECTED] and nothing is written. *)
Theorem AT_WRITE_command (line idx hdl data : string) (e : Env)
    (m : Machine) :
  trimmed line = "AT+WRITE=" ++ idx ++ "," ++ hdl ++ "," ++ data ->
  is_field idx -> field_value idx < 255 ->
  is_field hdl -> 0 < field_value hdl <= 65535 ->
  all_hex data = true -> Nat.even (String.length data) = true ->
  data <> EmptyString ->
  (1 <= length (hex_decode data) <= 57)%nat
  /\ AT_Command_Process (Some line) e m
     = Ok tt
         (says m
            match
              connected (BLE_DeviceManager_GetDevice e (field_value idx))
            with
            | None => [UART_Tx ("+ERROR:NOT_CONNECTED" ++ CRLF)]
            | Some dev =>
                [GATT_Write (conn_handle dev) (field_value hdl)
                   (hex_decode data);
                 UART_Tx
                   (if BLE_GATT_WriteCharacteristic e (conn_handle dev)
                         (field_value hdl) (hex_decode data) =? 0
                    then OK_line else ERROR_line)]
            end).
Proof.
  intros Ht Hidx Hi Hhdl Hv Hhex Heven Hne.
  assert (Hlen : (2 <= String.length data <= 114)%nat).
  { pose proof (trimmed_length line) as Hl. rewrite Ht in Hl.
    rewrite !str_length_app in Hl. cbn [String.length] in Hl.
    destruct Hidx as [Hi0 _]. destruct Hhdl as [Hh0 _].
    destruct idx as [ | ci idx]; [contradiction | ].
    destruct hdl as [ | ch hdl]; [contradiction | ].
    destruct data as [ | c0 [ | c1 data]];
      [contradiction | discriminate Heven | ].
    cbn [String.length] in *. lia. }
  split.
  { rewrite hex_decode_length.
    destruct (proj1 (Nat.even_spec _) Heven) as [k Hk]. rewrite Hk in *.
    rewrite Nat.div2_double. lia. }
  assert (Hrun : AT_Command_Process (Some line) e m
                 = dispatch ("AT+WRITE=" ++ idx ++ "," ++ hdl ++ "," ++ data)
                     e m).
  { rewrite (Process_dispatch line "+WRITE=");
      [rewrite Ht; reflexivity | ].
    rewrite Ht. apply (prefix_app_refl "AT+WRITE="). }
  rewrite Hrun, dispatch_WRITE. cbv zeta.
  rewrite (SkipToComma_digits idx (hdl ++ "," ++ data) (proj2 Hidx)).
  rewrite (SkipToComma_digits hdl data (proj2 Hhdl)).
  rewrite (ParseUInt16_field hdl ("," ++ data) Hhdl eq_refl) by lia.
  rewrite (ParseUInt8_field idx ("," ++ hdl ++ "," ++ data) Hidx eq_refl)
    by lia.
  replace (field_value idx =? 255) with false
    by (symmetry; apply Z.eqb_neq; lia).
  replace (0 <? field_value hdl) with true
    by (symmetry; apply Z.ltb_lt; lia).
  assert (Hend : not_at_end (Some data) = true).
  { destruct data; [contradiction | reflexivity]. }
  rewrite Hend.
  change (not_null (Some (hdl ++ "," ++ data)) && negb false) with true.
  change (not_null (Some data) && true && true) with true. cbv iota.
  unfold call, bind.
  destruct (connected (BLE_DeviceManager_GetDevice e (field_value idx)))
    as [dev | ] eqn:Hconn.
  - rewrite (AT_WRITE_Handler_hex _ _ data e m dev Hconn Hhex Heven
               ltac:(lia)).
    reflexivity.
  - unfold AT_WRITE_Handler, bind, ask. rewrite Hconn. reflexivity.
Qed.

Lemma AT_WRITE_command_witness :
  AT_Command_Process (Some "AT+WRITE=0,18,48656c6C6F") (one_device_env 0 0)
    power_on
  = Ok tt (says power_on [GATT_Write 7 18 [72; 101; 108; 108; 111];
                          UART_Tx OK_line])
  /\ String.length ("AT+WRITE=0,1," ++ hex_114) = 127%nat
  /\ AT_Command_Process (Some ("AT+WRITE=0,1," ++ hex_114))
       (one_device_env 0 0) power_on
     = Ok tt (says power_on [GATT_Write 7 1 (replicate 57 119);
                             UART_Tx OK_line]).
Proof.
  assert (H0 : is_field "0") by (split; [discriminate | reflexivity]).
  assert (H1 : is_field "1") by (split; [discriminate | reflexivity]).
  assert (H18 : is_field "18") by (split; [discriminate | reflexivity]).
  assert (Hv : 0 < field_value "18" <= 65535) by (vm_compute; split; congruence).
  assert (Hv1 : 0 < field_value "1" <= 65535) by (vm_compute; split; congruence).
  assert (Hi : field_value "0" < 255) by reflexivity.
  split; [ | split; [reflexivity | ] ].
  - exact (proj2 (AT_WRITE_command "AT+WRITE=0,18,48656c6C6F" "0" "18"
                    "48656c6C6F" (one_device_env 0 0) power_on eq_refl H0 Hi
                    H18 Hv eq_refl eq_refl ltac:(discriminate))).
  - exact (proj2 (AT_WRITE_command ("AT+WRITE=0,1," ++ hex_114) "0" "1"
                    hex_114 (one_device_env 0 0) power_on eq_refl H0 Hi
                    H1 Hv1 eq_refl eq_refl ltac:(discriminate))).
Defined.


(** X16. [AT+DATAMODE=<index>,<handle>] with decimal fields, an index
    below 255 and a handle in 1..65535: when the device at that index is
    connected the controller is in Data mode towards that device and
    handle afterwards, with an empty transmit buffer, no escape run under
    way and the current tick as the time of the last byte, and the
    answers are [+DATAMODE] and [OK]; bytes that were waiting in the
    buffer are dropped, not sent.  When the device is not connected the
    answer is [+ERROR:NOT_CONNECTED] and nothing changes. *)
Theorem AT_DATAMODE_command (line idx hdl : string) (e : Env) (m : Machine) :
  trimmed line = "AT+DATAMODE=" ++ idx ++ "," ++ hdl ->
  is_field idx -> field_value idx < 255 ->
  is_field hdl -> 0 < field_value hdl <= 65535 ->
  AT_Command_Process (Some line) e m
  = match connected (BLE_DeviceManager_GetDevice e (field_value idx)) with
    | None => Ok tt (says m [UART_Tx ("+ERROR:NOT_CONNECTED" ++ CRLF)])
    | Some _ =>
        Ok tt
          (says (data_mode_towards (field_value idx) (field_value hdl)
                   (HAL_GetTick e) m)
             [UART_Tx ("+DATAMODE" ++ CRLF); UART_Tx OK_line])
    end.
Proof.
  intros Ht Hidx Hi Hhdl Hv.
  assert (Hrun : AT_Command_Process (Some line) e m
                 = dispatch ("AT+DATAMODE=" ++ idx ++ "," ++ hdl) e m).
  { rewrite (Process_dispatch line "+DATAMODE=");
      [rewrite Ht; reflexivity | ].
    rewrite Ht. apply (prefix_app_refl "AT+DATAMODE="). }
  rewrite Hrun, dispatch_DATAMODE. cbv zeta.
  rewrite (SkipToComma_digits idx hdl (proj2 Hidx)).
  rewrite (ParseUInt16_last_field hdl Hhdl) by lia.
  rewrite (ParseUInt8_field idx ("," ++ hdl) Hidx eq_refl) by lia.
  replace (field_value idx =? 255) with false
    by (symmetry; apply Z.eqb_neq; lia).
  replace (0 <? field_value hdl) with true
    by (symmetry; apply Z.ltb_lt; lia).
  change (not_null (Some hdl) && negb false) with true. cbv iota.
  unfold call, AT_DATAMODE_Handler, Module_Mode_EnterData, bind, ask.
  destruct (connected _) as [dev | ]; [ | reflexivity].
  unfold says, data_mode_towards. destruct m. simpl.
  rewrite <- app_assoc. reflexivity.
Qed.

Lemma AT_DATAMODE_command_witness :
  AT_Command_Process (Some ("AT+DATAMODE=0,18" ++ CRLF)) (one_device_env 5 0)
    data_mode_one_byte
  = Ok tt
      (says (data_mode_towards 0 18 5 data_mode_one_byte)
         [UART_Tx ("+DATAMODE" ++ CRLF); UART_Tx OK_line]).
Proof.
  assert (H0 : is_field "0") by (split; [discriminate | reflexivity]).
  assert (H18 : is_field "18") by (split; [discriminate | reflexivity]).
  assert (Hv : 0 < field_value "18" <= 65535) by (vm_compute; split; congruence).
  assert (Hi : field_value "0" < 255) by reflexivity.
  exact (AT_DATAMODE_command ("AT+DATAMODE=0,18" ++ CRLF) "0" "18"
           (one_device_env 5 0) data_mode_one_byte eq_refl H0 Hi H18 Hv).
Defined.


(** ** Addresses listed and addresses parsed *)

Lemma MAC_text_form (b0 b1 b2 b3 b4 b5 : Z) (rs : Z) (ch : Z) (ic : bool)
    (nm rest : string) (k : nat) :
  (k < 17)%nat ->
  mac_pos_ok k
    (char_at
       (MAC_text {| mac_addr := [b0; b1; b2; b3; b4; b5]; rssi := rs;
                    conn_handle := ch; is_connected := ic; name := nm |}
        ++ rest) k) = true.
Proof.
  intros Hk. unfold MAC_text, mac_byte, Fmt.X02.
  cbn [mac_addr lookup list_lookup default from_option id append].
  do 17 (destruct k as [ | k];
         [first [apply hex_digit_is_hex | reflexivity] | ]).
  lia.
Qed.

(** X17. The address in a device line of [AT+LIST] starts with
    [mac_addr[5]]; [ParseMACString] stores the octets in the order they
    are written.  So when the address shown for a device is given to
    [AT+CONNECT], the address that is looked up and connected to is the
    device's address with its six bytes reversed. *)
Theorem listed_address_is_parsed_reversed (i : Z) (dev : BLE_Device_t)
    (rest : string) (out : list Z) (e : Env) (m : Machine) :
  length (mac_addr dev) = 6%nat ->
  Forall (fun b => 0 <= b < 256) (mac_addr dev) ->
  length out = 6%nat ->
  (exists tail,
     DEV_line i dev = "+DEV:" ++ Fmt.d i ++ "," ++ MAC_text dev ++ tail)
  /\ ParseMACString (Some (MAC_text dev ++ rest)) (Some out)
     = (0, Some (rev (mac_addr dev)))
  /\ exists r,
       AT_CONNECT_Handler (Some (MAC_text dev)) e m
       = Ok r
           (says m
              (if BLE_DeviceManager_FindDevice e (rev (mac_addr dev)) <? 0
               then [UART_Tx ("+ERROR:NOT_FOUND" ++ CRLF)]
               else [Connect (rev (mac_addr dev));
                     UART_Tx
                       (if BLE_Connection_CreateConnection e
                             (rev (mac_addr dev)) =? 0
                        then OK_line else ERROR_line)])).
Proof.
  intros Hlen Hbytes Hout.
  destruct dev as [mac rs ch ic nm]. simpl in Hlen, Hbytes.
  destruct mac as [ | b0 [ | b1 [ | b2 [ | b3 [ | b4 [ | b5 [ | ? ?]]]]]]];
    try discriminate Hlen.
  destruct out as [ | o0 [ | o1 [ | o2 [ | o3 [ | o4 [ | o5 [ | ? ?]]]]]]];
    try discriminate Hout.
  set (dev := {| mac_addr := [b0; b1; b2; b3; b4; b5]; rssi := rs;
                 conn_handle := ch; is_connected := ic; name := nm |}).
  assert (Hparse : forall rest o0 o1 o2 o3 o4 o5,
            ParseMACString (Some (MAC_text dev ++ rest))
              (Some [o0; o1; o2; o3; o4; o5])
            = (0, Some (rev (mac_addr dev)))).
  { intros rest' p0 p1 p2 p3 p4 p5.
    rewrite (ParseMACString_accept (MAC_text dev ++ rest') p0 p1 p2 p3 p4 p5)
      by (intros k Hk; apply MAC_text_form; exact Hk).
    f_equal. f_equal.
    unfold octet, MAC_text, mac_byte, Fmt.X02, dev.
    cbn [mac_addr lookup list_lookup default from_option id append map seq
         Nat.mul Nat.add char_at String.get rev app].
    repeat match goal with
           | H : Forall _ (_ :: _) |- _ => apply Forall_cons in H as [? H]
           end.
    rewrite !hex_value_digits by assumption. reflexivity. }
  split; [ | split].
  - eexists. unfold DEV_line, DEV_fields, MAC_text, Fmt.X02.
    rewrite (str_app_assoc (Fmt.d i)). cbn [append]. reflexivity.
  - apply Hparse.
  - unfold AT_CONNECT_Handler, bind, ask.
    rewrite <- (str_app_nil (MAC_text dev)).
    change (replicate 6 0) with [0; 0; 0; 0; 0; 0].
    rewrite Hparse. cbn [negb Z.eqb default from_option id].
    destruct (BLE_DeviceManager_FindDevice e (rev (mac_addr dev)) <? 0).
    + eexists. reflexivity.
    + unfold emit, modify. cbv beta iota.
      destruct (BLE_Connection_CreateConnection e (rev (mac_addr dev)) =? 0);
        simpl; eexists; unfold says; rewrite <- app_assoc; destruct m;
        reflexivity.
Qed.

Lemma listed_address_is_parsed_reversed_witness :
  MAC_text some_device = "06:05:04:03:02:01"
  /\ ParseMACString (Some (MAC_text some_device ++ ""))
       (Some [0; 0; 0; 0; 0; 0])
     = (0, Some [6; 5; 4; 3; 2; 1]).
Proof.
  split; [reflexivity | ].
  refine (proj1 (proj2 (listed_address_is_parsed_reversed 0 some_device ""
                          [0; 0; 0; 0; 0; 0] (quiet_env 0) power_on
                          eq_refl _ eq_refl))).
  repeat constructor; lia.
Defined.


(** * Properties of the configuration commands *)

Lemma ParseUInt8_last_field (digits : string) :
  is_field digits -> ParseUInt8 (Some digits) = as_uint8 digits.
Proof.
  intros Hf. unfold as_uint8. rewrite <- (str_app_nil digits) at 1.
  destruct (Z.leb_spec (field_value digits) 255).
  - apply ParseUInt8_field; [assumption | reflexivity | assumption].
  - apply ParseUInt8_field_overflow; [assumption | reflexivity | lia].
Qed.

Lemma ParseUInt8_comma_field (digits rest : string) :
  is_field digits ->
  ParseUInt8 (Some (digits ++ "," ++ rest)) = as_uint8 digits.
Proof.
  intros Hf. unfold as_uint8.
  destruct (Z.leb_spec (field_value digits) 255).
  - apply ParseUInt8_field; [assumption | reflexivity | assumption].
  - apply ParseUInt8_field_overflow; [assumption | reflexivity | lia].
Qed.

Lemma ParseUInt16_any_field (digits rest : string) :
  is_field digits -> no_leading_digit rest = true ->
  ParseUInt16 (Some (digits ++ rest)) = as_uint16 digits.
Proof.
  intros Hf Hrest. unfold as_uint16.
  destruct (Z.leb_spec (field_value digits) 65535).
  - apply ParseUInt16_field; assumption.
  - destruct Hf as [Hne Hd].
    destruct digits as [ | c digits]; [congruence | ].
    apply (ParseUInt16_loop_overflow (String c digits) rest 0 Hd); [lia | ].
    unfold field_value in *. lia.
Qed.

Lemma ParseUInt16_last_any_field (digits : string) :
  is_field digits -> ParseUInt16 (Some digits) = as_uint16 digits.
Proof.
  intros Hf. rewrite <- (ParseUInt16_any_field digits "" Hf eq_refl).
  rewrite str_app_nil. reflexivity.
Qed.

Lemma dispatch_NAME (rest : string) (e : Env) (m : Machine) :
  dispatch ("AT+NAME=" ++ rest) e m = Ok tt (says m [Call (AT_NAME_Handler rest)]).
Proof. destruct rest; reflexivity. Qed.

Lemma dispatch_COMM (rest : string) (e : Env) (m : Machine) :
  dispatch ("AT+COMM=" ++ rest) e m
  = (let p := SkipToComma (Some rest) in
     if not_null p then
       let q := SkipToComma p in
       if not_null q then
         emit (Call (AT_COMM_Handler (ParseUInt16 (Some rest)) (ParseUInt8 p)
                       (ParseUInt8 q)))
       else AT_Response_Send ERROR_line
     else AT_Response_Send ERROR_line) e m.
Proof. destruct rest; reflexivity. Qed.

Lemma dispatch_RF (rest : string) (e : Env) (m : Machine) :
  dispatch ("AT+RF=" ++ rest) e m
  = (let p := SkipToComma (Some rest) in
     if not_null p then
       let q := SkipToComma p in
       if not_null q then
         emit (Call (AT_RF_Handler (int8_of (ParseUInt8 (Some rest)))
                       (ParseUInt16 p) (ParseUInt16 q)))
       else AT_Response_Send ERROR_line
     else AT_Response_Send ERROR_line) e m.
Proof. destruct rest; reflexivity. Qed.


Lemma str_take_take (n : nat) (s : string) :
  str_take n (str_take n s) = str_take n s.
Proof.
  revert s. induction n as [ | n IH]; intros [ | c s]; simpl; try reflexivity.
  rewrite IH. reflexivity.
Qed.

Lemma field_value_nonneg (digits : string) :
  all_digits digits = true -> 0 <= field_value digits.
Proof. intros H. apply (dec_value_mono digits 0 H). lia. Qed.

(** Turns boolean comparisons in a hypothesis into propositions. *)
Ltac bools H :=
  repeat first
    [ rewrite orb_true_iff in H | rewrite orb_false_iff in H
    | rewrite andb_true_iff in H | rewrite andb_false_iff in H
    | rewrite negb_true_iff in H | rewrite negb_false_iff in H
    | rewrite Z.ltb_lt in H | rewrite Z.ltb_ge in H
    | rewrite Z.leb_le in H | rewrite Z.leb_gt in H
    | rewrite Z.eqb_eq in H | rewrite Z.eqb_neq in H ].

(** Splits the comparisons of a goal into their cases. *)
Ltac split_comparisons :=
  repeat match goal with
         | |- context [?a <? ?b] => destruct (Z.ltb_spec a b)
         | |- context [?a <=? ?b] => destruct (Z.leb_spec a b)
         | |- context [?a =? ?b] => destruct (Z.eqb_spec a b)
         end.

(** X18. [AT+NAME=<name>]: the dispatcher hands everything after the
    equals sign to [AT_NAME_Handler].  An empty name is answered with
    [ERROR] and changes nothing.  Any other name is answered with [OK] and
    stored cut to its first 31 characters, and that is what
    [Module_Config_GetDeviceName] gives back into a 32-byte buffer, with
    its length. *)
Theorem AT_NAME_command (line name : string) (e : Env) (m : Machine)
    (s : Config.State) :
  trimmed line = "AT+NAME=" ++ name ->
  AT_Command_Process (Some line) e m
  = Ok tt (says m [Call (AT_NAME_Handler name)])
  /\ (name = EmptyString ->
      Config.AT_NAME_Handler (Some name) s
      = (-1, Config.AT_Response_Send ERROR_line s))
  /\ (name <> EmptyString ->
      let s' := (Config.AT_NAME_Handler (Some name) s).2 in
      (Config.AT_NAME_Handler (Some name) s).1 = 0
      /\ Config.device_name (Config.Module_Config_Get s') = str_take 31 name
      /\ Config.uart (Config.Module_Config_Get s')
         = Config.uart (Config.Module_Config_Get s)
      /\ Config.rf (Config.Module_Config_Get s')
         = Config.rf (Config.Module_Config_Get s)
      /\ Config.effects s' = (Config.effects s ++ [Send OK_line])%list
      /\ forall buffer,
           Config.Module_Config_GetDeviceName (Some buffer) 32 s'
           = (Z.of_nat (Nat.min 31 (String.length name)),
              Some (str_take 31 name))).
Proof.
  intros Ht. split; [ | split].
  - rewrite (Process_dispatch line "+NAME=");
      [rewrite Ht; apply dispatch_NAME | ].
    rewrite Ht. apply (prefix_app_refl "AT+NAME=").
  - intros ->. reflexivity.
  - intros Hne. destruct name as [ | c name]; [congruence | ].
    cbn zeta. unfold Config.AT_NAME_Handler, Config.Module_Config_SetDeviceName,
      Config.Module_Config_GetDeviceName, Config.Module_Config_Get.
    change (Z.to_nat (Config.CONFIG_MAX_DEVICE_NAME_LEN - 1)) with 31%nat.
    change (Z.to_nat (32 - 1)) with 31%nat.
    cbv beta iota zeta. set (name' := String c name). clearbody name'.
    cbn -[str_take Nat.min]. repeat split. intros _.
    rewrite str_take_take, str_take_length. reflexivity.
Qed.

Lemma AT_NAME_command_witness :
  AT_Command_Process (Some ("AT+NAME=Gateway-7" ++ CRLF)) (quiet_env 0)
    power_on
  = Ok tt (says power_on [Call (AT_NAME_Handler "Gateway-7")])
  /\ Config.Module_Config_GetDeviceName (Some "") 32
       (Config.AT_NAME_Handler (Some "Gateway-7") config_at_start).2
     = (9, Some "Gateway-7").
Proof.
  assert (Hne : "Gateway-7" <> EmptyString) by discriminate.
  destruct (AT_NAME_command ("AT+NAME=Gateway-7" ++ CRLF) "Gateway-7"
              (quiet_env 0) power_on config_at_start eq_refl)
    as (Hcall & _ & Hset).
  split; [exact Hcall | ].
  exact (proj2 (proj2 (proj2 (proj2 (proj2 (Hset Hne))))) "").
Defined.

(** X19. [AT+COMM=<baud>,<parity>,<stop>] with decimal fields.  The baud
    rate is read as a 16-bit number, so the handler is called with 0 for
    every rate above 65535.  The command is answered with [OK], stored
    with 8 data bits and applied to the UART exactly when the rate is in
    9600..65535, the parity at most 2 and the stop bits 1 or 2; otherwise
    it is answered with [ERROR] and changes nothing.  So none of the rates
    115200, 230400, 460800 and 921600 can be set, although
    [Module_Config_SetUART] accepts them. *)
Theorem AT_COMM_command (line baud par stop : string) (e : Env) (m : Machine)
    (hal : HAL) (s : Config.State) :
  trimmed line = "AT+COMM=" ++ baud ++ "," ++ par ++ "," ++ stop ->
  is_field baud -> is_field par -> is_field stop ->
  let accepted :=
    9600 <= field_value baud <= 65535
    /\ field_value par <= 2
    /\ 1 <= field_value stop <= 2 in
  let run :=
    Config.AT_COMM_Handler (as_uint16 baud) (as_uint8 par) (as_uint8 stop)
      hal s in
  AT_Command_Process (Some line) e m
  = Ok tt (says m [Call (AT_COMM_Handler (as_uint16 baud) (as_uint8 par)
                           (as_uint8 stop))])
  /\ (accepted ->
      run.1 = 0
      /\ Config.uart (Config.current_config run.2)
         = {| Config.baud_rate := field_value baud;
              Config.parity := field_value par;
              Config.stop_bits := field_value stop;
              Config.data_bits := 8 |}
      /\ Config.BaudRate (Config.hlpuart1_Init run.2) = field_value baud
      /\ Config.WordLength (Config.hlpuart1_Init run.2)
         = (if field_value par =? 0 then Config.UART_WORDLENGTH_8B
            else Config.UART_WORDLENGTH_9B)
      /\ Config.effects run.2
         = (Config.effects s
            ++ [Send OK_line; Delay 50; UART_DeInit; UART_Init])%list)
  /\ (~ accepted -> run = (-1, Config.AT_Response_Send ERROR_line s))
  /\ (65535 < field_value baud -> ~ accepted)
  /\ (forall rate, 9600 <= rate <= 921600 ->
        (Config.Module_Config_SetUART
           (Some {| Config.baud_rate := rate; Config.parity := 0;
                    Config.stop_bits := 1; Config.data_bits := 8 |}) s).1 = 0).
Proof.
  intros Ht Hb Hp Hs accepted run.
  pose proof (field_value_nonneg _ (proj2 Hb)) as Hb0.
  pose proof (field_value_nonneg _ (proj2 Hp)) as Hp0.
  pose proof (field_value_nonneg _ (proj2 Hs)) as Hs0.
  split; [ | split; [ | split; [ | split]]].
  - rewrite (Process_dispatch line "+COMM=");
      [ | rewrite Ht; apply (prefix_app_refl "AT+COMM=")].
    rewrite Ht, dispatch_COMM. cbv zeta.
    rewrite (SkipToComma_digits baud (par ++ "," ++ stop) (proj2 Hb)).
    rewrite (SkipToComma_digits par stop (proj2 Hp)).
    rewrite (ParseUInt16_any_field baud ("," ++ par ++ "," ++ stop) Hb eq_refl).
    rewrite (ParseUInt8_comma_field par stop Hp).
    rewrite (ParseUInt8_last_field stop Hs).
    reflexivity.
  - intros (Hbaud & Hpar & Hstop). subst run.
    assert (H16 : as_uint16 baud = field_value baud).
    { unfold as_uint16. destruct (Z.leb_spec (field_value baud) 65535); lia. }
    assert (Hp8 : as_uint8 par = field_value par).
    { unfold as_uint8. destruct (Z.leb_spec (field_value par) 255); lia. }
    assert (Hs8 : as_uint8 stop = field_value stop).
    { unfold as_uint8. destruct (Z.leb_spec (field_value stop) 255); lia. }
    rewrite H16, Hp8, Hs8.
    unfold Config.AT_COMM_Handler, Config.Module_Config_SetUART,
      Config.Module_Config_ApplyUART.
    cbn [Config.baud_rate Config.parity Config.stop_bits Config.data_bits].
    assert (C1 : (field_value baud <? 9600) || (921600 <? field_value baud)
                 = false) by (split_comparisons; (reflexivity || lia)).
    assert (C2 : (2 <? field_value par) || (field_value stop <? 1)
                 || (2 <? field_value stop) = false)
      by (split_comparisons; (reflexivity || lia)).
    rewrite C1.
    change (8 <? 7) with false. change (8 <? 8) with false.
    rewrite C2.
    cbn -[Z.eqb]. change (0 =? 0) with true. change (8 =? 8) with true.
    cbn -[Z.eqb].
    destruct (negb _); cbn -[Z.eqb];
      (split; [reflexivity | ]); (split; [reflexivity | ]);
      (split; [reflexivity | ]);
      (split; [reflexivity | rewrite <- !app_assoc; reflexivity]).
  - intros Hno. subst run accepted.
    assert (H16 : as_uint16 baud = field_value baud
                  /\ field_value baud <= 65535
                  \/ as_uint16 baud = 0 /\ 65535 < field_value baud).
    { unfold as_uint16. destruct (Z.leb_spec (field_value baud) 65535); lia. }
    assert (Hp8 : as_uint8 par = field_value par /\ field_value par <= 255
                  \/ as_uint8 par = 255 /\ 255 < field_value par).
    { unfold as_uint8. destruct (Z.leb_spec (field_value par) 255); lia. }
    assert (Hs8 : as_uint8 stop = field_value stop /\ field_value stop <= 255
                  \/ as_uint8 stop = 255 /\ 255 < field_value stop).
    { unfold as_uint8. destruct (Z.leb_spec (field_value stop) 255); lia. }
    set (b16 := as_uint16 baud) in *. set (p8 := as_uint8 par) in *.
    set (s8 := as_uint8 stop) in *. clearbody b16 p8 s8.
    unfold Config.AT_COMM_Handler, Config.Module_Config_SetUART.
    cbn [Config.baud_rate Config.parity Config.stop_bits Config.data_bits].
    change (8 <? 7) with false. change (8 <? 8) with false.
    destruct ((b16 <? 9600) || (921600 <? b16)) eqn:C1; [reflexivity | ].
    destruct ((2 <? p8) || (s8 <? 1) || (2 <? s8)) eqn:C2; [reflexivity | ].
    exfalso. apply Hno. bools C1. bools C2. lia.
  - intros Hover (Hbaud & _). lia.
  - intros rate Hrate. unfold Config.Module_Config_SetUART.
    cbn [Config.baud_rate Config.parity Config.stop_bits Config.data_bits].
    split_comparisons; try lia; reflexivity.
Qed.

Lemma AT_COMM_command_witness :
  AT_Command_Process (Some "AT+COMM=115200,0,1") (quiet_env 0) power_on
  = Ok tt (says power_on [Call (AT_COMM_Handler 0 0 1)])
  /\ Config.AT_COMM_Handler 0 0 1 hal_ok config_at_start
     = (-1, Config.AT_Response_Send ERROR_line config_at_start)
  /\ (Config.AT_COMM_Handler 19200 2 1 hal_ok config_at_start).1 = 0.
Proof.
  assert (Hf : forall d, d <> EmptyString -> all_digits d = true -> is_field d)
    by (intros d H1 H2; split; assumption).
  destruct (AT_COMM_command "AT+COMM=115200,0,1" "115200" "0" "1"
              (quiet_env 0) power_on hal_ok config_at_start eq_refl
              (Hf "115200" ltac:(discriminate) eq_refl)
              (Hf "0" ltac:(discriminate) eq_refl)
              (Hf "1" ltac:(discriminate) eq_refl))
    as (Hcall & _ & Hrej & Hover & _).
  split; [exact Hcall | ]. split.
  - apply Hrej, Hover. vm_compute. reflexivity.
  - reflexivity.
Defined.


(** X20. [AT+RF=<power>,<interval>,<window>] with decimal fields.  The
    power is read as an unsigned decimal number and cast to a signed byte,
    and a text that starts with a minus sign reads as 0.  So 0..6 dBm are
    entered as they are, a negative power can only be entered as 216..255
    (for -40..-1 dBm), every number above 255 sets -1 dBm, and 7..215 are
    answered with [ERROR] and change nothing.  An accepted command is
    answered with [OK] and stored together with the two scan parameters as
    parsed and the default connection intervals.  The level handed to the
    BLE stack is the stored power converted back to an unsigned byte:
    the number as it was typed when that is at most 255 (so 216..255 for
    the negative powers), and 255 for every number above. *)
Theorem AT_RF_command (line pw si sw : string) (e : Env) (m : Machine)
    (hal : HAL) (s : Config.State) :
  trimmed line = "AT+RF=" ++ pw ++ "," ++ si ++ "," ++ sw ->
  is_field pw -> is_field si -> is_field sw ->
  let tx := int8_of (as_uint8 pw) in
  let run := Config.AT_RF_Handler tx (as_uint16 si) (as_uint16 sw) hal s in
  AT_Command_Process (Some line) e m
  = Ok tt (says m [Call (AT_RF_Handler tx (as_uint16 si) (as_uint16 sw))])
  /\ tx = (if field_value pw <=? 127 then field_value pw
           else if field_value pw <=? 255 then field_value pw - 256
           else -1)
  /\ (field_value pw <= 6 \/ 216 <= field_value pw ->
      run.1 = 0
      /\ Config.rf (Config.current_config run.2)
         = {| Config.tx_power_dbm := tx;
              Config.scan_interval := as_uint16 si;
              Config.scan_window := as_uint16 sw;
              Config.conn_interval_min := 24;
              Config.conn_interval_max := 40 |}
      /\ Config.effects run.2
         = (Config.effects s
            ++ [Set_TX_Power 1
                  (if field_value pw <=? 255 then field_value pw else 255);
                Send OK_line])%list)
  /\ (6 < field_value pw < 216 ->
      run = (-1, Config.AT_Response_Send ERROR_line s))
  /\ (forall rest, int8_of (ParseUInt8 (Some (String "-"%char rest))) = 0).
Proof.
  intros Ht Hpw Hsi Hsw tx run.
  pose proof (field_value_nonneg _ (proj2 Hpw)) as Hpw0.
  assert (Htx : tx = (if field_value pw <=? 127 then field_value pw
                      else if field_value pw <=? 255 then field_value pw - 256
                      else -1)).
  { subst tx. unfold int8_of, as_uint8.
    destruct (Z.leb_spec (field_value pw) 255);
      destruct (Z.leb_spec (field_value pw) 127); try lia;
      [destruct (Z.leb_spec 128 (field_value pw)); lia
      | destruct (Z.leb_spec 128 (field_value pw)); lia
      | reflexivity]. }
  split; [ | split; [exact Htx | split; [ | split]]].
  - rewrite (Process_dispatch line "+RF=");
      [ | rewrite Ht; apply (prefix_app_refl "AT+RF=")].
    rewrite Ht, dispatch_RF. cbv zeta.
    rewrite (SkipToComma_digits pw (si ++ "," ++ sw) (proj2 Hpw)).
    rewrite (SkipToComma_digits si sw (proj2 Hsi)).
    rewrite (ParseUInt8_comma_field pw (si ++ "," ++ sw) Hpw).
    rewrite (ParseUInt16_any_field si ("," ++ sw) Hsi eq_refl).
    rewrite (ParseUInt16_last_any_field sw Hsw).
    reflexivity.
  - intros Hok. subst run.
    unfold Config.AT_RF_Handler, Config.Module_Config_SetRF,
      Config.Module_Config_ApplyRF.
    cbn [Config.tx_power_dbm].
    assert (C : (tx <? -40) || (6 <? tx) = false).
    { rewrite Htx.
      destruct (Z.leb_spec (field_value pw) 127);
        [ | destruct (Z.leb_spec (field_value pw) 255)];
        split_comparisons; (reflexivity || lia). }
    assert (Hlevel : wrap8 tx
                     = (if field_value pw <=? 255 then field_value pw
                        else 255)).
    { rewrite Htx. unfold wrap8.
      destruct (Z.leb_spec (field_value pw) 127);
        [ | destruct (Z.leb_spec (field_value pw) 255)].
      - replace (field_value pw <=? 255) with true
          by (symmetry; apply Z.leb_le; lia).
        apply Z.mod_small. lia.
      - replace (field_value pw - 256) with (field_value pw + (-1) * 256)
          by lia.
        rewrite Z.mod_add by lia. apply Z.mod_small. lia.
      - reflexivity. }
    rewrite C. cbn -[Z.eqb wrap8]. change (0 =? 0) with true.
    cbn -[Z.eqb wrap8]. rewrite Hlevel.
    destruct (negb _); cbn -[Z.eqb];
      (split; [reflexivity | ]);
      (split; [reflexivity | rewrite <- !app_assoc; reflexivity]).
  - intros Hbad. subst run.
    unfold Config.AT_RF_Handler, Config.Module_Config_SetRF.
    cbn [Config.tx_power_dbm].
    assert (C : (tx <? -40) || (6 <? tx) = true).
    { rewrite Htx.
      destruct (Z.leb_spec (field_value pw) 127);
        [ | destruct (Z.leb_spec (field_value pw) 255)];
        split_comparisons; (reflexivity || lia). }
    rewrite C. reflexivity.
  - intros rest. reflexivity.
Qed.

Lemma AT_RF_command_witness :
  AT_Command_Process (Some "AT+RF=250,16,16") (quiet_env 0) power_on
  = Ok tt (says power_on [Call (AT_RF_Handler (-6) 16 16)])
  /\ Config.tx_power_dbm
       (Config.rf
          (Config.current_config
             (Config.AT_RF_Handler (-6) 16 16 hal_ok config_at_start).2))
     = -6
  /\ Config.effects (Config.AT_RF_Handler (-6) 16 16 hal_ok config_at_start).2
     = (Config.effects config_at_start
        ++ [Set_TX_Power 1 250; Send OK_line])%list.
Proof.
  assert (Hf : forall d, d <> EmptyString -> all_digits d = true -> is_field d)
    by (intros d H1 H2; split; assumption).
  destruct (AT_RF_command "AT+RF=250,16,16" "250" "16" "16"
              (quiet_env 0) power_on hal_ok config_at_start eq_refl
              (Hf "250" ltac:(discriminate) eq_refl)
              (Hf "16" ltac:(discriminate) eq_refl)
              (Hf "16" ltac:(discriminate) eq_refl))
    as (Hcall & _ & Hok & _).
  split; [exact Hcall | ].
  destruct (Hok ltac:(right; vm_compute; discriminate)) as (_ & Hrf & Heff).
  split; [exact (f_equal Config.tx_power_dbm Hrf) | exact Heff].
Defined.


(** * Properties of the power module *)

Lemma Power_State_eq (a b : Power.State) :
  Power.current_mode a = Power.current_mode b ->
  Power.is_sleeping a = Power.is_sleeping b ->
  Power.wake_sources a = Power.wake_sources b ->
  Power.last_wake_source a = Power.last_wake_source b ->
  Power.effects a = Power.effects b ->
  a = b.
Proof. destruct a, b. simpl. congruence. Qed.

(** One sleep in a mode of 1..5 from Run mode. *)
Lemma EnterSleep_from_run (mode wake_mask timeout_ms : Z) (s : Power.State) :
  Power.current_mode s = Power.POWER_MODE_RUN ->
  1 <= mode <= 5 ->
  Power.Module_Power_EnterSleep mode wake_mask timeout_ms s
  = (0,
     {| Power.current_mode := Power.POWER_MODE_RUN;
        Power.is_sleeping := 0;
        Power.wake_sources := wake_mask;
        Power.last_wake_source := Power.last_wake_source s;
        Power.effects :=
          (Power.effects s ++ sleep_effects mode wake_mask)%list |}).
Proof.
  intros Hrun Hmode.
  destruct s as [cm sl ws lw ef]. simpl in Hrun. subst cm.
  unfold Power.Module_Power_EnterSleep, Power.Module_Power_ConfigureWake,
    Power.Module_Power_DisablePeripherals,
    Power.Module_Power_EnablePeripherals, sleep_effects, low_power_entry,
    wakes_on_UART.
  assert (Hcases : mode = 1 \/ mode = 2 \/ mode = 3 \/ mode = 4 \/ mode = 5)
    by lia.
  destruct Hcases as [-> | [-> | [-> | [-> | ->]]]];
    destruct (Z.land wake_mask Power.WAKE_SOURCE_UART =? 0) eqn:Hw;
    repeat (progress (cbn -[Z.land]; rewrite ?Hw));
    (f_equal; apply Power_State_eq; cbn -[Z.land];
     rewrite <- ?app_assoc; reflexivity).
Qed.

(** X21. A sleep in one of the modes 1..5, entered while the module is in
    Run mode: the call returns 0 with the module in Run mode again and not
    sleeping, and the wake mask stored.  When the UART is a wake source
    its receive interrupt is enabled and the UART stays initialised; when
    it is not, the UART is de-initialised before the low-power entry and
    initialised again after it.  The scan is not stopped, whatever the
    mode: the mode that [Module_Power_DisablePeripherals] looks at is
    still Run. *)
Theorem EnterSleep_sleeps_and_wakes (mode wake_mask timeout_ms : Z)
    (s : Power.State) :
  Power.current_mode s = Power.POWER_MODE_RUN ->
  1 <= mode <= 5 ->
  let run := Power.Module_Power_EnterSleep mode wake_mask timeout_ms s in
  run.1 = 0
  /\ Power.Module_Power_GetMode run.2 = Power.POWER_MODE_RUN
  /\ Power.Module_Power_IsSleeping run.2 = 0
  /\ Power.wake_sources run.2 = wake_mask
  /\ Power.effects run.2
     = (Power.effects s ++ sleep_effects mode wake_mask)%list
  /\ ~ In Scan_Stop (sleep_effects mode wake_mask).
Proof.
  intros Hrun Hmode run. subst run.
  rewrite (EnterSleep_from_run mode wake_mask timeout_ms s Hrun Hmode).
  repeat split.
  unfold sleep_effects, low_power_entry.
  destruct (wakes_on_UART wake_mask); destruct (mode =? _);
    simpl; intuition discriminate.
Qed.

Lemma EnterSleep_sleeps_and_wakes_witness :
  Power.effects
    (Power.Module_Power_EnterSleep Power.POWER_MODE_STOP2 Power.WAKE_SOURCE_BLE
       0 power_at_start).2
  = [UART_MspDeInit; LPM_SetOffMode false; LPM_SetStopMode true;
     LPM_EnterLowPower; UART_MspInit].
Proof.
  refine (proj1 (proj2 (proj2 (proj2 (proj2
            (EnterSleep_sleeps_and_wakes Power.POWER_MODE_STOP2
               Power.WAKE_SOURCE_BLE 0 power_at_start eq_refl _)))))).
  unfold Power.POWER_MODE_STOP2. lia.
Defined.


(** One call of [Module_Power_EnterSleep] from Run mode, whatever its
    arguments. *)
Lemma EnterSleep_keeps_scanning (mode wake_mask timeout_ms : Z)
    (s : Power.State) :
  Power.current_mode s = Power.POWER_MODE_RUN ->
  Power.is_sleeping s = 0 ->
  ~ In Scan_Stop (Power.effects s) ->
  let s' := (Power.Module_Power_EnterSleep mode wake_mask timeout_ms s).2 in
  Power.current_mode s' = Power.POWER_MODE_RUN
  /\ Power.is_sleeping s' = 0
  /\ ~ In Scan_Stop (Power.effects s').
Proof.
  intros Hrun Hsl Hno. destruct s as [cm sl ws lw ef]. simpl in *. subst cm sl.
  unfold Power.Module_Power_EnterSleep, Power.Module_Power_ConfigureWake,
    Power.Module_Power_DisablePeripherals,
    Power.Module_Power_EnablePeripherals.
  destruct (mode =? Power.POWER_MODE_RUN); [simpl; auto | ].
  destruct (Z.land wake_mask Power.WAKE_SOURCE_UART =? 0) eqn:Hw;
    destruct (mode =? Power.POWER_MODE_SLEEP);
    try destruct ((mode =? Power.POWER_MODE_STOP0)
                  || (mode =? Power.POWER_MODE_STOP1)
                  || (mode =? Power.POWER_MODE_STOP2));
    try destruct (mode =? Power.POWER_MODE_STANDBY);
    repeat (progress (cbn -[Z.land]; rewrite ?Hw));
    (split; [reflexivity | split; [reflexivity | ] ]);
    rewrite ?in_app_iff; simpl; intuition discriminate.
Qed.

(** X22. [Module_Power_EnterSleep] never stops the scan.  From the state
    after initialisation, whatever calls are made and with whatever modes
    (valid or not), wake masks and timeouts, the module is in Run mode and
    not sleeping after each of them, and no call to
    [BLE_Connection_StopScan] has been made: the test for a deep sleep
    mode in [Module_Power_DisablePeripherals] is made before the new mode
    is stored. *)
Theorem sleep_never_stops_the_scan (calls : list (Z * Z * Z))
    (s : Power.State) :
  Power.current_mode s = Power.POWER_MODE_RUN ->
  Power.is_sleeping s = 0 ->
  ~ In Scan_Stop (Power.effects s) ->
  Power.Module_Power_GetMode (sleeps calls s) = Power.POWER_MODE_RUN
  /\ Power.Module_Power_IsSleeping (sleeps calls s) = 0
  /\ ~ In Scan_Stop (Power.effects (sleeps calls s)).
Proof.
  revert s. induction calls as [ | [[mode wake_mask] timeout_ms] calls IH];
    intros s Hrun Hsl Hno; simpl; [auto | ].
  destruct (EnterSleep_keeps_scanning mode wake_mask timeout_ms s Hrun Hsl Hno)
    as (H1 & H2 & H3).
  apply IH; assumption.
Qed.

Lemma sleep_never_stops_the_scan_witness :
  ~ In Scan_Stop
      (Power.effects
         (sleeps [(Power.POWER_MODE_STOP2, Power.WAKE_SOURCE_UART, 0);
                  (Power.POWER_MODE_STANDBY, 0, 1000); (77, 0, 0)]
            power_at_start)).
Proof.
  refine (proj2 (proj2 (sleep_never_stops_the_scan _ power_at_start
                          eq_refl eq_refl _))).
  simpl. tauto.
Defined.

(** X23. A mode outside 0..5 makes [Module_Power_EnterSleep] return -1 in
    Run mode.  By then the peripherals have been disabled and they are not
    enabled again: when the UART is not a wake source it has been
    de-initialised and stays so. *)
Theorem EnterSleep_invalid_mode (mode wake_mask timeout_ms : Z)
    (s : Power.State) :
  Power.current_mode s = Power.POWER_MODE_RUN ->
  mode < 0 \/ 5 < mode ->
  let run := Power.Module_Power_EnterSleep mode wake_mask timeout_ms s in
  run.1 = -1
  /\ Power.Module_Power_GetMode run.2 = Power.POWER_MODE_RUN
  /\ Power.Module_Power_IsSleeping run.2 = 0
  /\ Power.effects run.2
     = (Power.effects s
        ++ (if wakes_on_UART wake_mask then [UART_Enable_RXNE_IT]
            else [UART_MspDeInit]))%list.
Proof.
  intros Hrun Hmode run. subst run.
  destruct s as [cm sl ws lw ef]. simpl in Hrun. subst cm.
  unfold Power.Module_Power_EnterSleep, Power.Module_Power_ConfigureWake,
    Power.Module_Power_DisablePeripherals, Power.Module_Power_GetMode,
    Power.Module_Power_IsSleeping, wakes_on_UART,
    Power.POWER_MODE_RUN, Power.POWER_MODE_SLEEP, Power.POWER_MODE_STOP0,
    Power.POWER_MODE_STOP1, Power.POWER_MODE_STOP2, Power.POWER_MODE_STANDBY.
  replace (mode =? 0) with false by (symmetry; apply Z.eqb_neq; lia).
  replace (mode =? 1) with false by (symmetry; apply Z.eqb_neq; lia).
  replace (mode =? 2) with false by (symmetry; apply Z.eqb_neq; lia).
  replace (mode =? 3) with false by (symmetry; apply Z.eqb_neq; lia).
  replace (mode =? 4) with false by (symmetry; apply Z.eqb_neq; lia).
  replace (mode =? 5) with false by (symmetry; apply Z.eqb_neq; lia).
  destruct (Z.land wake_mask Power.WAKE_SOURCE_UART =? 0) eqn:Hw;
    repeat (progress (cbn -[Z.land]; rewrite ?Hw));
    repeat split; reflexivity.
Qed.

Lemma EnterSleep_invalid_mode_witness :
  (Power.Module_Power_EnterSleep 9 Power.WAKE_SOURCE_BLE 0 power_at_start).1
  = -1
  /\ Power.effects
       (Power.Module_Power_EnterSleep 9 Power.WAKE_SOURCE_BLE 0
          power_at_start).2
     = [UART_MspDeInit].
Proof.
  assert (Hmode : 9 < 0 \/ 5 < 9) by (right; lia).
  destruct (EnterSleep_invalid_mode 9 Power.WAKE_SOURCE_BLE 0 power_at_start
              eq_refl Hmode) as (H1 & _ & _ & H4).
  split; [exact H1 | exact H4].
Defined.


Lemma digit_not_NUL (c : ascii) : is_digit c = true -> Ascii.eqb c NUL = false.
Proof.
  intros H. apply Ascii.eqb_neq. intros ->. discriminate H.
Qed.

Lemma dispatch_SLEEP (c : ascii) (rest : string) (e : Env) (m : Machine) :
  dispatch ("AT+SLEEP=" ++ String c rest) e m
  = (let '(mode, wake_mask, timeout_ms) :=
       if negb (Ascii.eqb c NUL) then
         let p := Some (String c rest) in
         let q := SkipToComma p in
         if not_null q then
           let r := SkipToComma q in
           if not_null r then (ParseUInt8 p, ParseUInt8 q, ParseUInt16 r)
           else (ParseUInt8 p, ParseUInt8 q, 0)
         else (ParseUInt8 p, 1, 0)
       else (1, 1, 0) in
     emit (Call (AT_SLEEP_Handler mode wake_mask timeout_ms))) e m.
Proof. reflexivity. Qed.

(** X24. [AT+SLEEP=<mode>,<mask>,<timeout>] with decimal fields, the power
    module in Run mode.  For a mode of 1..4 the answer is [OK], then, after
    50 ms, the sleep is entered with the wake mask as parsed, and after
    the wake comes [+WAKE]; the module is in Run mode again.  Any other
    mode, standby (5) included, is answered with [+ERROR:INVALID_MODE] and
    nothing else happens.  [AT+SLEEP] alone asks for mode 1 with the UART
    as the wake source. *)
Theorem AT_SLEEP_command (line mode mask timeout : string) (e : Env)
    (m : Machine) (s : Power.State) :
  trimmed line = "AT+SLEEP=" ++ mode ++ "," ++ mask ++ "," ++ timeout ->
  is_field mode -> is_field mask -> is_field timeout ->
  Power.current_mode s = Power.POWER_MODE_RUN ->
  let run :=
    Power.AT_SLEEP_Handler (as_uint8 mode) (as_uint8 mask) (as_uint16 timeout)
      s in
  AT_Command_Process (Some line) e m
  = Ok tt (says m [Call (AT_SLEEP_Handler (as_uint8 mode) (as_uint8 mask)
                           (as_uint16 timeout))])
  /\ (1 <= field_value mode <= 4 ->
      run.1 = 0
      /\ Power.Module_Power_GetMode run.2 = Power.POWER_MODE_RUN
      /\ Power.effects run.2
         = (Power.effects s
            ++ [Send OK_line; Delay 50]
            ++ sleep_effects (field_value mode) (as_uint8 mask)
            ++ [Send ("+WAKE" ++ CRLF)])%list)
  /\ (field_value mode < 1 \/ 4 < field_value mode ->
      run = (-1, Power.AT_Response_Send ("+ERROR:INVALID_MODE" ++ CRLF) s))
  /\ (forall line',
        trimmed line' = "AT+SLEEP" ->
        AT_Command_Process (Some line') e m
        = Ok tt (says m [Call (AT_SLEEP_Handler 1 1 0)])).
Proof.
  intros Ht Hmode Hmask Htime Hrun run.
  split; [ | split; [ | split]].
  - rewrite (Process_dispatch line "+SLEEP=");
      [ | rewrite Ht; apply (prefix_app_refl "AT+SLEEP=")].
    rewrite Ht.
    destruct mode as [ | c mode'] eqn:Hm; [destruct Hmode; congruence | ].
    assert (Hc : is_digit c = true).
    { destruct Hmode as [_ Hd]. simpl in Hd.
      apply andb_true_iff in Hd. tauto. }
    change ("AT+SLEEP=" ++ String c mode' ++ "," ++ mask ++ "," ++ timeout)
      with ("AT+SLEEP=" ++ String c (mode' ++ "," ++ mask ++ "," ++ timeout)).
    rewrite (dispatch_SLEEP c _ e m), (digit_not_NUL c Hc).
    cbv beta iota zeta. cbn [negb].
    change (String c (mode' ++ "," ++ mask ++ "," ++ timeout))
      with (String c mode' ++ "," ++ mask ++ "," ++ timeout).
    rewrite <- Hm in *.
    rewrite (SkipToComma_digits mode (mask ++ "," ++ timeout) (proj2 Hmode)).
    rewrite (SkipToComma_digits mask timeout (proj2 Hmask)).
    rewrite (ParseUInt8_comma_field mode (mask ++ "," ++ timeout) Hmode).
    rewrite (ParseUInt8_comma_field mask timeout Hmask).
    rewrite (ParseUInt16_last_any_field timeout Htime).
    reflexivity.
  - intros Hvalid. subst run.
    assert (H8 : as_uint8 mode = field_value mode).
    { unfold as_uint8. destruct (Z.leb_spec (field_value mode) 255); lia. }
    rewrite H8. unfold Power.AT_SLEEP_Handler.
    replace ((field_value mode <? 1) || (4 <? field_value mode)) with false
      by (split_comparisons; (reflexivity || lia)).
    rewrite EnterSleep_from_run; [ | destruct s; exact Hrun | lia].
    destruct s. cbn -[sleep_effects]. repeat split.
    rewrite <- !app_assoc. reflexivity.
  - intros Hbad. subst run.
    pose proof (field_value_nonneg _ (proj2 Hmode)) as H0.
    unfold Power.AT_SLEEP_Handler.
    replace ((as_uint8 mode <? 1) || (4 <? as_uint8 mode)) with true;
      [reflexivity | ].
    unfold as_uint8.
    destruct (Z.leb_spec (field_value mode) 255); split_comparisons;
      (reflexivity || lia).
  - intros line' Ht'.
    rewrite (Process_dispatch line' "+SLEEP");
      [rewrite Ht'; reflexivity | rewrite Ht'; reflexivity].
Qed.

Lemma AT_SLEEP_command_witness :
  AT_Command_Process (Some "AT+SLEEP=4,1,5000") (quiet_env 0) power_on
  = Ok tt (says power_on [Call (AT_SLEEP_Handler 4 1 5000)])
  /\ Power.effects (Power.AT_SLEEP_Handler 4 1 5000 power_at_start).2
     = [Send OK_line; Delay 50; UART_Enable_RXNE_IT; LPM_SetOffMode false;
        LPM_SetStopMode true; LPM_EnterLowPower; Send ("+WAKE" ++ CRLF)].
Proof.
  assert (Hf : forall d, d <> EmptyString -> all_digits d = true -> is_field d)
    by (intros d H1 H2; split; assumption).
  destruct (AT_SLEEP_command "AT+SLEEP=4,1,5000" "4" "1" "5000"
              (quiet_env 0) power_on power_at_start eq_refl
              (Hf "4" ltac:(discriminate) eq_refl)
              (Hf "1" ltac:(discriminate) eq_refl)
              (Hf "5000" ltac:(discriminate) eq_refl) eq_refl)
    as (Hcall & Hok & _).
  split; [exact Hcall | ].
  assert (Hm : 1 <= field_value "4" <= 4) by (vm_compute; split; discriminate).
  exact (proj2 (proj2 (Hok Hm))).
Defined.


(** * Properties of the discovery reports *)

Lemma lor_bytes (lo hi : Z) :
  0 <= lo < 256 -> 0 <= hi < 256 -> Z.lor lo (Z.shiftl hi 8) = lo + 256 * hi.
Proof.
  intros Hlo Hhi.
  assert (Hall : forallb (fun l =>
            forallb (fun h => Z.lor l (Z.shiftl h 8) =? l + 256 * h)
              byte_values) byte_values = true) by (vm_compute; reflexivity).
  rewrite forallb_forall in Hall.
  specialize (Hall lo (byte_values_complete lo Hlo)).
  rewrite forallb_forall in Hall.
  apply Z.eqb_eq, Hall, byte_values_complete, Hhi.
Qed.

Lemma byte_at_app (pre l : list Z) (j : Z) :
  0 <= j ->
  EventHandler.byte_at (pre ++ l) (Z.of_nat (length pre) + j)
  = EventHandler.byte_at l j.
Proof.
  intros Hj. unfold EventHandler.byte_at.
  replace (Z.of_nat (length pre) + j <? 0) with false
    by (symmetry; apply Z.ltb_ge; lia).
  replace (j <? 0) with false by (symmetry; apply Z.ltb_ge; lia).
  rewrite lookup_app_r by lia. f_equal. lia.
Qed.

Lemma u16_at_app (pre l : list Z) (j : Z) :
  0 <= j ->
  EventHandler.u16_at (pre ++ l) (Z.of_nat (length pre) + j)
  = EventHandler.u16_at l j.
Proof.
  intros Hj. unfold EventHandler.u16_at.
  rewrite <- Z.add_assoc, !byte_at_app by lia. reflexivity.
Qed.

Lemma u16_le16 (v : Z) (rest : list Z) :
  0 <= v < 65536 -> EventHandler.u16_at (le16 v ++ rest) 0 = Some v.
Proof.
  intros Hv. unfold EventHandler.u16_at, le16. simpl. f_equal.
  assert (0 <= v mod 256 < 256) by (apply Z.mod_pos_bound; lia).
  assert (0 <= v / 256 < 256)
    by (split; [apply Z.div_pos; lia | apply Z.div_lt_upper_bound; lia]).
  rewrite lor_bytes by assumption.
  unfold wrap16. rewrite Z.mod_small; pose proof (Z.div_mod v 256); lia.
Qed.

Lemma SERVICE_line_fits (a b c : Z) :
  response_bytes (EventHandler.SERVICE_line a b c)
  = EventHandler.SERVICE_line a b c.
Proof. apply response_bytes_fits. simpl. lia. Qed.

Lemma CHAR_line_fits (a b c d : Z) :
  response_bytes (EventHandler.CHAR_line a b c d)
  = EventHandler.CHAR_line a b c d.
Proof. apply response_bytes_fits. simpl. lia. Qed.


Lemma services_loop_decodes (todo : list Service) :
  forall (k : nat) (pre rest : list Z) (num : Z),
    Forall service_ok todo ->
    length pre = (6 * k)%nat ->
    (k + length todo <= 43)%nat ->
    num = Z.of_nat (k + length todo) ->
    EventHandler.services_loop (length todo) (Z.of_nat k) num
      (pre ++ flat_map service_bytes todo ++ rest) 6
    = Some (map (fun r => Send (service_line r)) todo).
Proof.
  induction todo as [ | [[s e] u] todo IH];
    intros k pre rest num Hok Hpre Hfit Hnum; [reflexivity | ].
  apply Forall_cons in Hok as [(Hs & He & Hu) Hok].
  change (length ((s, e, u) :: todo)) with (S (length todo)) in *.
  cbn [EventHandler.services_loop].
  replace (Z.of_nat k <? num) with true by (symmetry; apply Z.ltb_lt; lia).
  assert (Hoff : wrap8 (Z.of_nat k * 6) = Z.of_nat (length pre)).
  { unfold wrap8. rewrite Z.mod_small; lia. }
  rewrite Hoff.
  match goal with
  | |- context [EventHandler.u16_at ?d _] => set (data := d)
  end.
  assert (Hdata : data
                  = (pre ++ le16 s ++ le16 e ++ le16 u
                     ++ flat_map service_bytes todo ++ rest)%list).
  { unfold data. cbn [flat_map service_bytes].
    rewrite <- !app_assoc. reflexivity. }
  assert (H0 : EventHandler.u16_at data (Z.of_nat (length pre)) = Some s).
  { rewrite Hdata. rewrite <- (Z.add_0_r (Z.of_nat (length pre))).
    rewrite u16_at_app by lia. apply u16_le16. exact Hs. }
  assert (H2 : EventHandler.u16_at data (Z.of_nat (length pre) + 2) = Some e).
  { rewrite Hdata. rewrite u16_at_app by lia.
    change 2 with (Z.of_nat (length (le16 s)) + 0).
    rewrite u16_at_app by lia. apply u16_le16. exact He. }
  assert (H4 : EventHandler.u16_at data (Z.of_nat (length pre) + 4) = Some u).
  { rewrite Hdata. rewrite u16_at_app by lia.
    rewrite (app_assoc (le16 s)).
    change 4 with (Z.of_nat (length (le16 s ++ le16 e)) + 0).
    rewrite u16_at_app by lia. apply u16_le16. exact Hu. }
  rewrite H0, H2, H4. change (6 =? 6) with true. cbv iota.
  assert (Hnext : wrap8 (Z.of_nat k + 1) = Z.of_nat (S k)).
  { unfold wrap8. rewrite Z.mod_small; lia. }
  rewrite Hnext.
  assert (Hdata' : data
                   = ((pre ++ service_bytes (s, e, u))
                      ++ flat_map service_bytes todo ++ rest)%list).
  { rewrite Hdata. cbn [service_bytes]. rewrite <- !app_assoc. reflexivity. }
  rewrite Hdata'.
  rewrite (IH (S k) (pre ++ service_bytes (s, e, u))%list rest num Hok).
  - rewrite SERVICE_line_fits. reflexivity.
  - rewrite length_app. cbn [service_bytes le16 length app]. lia.
  - lia.
  - lia.
Qed.

(** X25. The report of a service discovery with 16-bit UUIDs: when the
    attribute data holds up to 43 services of six bytes each (start
    handle, end handle, UUID, low byte first) and the length passed is
    that of the services, one [+SERVICE] line is sent for each service, in
    order, with the three values in four hex digits each; bytes that
    follow in the array are not looked at. *)
Theorem services_are_reported (conn_handle : Z) (services : list Service)
    (rest : list Z) :
  Forall service_ok services ->
  (length services <= 43)%nat ->
  EventHandler.BLE_EventHandler_OnServiceDiscovered conn_handle
    (flat_map service_bytes services ++ rest)
    (6 * Z.of_nat (length services)) 6
  = Some (map (fun r => Send (service_line r)) services).
Proof.
  intros Hok Hfit. unfold EventHandler.BLE_EventHandler_OnServiceDiscovered.
  change (6 =? 0) with false. cbv iota zeta.
  assert (Hnum : wrap8 (6 * Z.of_nat (length services) / 6)
                 = Z.of_nat (length services)).
  { rewrite Z.mul_comm, Z.div_mul by lia. unfold wrap8.
    apply Z.mod_small. lia. }
  rewrite Hnum, Nat2Z.id.
  apply (services_loop_decodes services 0 [] rest); [exact Hok | | | ];
    simpl; lia.
Qed.

Lemma services_are_reported_witness :
  EventHandler.BLE_EventHandler_OnServiceDiscovered 7
    ([1; 0; 5; 0; 0; 24; 16; 0; 255; 255; 10; 24] ++ [])
    (6 * Z.of_nat 2) 6
  = Some [Send ("+SERVICE:0x0001,0x0005,0x1800" ++ CRLF);
          Send ("+SERVICE:0x0010,0xFFFF,0x180A" ++ CRLF)].
Proof.
  refine (services_are_reported 7 [(1, 5, 6144); (16, 65535, 6154)] [] _ _).
  - repeat constructor; lia.
  - simpl. lia.
Defined.


Lemma chars_loop_decodes (todo : list Characteristic) :
  forall (k : nat) (pre rest : list Z) (num : Z),
    Forall characteristic_ok todo ->
    length pre = (7 * k)%nat ->
    (k + length todo <= 37)%nat ->
    num = Z.of_nat (k + length todo) ->
    EventHandler.chars_loop (length todo) (Z.of_nat k) num
      (pre ++ flat_map characteristic_bytes todo ++ rest) 7
    = Some (map (fun r => Send (characteristic_line r)) todo).
Proof.
  induction todo as [ | [[[a p] v] u] todo IH];
    intros k pre rest num Hok Hpre Hfit Hnum; [reflexivity | ].
  apply Forall_cons in Hok as [(Ha & Hp & Hv & Hu) Hok].
  change (length ((a, p, v, u) :: todo)) with (S (length todo)) in *.
  cbn [EventHandler.chars_loop].
  replace (Z.of_nat k <? num) with true by (symmetry; apply Z.ltb_lt; lia).
  assert (Hoff : wrap8 (Z.of_nat k * 7) = Z.of_nat (length pre)).
  { unfold wrap8. rewrite Z.mod_small; lia. }
  rewrite Hoff.
  match goal with
  | |- context [EventHandler.u16_at ?d _] => set (data := d)
  end.
  assert (Hdata : data
                  = (pre ++ le16 a ++ [p] ++ le16 v ++ le16 u
                     ++ flat_map characteristic_bytes todo ++ rest)%list).
  { unfold data. cbn [flat_map characteristic_bytes].
    rewrite <- !app_assoc. reflexivity. }
  assert (H0 : EventHandler.u16_at data (Z.of_nat (length pre)) = Some a).
  { rewrite Hdata. rewrite <- (Z.add_0_r (Z.of_nat (length pre))).
    rewrite u16_at_app by lia. apply u16_le16. exact Ha. }
  assert (H2 : EventHandler.byte_at data (Z.of_nat (length pre) + 2) = Some p).
  { rewrite Hdata. rewrite byte_at_app by lia. reflexivity. }
  assert (H3 : EventHandler.u16_at data (Z.of_nat (length pre) + 3) = Some v).
  { rewrite Hdata. rewrite u16_at_app by lia.
    rewrite (app_assoc (le16 a)).
    change 3 with (Z.of_nat (length (le16 a ++ [p])) + 0).
    rewrite u16_at_app by lia. apply u16_le16. exact Hv. }
  assert (H5 : EventHandler.u16_at data (Z.of_nat (length pre) + 5) = Some u).
  { rewrite Hdata. rewrite u16_at_app by lia.
    rewrite (app_assoc (le16 a)), (app_assoc (le16 a ++ [p])).
    change 5 with (Z.of_nat (length ((le16 a ++ [p]) ++ le16 v)) + 0).
    rewrite u16_at_app by lia. apply u16_le16. exact Hu. }
  rewrite H0, H2, H3, H5. change (7 =? 7) with true. cbv iota.
  assert (Hnext : wrap8 (Z.of_nat k + 1) = Z.of_nat (S k)).
  { unfold wrap8. rewrite Z.mod_small; lia. }
  rewrite Hnext.
  assert (Hdata' : data
                   = ((pre ++ characteristic_bytes (a, p, v, u))
                      ++ flat_map characteristic_bytes todo ++ rest)%list).
  { rewrite Hdata. cbn [characteristic_bytes]. rewrite <- !app_assoc.
    reflexivity. }
  rewrite Hdata'.
  rewrite (IH (S k) (pre ++ characteristic_bytes (a, p, v, u))%list rest num
             Hok).
  - rewrite CHAR_line_fits. reflexivity.
  - rewrite length_app. cbn [characteristic_bytes le16 length app]. lia.
  - lia.
  - lia.
Qed.

(** X26. The report of a characteristic discovery with 16-bit UUIDs.  The
    records are read from the first byte of the array on, although the
    length passed is taken to count one byte more than the records: when
    the array starts with up to 37 characteristics of seven bytes each
    (declaration handle, properties, value handle, UUID, low byte first)
    and the length passed is one more than theirs, one [+CHAR] line is
    sent for each, in order.  With a length below 2 or a record size below
    5 nothing is sent and nothing is read. *)
Theorem characteristics_are_reported (conn_handle : Z)
    (characteristics : list Characteristic) (rest : list Z) :
  Forall characteristic_ok characteristics ->
  (length characteristics <= 37)%nat ->
  EventHandler.BLE_EventHandler_OnCharacteristicDiscovered conn_handle
    (flat_map characteristic_bytes characteristics ++ rest)
    (7 * Z.of_nat (length characteristics) + 1) 7
  = Some (map (fun r => Send (characteristic_line r)) characteristics)
  /\ forall data data_len pair_len,
       data_len < 2 \/ pair_len < 5 ->
       EventHandler.BLE_EventHandler_OnCharacteristicDiscovered conn_handle
         data data_len pair_len = Some [].
Proof.
  intros Hok Hfit. split.
  - unfold EventHandler.BLE_EventHandler_OnCharacteristicDiscovered.
    destruct characteristics as [ | c cs] eqn:Hcs; [reflexivity | ].
    rewrite <- Hcs in *.
    assert (Hlen : (1 <= length characteristics)%nat)
      by (rewrite Hcs; simpl; lia).
    replace (7 * Z.of_nat (length characteristics) + 1 <? 2) with false
      by (symmetry; apply Z.ltb_ge; lia).
    change (7 <? 5) with false. cbv iota zeta. cbn [orb].
    assert (Hnum : wrap8 (wrap16 (7 * Z.of_nat (length characteristics) + 1 - 1)
                          / 7)
                   = Z.of_nat (length characteristics)).
    { replace (7 * Z.of_nat (length characteristics) + 1 - 1)
        with (Z.of_nat (length characteristics) * 7) by lia.
      unfold wrap16, wrap8. rewrite (Z.mod_small (_ * 7)) by lia.
      rewrite Z.div_mul by lia. apply Z.mod_small. lia. }
    rewrite Hnum, Nat2Z.id.
    apply (chars_loop_decodes characteristics 0 [] rest); [exact Hok | | | ];
      simpl; lia.
  - intros data data_len pair_len Hbad.
    unfold EventHandler.BLE_EventHandler_OnCharacteristicDiscovered.
    replace ((data_len <? 2) || (pair_len <? 5)) with true; [reflexivity | ].
    symmetry. apply orb_true_iff.
    destruct Hbad; [left | right]; apply Z.ltb_lt; assumption.
Qed.

Lemma characteristics_are_reported_witness :
  EventHandler.BLE_EventHandler_OnCharacteristicDiscovered 7
    ([2; 0; 18; 3; 0; 0; 42] ++ [99]) (7 * Z.of_nat 1 + 1) 7
  = Some [Send ("+CHAR:0x0002,0x12,0x0003,0x2A00" ++ CRLF)].
Proof.
  refine (proj1 (characteristics_are_reported 7 [(2, 18, 3, 10752)] [99] _ _)).
  - repeat constructor; lia.
  - simpl. lia.
Defined.


(** * Blanks at the end of a line *)

Lemma char_at_app_l (s t : string) (k : nat) :
  (k < String.length s)%nat -> char_at (s ++ t) k = char_at s k.
Proof.
  revert k. induction s as [ | c s IH]; intros k Hk; simpl in Hk; [lia | ].
  destruct k as [ | k]; [reflexivity | ].
  unfold char_at in *. simpl. apply IH. lia.
Qed.

Lemma char_at_app_r (s t : string) (k : nat) :
  char_at (s ++ t) (String.length s + k) = char_at t k.
Proof.
  induction s as [ | c s IH]; [reflexivity | ].
  unfold char_at in *. simpl. exact IH.
Qed.

Lemma all_blank_char_at (ws : string) (k : nat) :
  all_blank ws = true -> (k < String.length ws)%nat ->
  is_blank (char_at ws k) = true.
Proof.
  revert k. induction ws as [ | c ws IH]; intros k Hb Hk; simpl in Hk; [lia | ].
  simpl in Hb. apply andb_true_iff in Hb as [Hc Hb].
  destruct k as [ | k]; [exact Hc | ].
  unfold char_at in *. simpl. apply IH; [exact Hb | lia].
Qed.

Lemma trim_loop_blanks (line ws : string) (k : nat) :
  all_blank ws = true -> (k <= String.length ws)%nat ->
  trim_loop (String.length line + k) (line ++ ws)
  = trim_loop (String.length line) (line ++ ws).
Proof.
  intros Hb. induction k as [ | k IH]; intros Hk.
  - rewrite Nat.add_0_r. reflexivity.
  - rewrite Nat.add_succ_r. cbn [trim_loop].
    rewrite char_at_app_r.
    pose proof (all_blank_char_at ws k Hb ltac:(lia)) as Hc.
    unfold is_blank in Hc. rewrite Hc. apply IH. lia.
Qed.

Lemma trim_loop_prefix (line ws : string) (n : nat) :
  (n <= String.length line)%nat ->
  trim_loop n (line ++ ws) = trim_loop n line.
Proof.
  induction n as [ | n IH]; intros Hn; [reflexivity | ].
  cbn [trim_loop]. rewrite char_at_app_l by lia.
  destruct (_ || _); [apply IH; lia | reflexivity].
Qed.

Lemma trim_loop_le (n : nat) (s : string) : (trim_loop n s <= n)%nat.
Proof.
  induction n as [ | n IH]; [reflexivity | ].
  cbn [trim_loop]. destruct (_ || _); lia.
Qed.

Lemma str_take_prefix (line ws : string) (n : nat) :
  (n <= String.length line)%nat -> str_take n (line ++ ws) = str_take n line.
Proof.
  revert n. induction line as [ | c line IH]; intros n Hn; simpl in Hn.
  - replace n with 0%nat by lia. destruct ws; reflexivity.
  - destruct n as [ | n]; [reflexivity | ]. simpl. rewrite IH by lia.
    reflexivity.
Qed.

Lemma trimmed_blanks (line ws : string) :
  all_blank ws = true -> (String.length (line ++ ws) <= 127)%nat ->
  trimmed (line ++ ws) = trimmed line.
Proof.
  intros Hb Hlen. unfold trimmed.
  change (Z.to_nat (AT_CMD_MAX_LEN - 1)) with 127%nat.
  rewrite str_length_app in Hlen.
  rewrite (str_take_all (line ++ ws)) by (rewrite str_length_app; lia).
  rewrite (str_take_all line) by lia.
  rewrite str_length_app, trim_loop_blanks by (assumption || lia).
  rewrite trim_loop_prefix by lia.
  apply str_take_prefix. apply trim_loop_le.
Qed.

(** X27. Blanks at the end of a line do not matter: a line of at most 127
    characters that ends in carriage returns, line feeds and spaces is
    processed exactly as the line without them. *)
Theorem trailing_blanks_are_ignored (line ws : string) (e : Env)
    (m : Machine) :
  all_blank ws = true ->
  (String.length (line ++ ws) <= 127)%nat ->
  AT_Command_Process (Some (line ++ ws)) e m
  = AT_Command_Process (Some line) e m.
Proof.
  intros Hb Hlen. pose proof (trimmed_blanks line ws Hb Hlen) as Ht.
  unfold AT_Command_Process.
  destruct line as [ | c line].
  - destruct ws as [ | w ws]; [reflexivity | ].
    change ("" ++ String w ws) with (String w ws) in *.
    rewrite Ht. reflexivity.
  - change (String c line ++ ws) with (String c (line ++ ws)) in *.
    rewrite Ht. reflexivity.
Qed.

Lemma trailing_blanks_are_ignored_witness :
  AT_Command_Process (Some ("AT+LIST" ++ " " ++ CRLF)) two_device_env power_on
  = AT_Command_Process (Some "AT+LIST") two_device_env power_on.
Proof.
  apply (trailing_blanks_are_ignored "AT+LIST" (" " ++ CRLF)).
  - reflexivity.
  - vm_compute. lia.
Defined.


(** * The scan duration *)

Lemma ParseUInt16_range (s : option string) : 0 <= ParseUInt16 s <= 65535.
Proof.
  destruct s as [[ | c s] | ]; simpl; try lia.
  apply (ParseUInt16_loop_range (String c s) 0).
Qed.

Lemma dispatch_SCAN (rest : string) (e : Env) (m : Machine) :
  dispatch ("AT+SCAN" ++ rest) e m
  = Ok tt
      (says m
         [Call (AT_SCAN_Handler
                  (if Ascii.eqb (char_at rest 0) "="%char
                      && negb (Ascii.eqb (char_at rest 1) NUL)
                   then
                     if 0 <? ParseUInt16 (Some (str_drop 1 rest))
                     then ParseUInt16 (Some (str_drop 1 rest))
                     else 5000
                   else 5000))]).
Proof. destruct rest; reflexivity. Qed.

(** X7. The scan duration.  Every line that, once trimmed, begins with
    [AT+SCAN] starts a scan, and the duration handed to [AT_SCAN_Handler]
    is always within 1..65535 ms: [AT+SCAN=<n>] with a decimal [n] in that
    range asks for [n], and [n] = 0, an [n] above 65535 and [AT+SCAN]
    alone all ask for the default of 5000 ms. *)
Theorem AT_SCAN_duration (line : string) (e : Env) (m : Machine) :
  String.prefix "AT+SCAN" (trimmed line) = true ->
  (exists duration,
     AT_Command_Process (Some line) e m
     = Ok tt (says m [Call (AT_SCAN_Handler duration)])
     /\ 1 <= duration <= 65535)
  /\ (forall n,
        trimmed line = "AT+SCAN=" ++ n -> is_field n ->
        AT_Command_Process (Some line) e m
        = Ok tt
            (says m
               [Call (AT_SCAN_Handler
                        (if (1 <=? field_value n) && (field_value n <=? 65535)
                         then field_value n else 5000))]))
  /\ (trimmed line = "AT+SCAN" ->
      AT_Command_Process (Some line) e m
      = Ok tt (says m [Call (AT_SCAN_Handler 5000)])).
Proof.
  intros Hpre.
  assert (Hrun : AT_Command_Process (Some line) e m
                 = dispatch (trimmed line) e m)
    by exact (Process_dispatch line "+SCAN" e m Hpre).
  rewrite Hrun. split; [ | split].
  - rewrite (prefix_app _ _ Hpre), dispatch_SCAN.
    eexists. split; [reflexivity | ].
    pose proof (ParseUInt16_range
                  (Some (str_drop 1
                           (str_drop (String.length "AT+SCAN")
                              (trimmed line))))) as Hr.
    destruct (_ && _); [ | lia].
    destruct (Z.ltb_spec 0
                (ParseUInt16
                   (Some (str_drop 1
                            (str_drop (String.length "AT+SCAN")
                               (trimmed line)))))); lia.
  - intros n Ht Hn. rewrite Ht.
    change ("AT+SCAN=" ++ n) with ("AT+SCAN" ++ String "="%char n).
    rewrite dispatch_SCAN.
    change (str_drop 1 (String "="%char n)) with n.
    change (char_at (String "="%char n) 0) with "="%char.
    change (char_at (String "="%char n) 1) with (char_at n 0).
    rewrite (ParseUInt16_last_any_field n Hn).
    pose proof (field_value_nonneg n (proj2 Hn)) as H0.
    destruct Hn as [Hne Hd]. destruct n as [ | c n']; [congruence | ].
    assert (Hc : is_digit c = true).
    { simpl in Hd. apply andb_true_iff in Hd. tauto. }
    change (char_at (String c n') 0) with c.
    rewrite (digit_not_NUL c Hc).
    change (Ascii.eqb "=" "=" && negb false) with true. cbv iota.
    do 3 f_equal. f_equal. f_equal. unfold as_uint16.
    destruct (Z.leb_spec (field_value (String c n')) 65535);
      destruct (Z.leb_spec 1 (field_value (String c n')));
      split_comparisons; (reflexivity || lia).
  - intros Ht. rewrite Ht. reflexivity.
Qed.

Lemma AT_SCAN_duration_witness :
  AT_Command_Process (Some "AT+SCAN=70000") (quiet_env 0) power_on
  = Ok tt (says power_on [Call (AT_SCAN_Handler 5000)]).
Proof.
  assert (Hn : is_field "70000") by (split; [discriminate | reflexivity]).
  exact (proj1 (proj2 (AT_SCAN_duration "AT+SCAN=70000" (quiet_env 0)
                         power_on eq_refl)) "70000" eq_refl Hn).
Defined.
